(** * Otterdog: the reconciliation core of the model layer

    A shallow embedding of the parts of
    [otterdog/models/environment.py], [otterdog/models/repository.py],
    [otterdog/models/organization_settings.py],
    [otterdog/models/organization_workflow_settings.py] and
    [otterdog/providers/github/rest/reference_client.py] that compute
    validation findings, field-level differences, live patches and
    provider-bound mappings and that apply patches, and of the control
    flow of [otterdog/validate.py],
    [otterdog/operations/import_operation.py] and
    [otterdog/webapp/tasks/validate_pull_request.py], followed by the
    properties proved about them.

    Conventions of the embedding:
    - a Python attribute holds a dynamically typed [value]; the sentinel
      [UNSET] is a value of its own, distinct from [None];
    - a [str] is held by its UTF-8 encoding, and [len] counts its
      characters, not its bytes;
    - a [dict] that is iterated or popped from is an insertion-ordered
      association list ([dict]); a dict that is only looked up is a [gmap];
    - a callback that receives findings or patches is a log: a computation
      returns the items handed over so far together with its outcome, which
      is a value or the exception that interrupted it. *)

From Stdlib Require Import ZArith Ascii String List Bool Lia.
From stdpp Require Import gmap strings list fin_maps.

Open Scope string_scope.
Open Scope list_scope.
Open Scope Z_scope.

(** ** Dynamically typed values *)

Inductive value :=
| UNSET
| VNone
| VBool (b : bool)
| VInt (n : Z)
| VStr (s : string)
| VList (l : list string).

#[global] Instance value_eq_dec : EqDecision value.
Proof. solve_decision. Defined.

(** Python's [==] on the values above: [bool] is a subclass of [int], so
    [True == 1] and [False == 0]; values of different types are otherwise
    unequal. *)
Definition py_eq (a b : value) : bool :=
  match a, b with
  | VBool x, VInt n | VInt n, VBool x => bool_decide (n = if x then 1 else 0)
  | _, _ => bool_decide (a = b)
  end.

Definition py_ne (a b : value) : bool := negb (py_eq a b).

(** [x is True], [x is False], [x is None]: identity with the singletons. *)
Definition is_True (v : value) : bool :=
  match v with VBool true => true | _ => false end.
Definition is_False (v : value) : bool :=
  match v with VBool false => true | _ => false end.
Definition is_None (v : value) : bool :=
  match v with VNone => true | _ => false end.

(** Truth value of an object in a condition.  The class of [UNSET] is not
    among the sources; the sentinel is taken to be falsy, like [None], and
    no property below depends on that choice. *)
Definition truthy (v : value) : bool :=
  match v with
  | UNSET | VNone => false
  | VBool b => b
  | VInt n => negb (n =? 0)
  | VStr s => negb (String.eqb s "")
  | VList l => match l with [] => false | _ => true end
  end.

(** Modelled from the spec: [otterdog.utils.is_unset] and
    [is_set_and_valid] (the module [otterdog/utils] is not among the
    sources).  Unset means "not specified", as opposed to [None], which
    means "explicitly cleared"; a value is set and valid when it is
    neither. *)
Definition is_unset (v : value) : bool :=
  match v with UNSET => true | _ => false end.

(** Modelled from the spec: [otterdog.utils.is_set_and_valid], see above. *)
Definition is_set_and_valid (v : value) : bool :=
  negb (is_unset v) && negb (is_None v).

(** ** Strings *)

(** A [str] is held by its UTF-8 encoding, one [ascii] per byte: a
    character is one leading byte followed by up to three continuation
    bytes, and the continuation bytes are the bytes [10xxxxxx]. *)
Definition is_continuation_byte (c : ascii) : bool :=
  match c with
  | Ascii _ _ _ _ _ _ b6 b7 => (b7 && negb b6)%bool
  end.

(** [len(s)] for a [str]: the number of its characters. *)
Fixpoint str_len (s : string) : nat :=
  match s with
  | EmptyString => 0%nat
  | String c r =>
      if is_continuation_byte c then str_len r else S (str_len r)
  end.

Definition lower_ascii (c : ascii) : ascii :=
  let n := nat_of_ascii c in
  if (Nat.leb 65 n && Nat.leb n 90)%bool then ascii_of_nat (n + 32) else c.

(** [str.lower()].  Organization and repository names are ASCII, on which
    [lower] maps [A-Z] to [a-z] and leaves every other character alone. *)
Fixpoint lower (s : string) : string :=
  match s with
  | EmptyString => EmptyString
  | String c r => String (lower_ascii c) (lower r)
  end.

Definition endswith (s suffix : string) : bool :=
  let n := String.length s in
  let m := String.length suffix in
  (Nat.leb m n && String.eqb (substring (n - m) m s) suffix)%bool.

Definition removesuffix (s suffix : string) : string :=
  if endswith s suffix
  then substring 0 (String.length s - String.length suffix) s
  else s.

(** [s.rsplit(sep)[-1]] for a one-character separator: the part of [s]
    after its last occurrence of [sep] (all of [s] when there is none). *)
Fixpoint last_segment (sep : ascii) (s : string) : string :=
  match s with
  | EmptyString => EmptyString
  | String c r =>
      let rest := last_segment sep r in
      if existsb (Ascii.eqb sep) (list_ascii_of_string r)
      then rest
      else if Ascii.eqb c sep then r else String c r
  end.

(** ** Exceptions and logging computations *)

Inductive exn :=
| KeyError (k : string)
| TypeError
| AssertionError
| RuntimeError (msg : string).

Inductive result (A : Type) :=
| Ok (a : A)
| Raise (e : exn).
Arguments Ok {A} a.
Arguments Raise {A} e.

Definition result_bind {A B} (m : result A) (f : A -> result B) : result B :=
  match m with Ok a => f a | Raise e => Raise e end.

Declare Scope result_scope.
Delimit Scope result_scope with result.
Notation "'let?' x := m 'in' k" := (result_bind m (fun x => k))
  (at level 10, x name, m at level 100, k at level 200) : result_scope.

(** A computation that hands items of type [O] to a callback: the items
    handed over so far, in order, and the outcome. *)
Definition Emit (O A : Type) : Type := (list O * result A)%type.

Section Emit.
Context {O : Type}.

Definition emit_ret {A} (a : A) : Emit O A := ([], Ok a).
Definition emit_raise {A} (e : exn) : Emit O A := ([], Raise e).
Definition emit (o : O) : Emit O unit := ([o], Ok tt).
Definition emit_lift {A} (r : result A) : Emit O A := ([], r).

Definition emit_bind {A B} (m : Emit O A) (f : A -> Emit O B) : Emit O B :=
  match m with
  | (out, Ok a) => let '(out', r) := f a in (out ++ out', r)
  | (out, Raise e) => (out, Raise e)
  end.

Definition emitted {A} (m : Emit O A) : list O := fst m.
Definition outcome {A} (m : Emit O A) : result A := snd m.
End Emit.

Declare Scope emit_scope.
Delimit Scope emit_scope with emit.
Notation "'do' x <- m ; k" := (emit_bind m (fun x => k))
  (at level 10, x name, m at level 100, k at level 200) : emit_scope.
Notation "'run' m ; k" := (emit_bind m (fun _ => k))
  (at level 10, m at level 100, k at level 200) : emit_scope.

(** ** Insertion-ordered dictionaries *)

Definition dict (V : Type) : Type := list (string * V).

Section Dict.
Context {V : Type}.

Fixpoint dict_get (d : dict V) (k : string) : option V :=
  match d with
  | [] => None
  | (k', v) :: r => if String.eqb k' k then Some v else dict_get r k
  end.

Definition dict_contains (d : dict V) (k : string) : bool :=
  match dict_get d k with Some _ => true | None => false end.

(** [d[k] = v]: an existing key keeps its position. *)
Fixpoint dict_set (d : dict V) (k : string) (v : V) : dict V :=
  match d with
  | [] => [(k, v)]
  | (k', v') :: r =>
      if String.eqb k' k then (k', v) :: r else (k', v') :: dict_set r k v
  end.

Fixpoint dict_remove (d : dict V) (k : string) : dict V :=
  match d with
  | [] => []
  | (k', v) :: r => if String.eqb k' k then r else (k', v) :: dict_remove r k
  end.

(** [d.pop(k)] without a default: [KeyError] when [k] is missing. *)
Definition dict_pop (d : dict V) (k : string) : result (dict V) :=
  if dict_contains d k then Ok (dict_remove d k) else Raise (KeyError k).

Definition dict_keys (d : dict V) : list string := map fst d.
End Dict.

(** ** Fields and their metadata *)

Module Field.
Record t := mk {
  name : string;
  external_only : bool;
  key : bool;
  model_only : bool;
  read_only : bool;
  nested_model : bool;
}.

Definition plain (n : string) : t := mk n false false false false false.
Definition external (n : string) : t := mk n true false false false false.
Definition keyed (n : string) : t := mk n false true false false false.
Definition model (n : string) : t := mk n false false true false false.
Definition readonly (n : string) : t := mk n false false false true false.
Definition nested (n : string) : t := mk n false false false false true.
End Field.

Record Change := mkChange { from_value : value; to_value : value }.

#[global] Instance Change_eq_dec : EqDecision Change.
Proof. solve_decision. Defined.

(** ** The base class of all entities *)

(** What the generic code of [ModelObject] needs from a concrete entity
    class: its dataclass fields, attribute access by field name, and the
    overridable predicate [include_field_for_diff_computation]. *)
Class ModelObject (T : Type) := {
  all_fields : list Field.t;
  getattribute : T -> string -> value;
  include_field_for_diff_computation : T -> Field.t -> bool;
}.

(** Modelled from the spec: [ModelObject.provider_fields] (the base class in
    [otterdog/models/__init__.py] is not among the sources).  The fields
    that may be sent to the provider: not provider-assigned, not model-only,
    not read-only, and not a nested model. *)
Definition provider_fields (fields : list Field.t) : list Field.t :=
  List.filter
    (fun f => negb (Field.external_only f) && negb (Field.model_only f)
              && negb (Field.read_only f) && negb (Field.nested_model f))
    fields.

(** Modelled from the spec: [ModelObject.get_difference_from] (same missing
    base class), section 4.2: for each field eligible under
    [include_field_for_diff_computation] of the expected object, compare
    the expected with the current value; if they differ and the expected
    value is not unset, record [Change(from=current, to=expected)] under the
    field's name.  Nested models are reconciled by their own patches and
    take no part in the field-level difference. *)
Definition diff_keys `{ModelObject T} (self : T) : list string :=
  map Field.name
    (List.filter
       (fun f => negb (Field.nested_model f)
                 && include_field_for_diff_computation self f
                 && negb (is_unset (getattribute self (Field.name f))))
       all_fields).

(** Modelled from the spec: one step of [get_difference_from], the
    comparison of the two values of one eligible field. *)
Definition diff_step `{ModelObject T} (self other : T)
    (acc : gmap string Change) (key : string) : gmap string Change :=
  let to := getattribute self key in
  let from := getattribute other key in
  if py_ne from to then <[key := mkChange from to]> acc else acc.

(** Modelled from the spec: [ModelObject.get_difference_from] itself, the
    mapping of field name to [Change] built over the eligible fields; an
    empty mapping means no delta. *)
Definition get_difference_from `{ModelObject T} (self other : T)
    : gmap string Change :=
  fold_left (diff_step self other) (diff_keys self) ∅.

(** Modelled from the spec: [otterdog.utils.associate_by_key] and
    [multi_associate_by_key] (module [otterdog/utils], not among the
    sources).  A list of entities is indexed by its keys; keys are unique
    within a list (section 3), and malformed input such as a duplicate key
    aborts the run (section 4.3). *)
Fixpoint associate_by_key {T} (key_func : T -> string) (input : list T)
    (acc : dict T) : result (dict T) :=
  match input with
  | [] => Ok acc
  | item :: rest =>
      let k := key_func item in
      if dict_contains acc k
      then Raise (RuntimeError "duplicate item found")
      else associate_by_key key_func rest (dict_set acc k item)
  end.

(** Modelled from the spec: the inner loop of [multi_associate_by_key],
    which files one entity under each of its keys. *)
Fixpoint associate_keys {T} (item : T) (keys : list string) (acc : dict T)
    : result (dict T) :=
  match keys with
  | [] => Ok acc
  | k :: rest =>
      if dict_contains acc k
      then Raise (RuntimeError "duplicate item found")
      else associate_keys item rest (dict_set acc k item)
  end.

(** Modelled from the spec: [otterdog.utils.multi_associate_by_key], the
    index of a list of entities that have several keys each (a repository:
    its name and its aliases). *)
Fixpoint multi_associate_by_key {T} (key_func : T -> list string)
    (input : list T) (acc : dict T) : result (dict T) :=
  match input with
  | [] => Ok acc
  | item :: rest =>
      match associate_keys item (key_func item) acc with
      | Ok acc' => multi_associate_by_key key_func rest acc'
      | Raise e => Raise e
      end
  end.

(** ** Validation findings *)

Inductive FailureType := INFO | WARNING | ERROR.

#[global] Instance FailureType_eq_dec : EqDecision FailureType.
Proof. solve_decision. Defined.

(** A finding: its severity and the fixed part of its message (the model
    header and the interpolated values are left out). *)
Definition Failure : Type := (FailureType * string)%type.

(** [context.add_failure(failure_type, message)] *)
Definition add_failure (ty : FailureType) (msg : string) : Emit Failure unit :=
  emit (ty, msg).

Definition count_failures (ty : FailureType) (fs : list Failure) : nat :=
  length (List.filter (fun f => bool_decide (fst f = ty)) fs).

(** ** Operations of the interpreter that may raise [TypeError] *)

(** The integer an object stands for in an order comparison with an [int]. *)
Definition as_int (v : value) : result Z :=
  match v with
  | VInt n => Ok n
  | VBool b => Ok (if b then 1 else 0)
  | _ => Raise TypeError
  end.

(** [len(v)] *)
Definition py_len (v : value) : result nat :=
  match v with
  | VStr s => Ok (str_len s)
  | VList l => Ok (length l)
  | _ => Raise TypeError
  end.

(** [v in {s1, s2, ...}] for a set of strings: the object is hashed first,
    and a list is unhashable. *)
Definition in_str_set (v : value) (set : list string) : result bool :=
  match v with
  | VList _ => Raise TypeError
  | _ => Ok (existsb (fun s => py_eq v (VStr s)) set)
  end.

(** [v in [s1, s2, ...]] for a list of strings: a sequence of [==] tests. *)
Definition in_str_list (v : value) (l : list string) : bool :=
  existsb (fun s => py_eq v (VStr s)) l.

(** [name in [s1, s2, ...]] for a field name. *)
Definition name_in (n : string) (l : list string) : bool :=
  existsb (String.eqb n) l.

(** ** Benders: the description of a provider-bound payload *)

Module Bender.
(** What the code builds with jsonbender and plain Python values:
    [S(key)] selects [data[key]], [K(v)] (or a plain constant) yields
    [v], [If(S(sel) == K(v), a, b)] chooses, a dict or a list is bent
    entry by entry. *)
#[warnings="-register-all"] Inductive t :=
| S (key : string)
| K (v : value)
| IfEq (sel : string) (v : value) (a b : t)
| Obj (entries : list (string * t))
| Arr (items : list t).
End Bender.

(** The provider operations that the mappings consult; they are
    collaborators of the model layer and are passed in. *)
Record GitHubProvider := {
  get_actor_ids_with_type : value -> list (string * (Z * string));
}.

(** [data.get(k, default)] *)
Definition data_get (data : gmap string value) (k : string) (default : value)
    : value :=
  match data !! k with Some v => v | None => default end.

(** [k in data] *)
Definition data_contains (data : gmap string value) (k : string) : bool :=
  match data !! k with Some _ => true | None => false end.

(** The comprehension that opens every [get_mapping_to_provider]:
    [{field.name: S(field.name) for field in cls.provider_fields()
      if not is_unset(data.get(field.name, UNSET))}] *)
Definition set_fields_mapping (fields : list Field.t) (data : gmap string value)
    : dict Bender.t :=
  map (fun f => (Field.name f, Bender.S (Field.name f)))
    (List.filter (fun f => negb (is_unset (data_get data (Field.name f) UNSET)))
       (provider_fields fields)).

(** ** Environment *)

Module Environment.
Record t := mk {
  id : value;
  node_id : value;
  name : string;
  wait_timer : value;
  reviewers : value;
  deployment_branch_policy : value;
  branch_policies : value;
}.

Definition fields : list Field.t :=
  [ Field.external "id"; Field.external "node_id"; Field.keyed "name";
    Field.plain "wait_timer"; Field.plain "reviewers";
    Field.plain "deployment_branch_policy"; Field.plain "branch_policies" ].

Definition getattribute (self : t) (key : string) : value :=
  if String.eqb key "id" then id self
  else if String.eqb key "node_id" then node_id self
  else if String.eqb key "name" then VStr (name self)
  else if String.eqb key "wait_timer" then wait_timer self
  else if String.eqb key "reviewers" then reviewers self
  else if String.eqb key "deployment_branch_policy"
       then deployment_branch_policy self
  else if String.eqb key "branch_policies" then branch_policies self
  else UNSET.

Definition validate (self : t) : Emit Failure unit :=
  (run (if negb (is_unset (wait_timer self)) then
          do n <- emit_lift (as_int (wait_timer self));
          if negb ((0 <=? n) && (n <=? 43200))
          then add_failure ERROR
                 "has 'wait_timer' outside of supported range (0, 43200)."
          else emit_ret tt
        else emit_ret tt);
   if is_set_and_valid (deployment_branch_policy self) then
     run (do known <- emit_lift
               (in_str_set (deployment_branch_policy self)
                  ["all"; "protected"; "selected"]);
          if negb known
          then add_failure ERROR
                 "has 'deployment_branch_policy' with a value that is not allowed, only values ('all' | 'protected' | 'selected') are allowed."
          else emit_ret tt);
     do ignored <- emit_lift
           (if py_ne (deployment_branch_policy self) (VStr "selected")
            then match py_len (branch_policies self) with
                 | Ok n => Ok (Nat.ltb 0 n)
                 | Raise e => Raise e
                 end
            else Ok false);
     if ignored : bool
     then add_failure WARNING
            "has 'deployment_branch_policy' not set to 'selected', but 'branch_policies' is set, setting will be ignored."
     else emit_ret tt
   else emit_ret tt)%emit.

Definition include_field_for_diff_computation (self : t) (field : Field.t)
    : bool :=
  if py_ne (deployment_branch_policy self) (VStr "selected")
     && name_in (Field.name field) ["branch_policies"]
  then false
  else true.

Definition include_field_for_patch_computation (self : t) (field : Field.t)
    : bool := true.

Definition get_mapping_to_provider (org_id : string)
    (data : gmap string value) (provider : GitHubProvider)
    : result (dict Bender.t) :=
  let mapping := set_fields_mapping fields data in
  let mapping :=
    if dict_contains mapping "reviewers" then
      let reviewers := data_get data "reviewers" UNSET in
      let reviewer_mapping :=
        map (fun '(actor_type, (actor_id, actor_node_id)) =>
               Bender.Obj [("type", Bender.K (VStr actor_type));
                           ("id", Bender.K (VInt actor_id))])
          (get_actor_ids_with_type provider reviewers) in
      dict_set mapping "reviewers" (Bender.Arr reviewer_mapping)
    else mapping in
  if dict_contains mapping "deployment_branch_policy" then
    let deployment_branch_policy :=
      data_get data "deployment_branch_policy" UNSET in
    (let? deployment_branch_policy_mapping :=
       if py_eq deployment_branch_policy (VStr "all") then
         Ok (Bender.K VNone)
       else if py_eq deployment_branch_policy (VStr "protected") then
         Ok (Bender.Obj [("protected_branches", Bender.K (VBool true));
                         ("custom_branch_policies", Bender.K (VBool false))])
       else if py_eq deployment_branch_policy (VStr "selected") then
         Ok (Bender.Obj [("protected_branches", Bender.K (VBool false));
                         ("custom_branch_policies", Bender.K (VBool true))])
       else Raise (RuntimeError "unexpected deployment_branch_policy")
     in Ok (dict_set mapping "deployment_branch_policy"
              deployment_branch_policy_mapping))%result
  else Ok mapping.
End Environment.

#[global] Instance Environment_model : ModelObject Environment.t := {
  all_fields := Environment.fields;
  getattribute := Environment.getattribute;
  include_field_for_diff_computation :=
    Environment.include_field_for_diff_computation;
}.

(** ** Nested entities whose classes are not among the sources *)

(** Modelled from the spec: the classes of nested entities that are not
    among the sources (section 3). *)
Inductive NestedKind :=
| WEBHOOK
| SECRET
| BRANCH_PROTECTION_RULE
| WORKFLOW_SETTINGS.

#[global] Instance NestedKind_eq_dec : EqDecision NestedKind.
Proof. solve_decision. Defined.

Module Nested.
(** Modelled from the spec: [RepositoryWebhook], [RepositorySecret],
    [BranchProtectionRule] and [RepositoryWorkflowSettings] (their modules
    are not among the sources).  An entity is a record of named fields and
    is identified within its parent's list by its key: a webhook by its
    URL, a secret by its name, a rule by its pattern (section 3). *)
Record t := mk {
  kind : NestedKind;
  key : string;
  attributes : dict value;
}.

(** Modelled from the spec: attribute access of such an entity; a field
    it does not specify is unset. *)
Definition getattribute (self : t) (k : string) : value :=
  match dict_get (attributes self) k with Some v => v | None => UNSET end.

(** Modelled from the spec: the field-level difference of section 4.2 for
    such an entity, every field being eligible. *)
Definition get_difference_from (self other : t) : gmap string Change :=
  fold_left
    (fun acc '(k, to) =>
       let from := getattribute other k in
       if negb (is_unset to) && py_ne from to
       then <[k := mkChange from to]> acc
       else acc)
    (attributes self) ∅.
End Nested.

(** ** Repository: data and mappings *)

Module Repository.
Record t := mk {
  id : value;
  node_id : value;
  name : string;
  description : value;
  homepage : value;
  private : value;
  has_discussions : value;
  has_issues : value;
  has_projects : value;
  has_wiki : value;
  is_template : value;
  template_repository : value;
  topics : value;
  default_branch : value;
  allow_rebase_merge : value;
  allow_merge_commit : value;
  allow_squash_merge : value;
  allow_auto_merge : value;
  delete_branch_on_merge : value;
  allow_update_branch : value;
  squash_merge_commit_title : value;
  squash_merge_commit_message : value;
  merge_commit_title : value;
  merge_commit_message : value;
  archived : value;
  allow_forking : value;
  web_commit_signoff_required : value;
  secret_scanning : value;
  secret_scanning_push_protection : value;
  dependabot_alerts_enabled : value;
  dependabot_security_updates_enabled : value;
  gh_pages_build_type : value;
  gh_pages_source_branch : value;
  gh_pages_source_path : value;
  (* the nested workflow settings; [None] when unset or absent *)
  workflows : option Nested.t;
  (* model only fields *)
  aliases : list string;
  post_process_template_content : value;
  auto_init : value;
  (* nested model fields *)
  webhooks : list Nested.t;
  secrets : list Nested.t;
  branch_protection_rules : list Nested.t;
  environments : list Environment.t;
}.

Definition fields : list Field.t :=
  [ Field.external "id"; Field.external "node_id"; Field.keyed "name";
    Field.plain "description"; Field.plain "homepage"; Field.plain "private";
    Field.plain "has_discussions"; Field.plain "has_issues";
    Field.plain "has_projects"; Field.plain "has_wiki";
    Field.plain "is_template"; Field.readonly "template_repository";
    Field.plain "topics"; Field.plain "default_branch";
    Field.plain "allow_rebase_merge"; Field.plain "allow_merge_commit";
    Field.plain "allow_squash_merge"; Field.plain "allow_auto_merge";
    Field.plain "delete_branch_on_merge"; Field.plain "allow_update_branch";
    Field.plain "squash_merge_commit_title";
    Field.plain "squash_merge_commit_message";
    Field.plain "merge_commit_title"; Field.plain "merge_commit_message";
    Field.plain "archived"; Field.plain "allow_forking";
    Field.plain "web_commit_signoff_required"; Field.plain "secret_scanning";
    Field.plain "secret_scanning_push_protection";
    Field.plain "dependabot_alerts_enabled";
    Field.plain "dependabot_security_updates_enabled";
    Field.plain "gh_pages_build_type"; Field.plain "gh_pages_source_branch";
    Field.plain "gh_pages_source_path"; Field.nested "workflows";
    Field.model "aliases"; Field.model "post_process_template_content";
    Field.model "auto_init"; Field.nested "webhooks"; Field.nested "secrets";
    Field.nested "branch_protection_rules"; Field.nested "environments" ].

(** The attributes that hold plain values, by name.  The nested models are
    components of their own and are not read through [getattribute]. *)
Definition attributes (self : t) : dict value :=
  [ ("id", id self); ("node_id", node_id self); ("name", VStr (name self));
    ("description", description self); ("homepage", homepage self);
    ("private", private self); ("has_discussions", has_discussions self);
    ("has_issues", has_issues self); ("has_projects", has_projects self);
    ("has_wiki", has_wiki self); ("is_template", is_template self);
    ("template_repository", template_repository self);
    ("topics", topics self); ("default_branch", default_branch self);
    ("allow_rebase_merge", allow_rebase_merge self);
    ("allow_merge_commit", allow_merge_commit self);
    ("allow_squash_merge", allow_squash_merge self);
    ("allow_auto_merge", allow_auto_merge self);
    ("delete_branch_on_merge", delete_branch_on_merge self);
    ("allow_update_branch", allow_update_branch self);
    ("squash_merge_commit_title", squash_merge_commit_title self);
    ("squash_merge_commit_message", squash_merge_commit_message self);
    ("merge_commit_title", merge_commit_title self);
    ("merge_commit_message", merge_commit_message self);
    ("archived", archived self); ("allow_forking", allow_forking self);
    ("web_commit_signoff_required", web_commit_signoff_required self);
    ("secret_scanning", secret_scanning self);
    ("secret_scanning_push_protection", secret_scanning_push_protection self);
    ("dependabot_alerts_enabled", dependabot_alerts_enabled self);
    ("dependabot_security_updates_enabled",
       dependabot_security_updates_enabled self);
    ("gh_pages_build_type", gh_pages_build_type self);
    ("gh_pages_source_branch", gh_pages_source_branch self);
    ("gh_pages_source_path", gh_pages_source_path self);
    ("aliases", VList (aliases self));
    ("post_process_template_content", post_process_template_content self);
    ("auto_init", auto_init self) ].

Definition getattribute (self : t) (key : string) : value :=
  match dict_get (attributes self) key with Some v => v | None => UNSET end.

(** [setattr(self, key, v)] for an attribute that holds a plain value. *)
Definition setattr (self : t) (key : string) (v : value) : t :=
  let upd (k : string) (old : value) : value :=
    if String.eqb key k then v else old in
  mk (upd "id" (id self)) (upd "node_id" (node_id self)) (name self)
    (upd "description" (description self)) (upd "homepage" (homepage self))
    (upd "private" (private self))
    (upd "has_discussions" (has_discussions self))
    (upd "has_issues" (has_issues self))
    (upd "has_projects" (has_projects self))
    (upd "has_wiki" (has_wiki self)) (upd "is_template" (is_template self))
    (upd "template_repository" (template_repository self))
    (upd "topics" (topics self)) (upd "default_branch" (default_branch self))
    (upd "allow_rebase_merge" (allow_rebase_merge self))
    (upd "allow_merge_commit" (allow_merge_commit self))
    (upd "allow_squash_merge" (allow_squash_merge self))
    (upd "allow_auto_merge" (allow_auto_merge self))
    (upd "delete_branch_on_merge" (delete_branch_on_merge self))
    (upd "allow_update_branch" (allow_update_branch self))
    (upd "squash_merge_commit_title" (squash_merge_commit_title self))
    (upd "squash_merge_commit_message" (squash_merge_commit_message self))
    (upd "merge_commit_title" (merge_commit_title self))
    (upd "merge_commit_message" (merge_commit_message self))
    (upd "archived" (archived self)) (upd "allow_forking" (allow_forking self))
    (upd "web_commit_signoff_required" (web_commit_signoff_required self))
    (upd "secret_scanning" (secret_scanning self))
    (upd "secret_scanning_push_protection"
       (secret_scanning_push_protection self))
    (upd "dependabot_alerts_enabled" (dependabot_alerts_enabled self))
    (upd "dependabot_security_updates_enabled"
       (dependabot_security_updates_enabled self))
    (upd "gh_pages_build_type" (gh_pages_build_type self))
    (upd "gh_pages_source_branch" (gh_pages_source_branch self))
    (upd "gh_pages_source_path" (gh_pages_source_path self))
    (workflows self) (aliases self)
    (upd "post_process_template_content" (post_process_template_content self))
    (upd "auto_init" (auto_init self))
    (webhooks self) (secrets self) (branch_protection_rules self)
    (environments self).

Definition set_environments (self : t) (environments : list Environment.t)
    : t :=
  mk (id self) (node_id self) (name self) (description self) (homepage self)
    (private self) (has_discussions self) (has_issues self)
    (has_projects self) (has_wiki self) (is_template self)
    (template_repository self) (topics self) (default_branch self)
    (allow_rebase_merge self) (allow_merge_commit self)
    (allow_squash_merge self) (allow_auto_merge self)
    (delete_branch_on_merge self) (allow_update_branch self)
    (squash_merge_commit_title self) (squash_merge_commit_message self)
    (merge_commit_title self) (merge_commit_message self) (archived self)
    (allow_forking self) (web_commit_signoff_required self)
    (secret_scanning self) (secret_scanning_push_protection self)
    (dependabot_alerts_enabled self)
    (dependabot_security_updates_enabled self) (gh_pages_build_type self)
    (gh_pages_source_branch self) (gh_pages_source_path self)
    (workflows self) (aliases self) (post_process_template_content self)
    (auto_init self) (webhooks self) (secrets self)
    (branch_protection_rules self) environments.

(** A repository that specifies nothing but its name: every plain
    attribute is [UNSET], there are no aliases and no nested models. *)
Definition named (name : string) : t :=
  mk UNSET UNSET name UNSET UNSET UNSET UNSET UNSET UNSET UNSET UNSET UNSET
    UNSET UNSET UNSET UNSET UNSET UNSET UNSET UNSET UNSET UNSET UNSET UNSET
    UNSET UNSET UNSET UNSET UNSET UNSET UNSET UNSET UNSET UNSET None []
    UNSET UNSET [] [] [] [].

Definition _security_properties : list string :=
  [ "secret_scanning"; "secret_scanning_push_protection";
    "dependabot_security_updates_enabled" ].

Definition _unavailable_fields_in_archived_repos : list string :=
  [ "description"; "homepage"; "allow_auto_merge"; "allow_merge_commit";
    "allow_rebase_merge"; "allow_squash_merge"; "allow_update_branch";
    "delete_branch_on_merge"; "merge_commit_message"; "merge_commit_title";
    "squash_merge_commit_message"; "squash_merge_commit_title";
    "dependabot_alerts_enabled"; "dependabot_security_updates_enabled";
    "secret_scanning"; "secret_scanning_push_protection"; "has_issues";
    "has_wiki"; "has_projects" ].

Definition _gh_pages_properties : list string :=
  [ "gh_pages_source_branch"; "gh_pages_source_path" ].

Definition get_all_names (self : t) : list string :=
  name self :: aliases self.

Definition include_field_for_diff_computation (self : t) (field : Field.t)
    : bool :=
  (* private repos don't support security analysis. *)
  if is_True (private self)
     && name_in (Field.name field) _security_properties
  then false
  else if is_True (archived self)
          && name_in (Field.name field) _unavailable_fields_in_archived_repos
  then false
  else if in_str_list (gh_pages_build_type self) ["disabled"; "workflow"]
          && name_in (Field.name field) _gh_pages_properties
  then false
  else true.

(** The loop over [_security_properties] in the branch of a private
    repository: [if security_prop in mapping: mapping.pop(security_prop)]. *)
Fixpoint pop_security_properties (props : list string)
    (mapping : dict Bender.t) : result (dict Bender.t) :=
  match props with
  | [] => Ok mapping
  | security_prop :: rest =>
      (let? mapping :=
         if dict_contains mapping security_prop
         then dict_pop mapping security_prop
         else Ok mapping
       in pop_security_properties rest mapping)%result
  end.

(** The loop over [_security_properties] in the other branch, which also
    fills [security_mapping] from the properties that are keys of [data]. *)
Fixpoint nest_security_properties (data : gmap string value)
    (props : list string) (mapping security_mapping : dict Bender.t)
    : result (dict Bender.t * dict Bender.t) :=
  match props with
  | [] => Ok (mapping, security_mapping)
  | security_prop :: rest =>
      (let? mapping :=
         if dict_contains mapping security_prop
         then dict_pop mapping security_prop
         else Ok mapping
       in
       let security_mapping :=
         if data_contains data security_prop then
           if endswith security_prop "_enabled" then
             let github_security_prop :=
               removesuffix security_prop "_enabled" in
             dict_set security_mapping github_security_prop
               (Bender.Obj
                  [("status",
                    Bender.IfEq security_prop (VBool true)
                      (Bender.K (VStr "enabled"))
                      (Bender.K (VStr "disabled")))])
           else
             dict_set security_mapping security_prop
               (Bender.Obj [("status", Bender.S security_prop)])
         else security_mapping in
       nest_security_properties data rest mapping security_mapping)%result
  end.

(** The loop over the two source properties of a legacy GitHub Pages
    build: [mapping.pop(source_prop)] has no guard and no default. *)
Fixpoint nest_source_properties (data : gmap string value)
    (props : list string) (mapping gh_pages_legacy_mapping : dict Bender.t)
    : result (dict Bender.t * dict Bender.t) :=
  match props with
  | [] => Ok (mapping, gh_pages_legacy_mapping)
  | source_prop :: rest =>
      if data_contains data source_prop then
        (let? mapping := dict_pop mapping source_prop in
         let key := last_segment "_" source_prop in
         nest_source_properties data rest mapping
           (dict_set gh_pages_legacy_mapping key (Bender.S source_prop)))%result
      else nest_source_properties data rest mapping gh_pages_legacy_mapping
  end.

Definition get_mapping_to_provider (org_id : string)
    (data : gmap string value) (provider : GitHubProvider)
    : result (dict Bender.t) :=
  let mapping := set_fields_mapping fields data in
  (* private repos do not support secret scanning settings, remove them. *)
  let is_private := data_get data "private" (VBool false) in
  (let? mapping :=
     if truthy is_private then
       pop_security_properties _security_properties mapping
     else
       let? r := nest_security_properties data _security_properties
                   mapping [] in
       let '(mapping, security_mapping) := r in
       if Nat.ltb 0 (length security_mapping)
       then Ok (dict_set mapping "security_and_analysis"
                  (Bender.Obj security_mapping))
       else Ok mapping
   in
   let gh_pages_mapping : dict Bender.t := [] in
   let? r :=
     if data_contains data "gh_pages_build_type" then
       let? mapping := dict_pop mapping "gh_pages_build_type" in
       Ok (mapping,
           dict_set gh_pages_mapping "build_type"
             (Bender.S "gh_pages_build_type"))
     else Ok (mapping, gh_pages_mapping)
   in
   let '(mapping, gh_pages_mapping) := r in
   let gh_pages_build_type := data_get data "gh_pages_build_type" VNone in
   let? r :=
     if is_None gh_pages_build_type
        || py_eq gh_pages_build_type (VStr "legacy")
     then
       let? r := nest_source_properties data
                   ["gh_pages_source_branch"; "gh_pages_source_path"]
                   mapping [] in
       let '(mapping, gh_pages_legacy_mapping) := r in
       if Nat.ltb 0 (length gh_pages_legacy_mapping)
       then Ok (mapping,
                dict_set gh_pages_mapping "source"
                  (Bender.Obj gh_pages_legacy_mapping))
       else Ok (mapping, gh_pages_mapping)
     else Ok (mapping, gh_pages_mapping)
   in
   let '(mapping, gh_pages_mapping) := r in
   if Nat.ltb 0 (length gh_pages_mapping)
   then Ok (dict_set mapping "gh_pages" (Bender.Obj gh_pages_mapping))
   else Ok mapping)%result.
End Repository.

#[global] Instance Repository_model : ModelObject Repository.t := {
  all_fields := Repository.fields;
  getattribute := Repository.getattribute;
  include_field_for_diff_computation :=
    Repository.include_field_for_diff_computation;
}.

(** ** Live patches *)

(** The entities a patch can be about. *)
Inductive Model :=
| MRepository (r : Repository.t)
| MEnvironment (e : Environment.t)
| MNested (n : Nested.t).

Inductive LivePatchType := ADD | REMOVE | CHANGE.

#[global] Instance LivePatchType_eq_dec : EqDecision LivePatchType.
Proof. solve_decision. Defined.

Module LivePatch.
(** Modelled from the spec: the patch record (glossary, section 4.4), with
    the components that the model classes pass to its three constructors
    (the class itself lives in [otterdog/models/__init__.py], which is not
    among the sources); the bound [apply_live_patch] is determined by the
    class of the entity and is not stored. *)
Record t := mk {
  patch_type : LivePatchType;
  expected_object : option Model;
  current_object : option Model;
  changes : option (gmap string Change);
  parent_object : option Model;
  forced_update : bool;
}.

(** Modelled from the spec: [LivePatch.of_addition]. *)
Definition of_addition (expected_object : Model) (parent_object : option Model)
    : t :=
  mk ADD (Some expected_object) None None parent_object false.

(** Modelled from the spec: [LivePatch.of_deletion]. *)
Definition of_deletion (current_object : Model) (parent_object : option Model)
    : t :=
  mk REMOVE None (Some current_object) None parent_object false.

(** Modelled from the spec: [LivePatch.of_changes]. *)
Definition of_changes (expected_object current_object : Model)
    (changes : gmap string Change) (parent_object : option Model)
    (forced_update : bool) : t :=
  mk CHANGE (Some expected_object) (Some current_object) (Some changes)
    parent_object forced_update.
End LivePatch.

(** What [generate_live_patch] reads from the [LivePatchContext]. *)
Record LivePatchContext := {
  org_id : string;
  expected_org_settings : gmap string value;
  modified_org_settings : gmap string Change;
}.

(** [handler(patch)] *)
Definition handler (patch : LivePatch.t) : Emit LivePatch.t unit := emit patch.

(** ** Environment: patch generation *)

Module EnvironmentPatch.
Definition generate_live_patch (expected_object current_object : option Environment.t)
    (parent_object : option Model) (context : LivePatchContext)
    : Emit LivePatch.t unit :=
  match current_object, expected_object with
  | None, Some expected =>
      handler (LivePatch.of_addition (MEnvironment expected) parent_object)
  | None, None => emit_raise AssertionError
  | Some current, None =>
      handler (LivePatch.of_deletion (MEnvironment current) parent_object)
  | Some current, Some expected =>
      let modified_env := get_difference_from expected current in
      if Nat.ltb 0 (size modified_env)
      then handler (LivePatch.of_changes (MEnvironment expected)
                      (MEnvironment current) modified_env parent_object false)
      else emit_ret tt
  end.

(** The two cases in which an unmatched ["github-pages"] environment is
    left alone. *)
Definition is_site_repository (parent : Repository.t)
    (context : LivePatchContext) : bool :=
  String.eqb (lower (Repository.name parent))
    (lower (org_id context +:+ ".github.io")).

Definition keeps_github_pages (parent : Repository.t)
    (context : LivePatchContext) (current_env : Environment.t) : bool :=
  if is_site_repository parent context
     && String.eqb (Environment.name current_env) "github-pages"
  then true
  else if String.eqb (Environment.name current_env) "github-pages"
          && py_ne (Repository.gh_pages_build_type parent) (VStr "disabled")
  then true
  else false.

(** [for current_env in current_environments: ...], threading the dict of
    the expected environments that are still unmatched. *)
Fixpoint for_current_environments (current_environments : list Environment.t)
    (expected_environments_by_name : dict Environment.t)
    (parent : Repository.t) (context : LivePatchContext)
    : Emit LivePatch.t (dict Environment.t) :=
  match current_environments with
  | [] => emit_ret expected_environments_by_name
  | current_env :: rest =>
      let env_name := Environment.name current_env in
      match dict_get expected_environments_by_name env_name with
      | None =>
          (run (if keeps_github_pages parent context current_env
                then emit_ret tt
                else generate_live_patch None (Some current_env)
                       (Some (MRepository parent)) context);
           for_current_environments rest expected_environments_by_name
             parent context)%emit
      | Some expected_env =>
          (run generate_live_patch (Some expected_env) (Some current_env)
                 (Some (MRepository parent)) context;
           do remaining <- emit_lift
                              (dict_pop expected_environments_by_name env_name);
           for_current_environments rest remaining parent context)%emit
      end
  end.

(** [for env_name, env in expected_environments_by_name.items(): ...] *)
Fixpoint for_remaining_environments (remaining : dict Environment.t)
    (parent_object : option Model) (context : LivePatchContext)
    : Emit LivePatch.t unit :=
  match remaining with
  | [] => emit_ret tt
  | (env_name, env) :: rest =>
      (run generate_live_patch (Some env) None parent_object context;
       for_remaining_environments rest parent_object context)%emit
  end.

Definition generate_live_patch_of_list
    (expected_environments current_environments : list Environment.t)
    (parent_object : option Model) (context : LivePatchContext)
    : Emit LivePatch.t unit :=
  (do expected_environments_by_name <-
        emit_lift (associate_by_key Environment.name expected_environments []);
   match parent_object with
   | Some (MRepository parent) =>
       do remaining <- for_current_environments current_environments
                         expected_environments_by_name parent context;
       for_remaining_environments remaining parent_object context
   | _ => emit_raise AssertionError
   end)%emit.
End EnvironmentPatch.

(** ** Nested entities: patch generation *)

Module NestedPatch.
(** Modelled from the spec: [generate_live_patch] and
    [generate_live_patch_of_list] of the nested classes that are not among
    the sources, after section 4.3: a matched current entity yields a
    [CHANGE] when its difference is not empty, an unmatched current entity
    a [REMOVE], and every expected entity left over an [ADD]. *)
Definition generate_live_patch (expected_object current_object : option Nested.t)
    (parent_object : option Model) : Emit LivePatch.t unit :=
  match current_object, expected_object with
  | None, Some expected =>
      handler (LivePatch.of_addition (MNested expected) parent_object)
  | None, None => emit_raise AssertionError
  | Some current, None =>
      handler (LivePatch.of_deletion (MNested current) parent_object)
  | Some current, Some expected =>
      let modified := Nested.get_difference_from expected current in
      if Nat.ltb 0 (size modified)
      then handler (LivePatch.of_changes (MNested expected) (MNested current)
                      modified parent_object false)
      else emit_ret tt
  end.

(** Modelled from the spec: step 1 and 2 of section 4.3, the pass over
    the current entities. *)
Fixpoint for_current (current : list Nested.t) (expected_by_key : dict Nested.t)
    (parent_object : option Model) : Emit LivePatch.t (dict Nested.t) :=
  match current with
  | [] => emit_ret expected_by_key
  | c :: rest =>
      match dict_get expected_by_key (Nested.key c) with
      | None =>
          (run generate_live_patch None (Some c) parent_object;
           for_current rest expected_by_key parent_object)%emit
      | Some e =>
          (run generate_live_patch (Some e) (Some c) parent_object;
           do remaining <- emit_lift (dict_pop expected_by_key (Nested.key c));
           for_current rest remaining parent_object)%emit
      end
  end.

(** Modelled from the spec: step 3 of section 4.3, the additions. *)
Fixpoint for_remaining (remaining : dict Nested.t)
    (parent_object : option Model) : Emit LivePatch.t unit :=
  match remaining with
  | [] => emit_ret tt
  | (_, e) :: rest =>
      (run generate_live_patch (Some e) None parent_object;
       for_remaining rest parent_object)%emit
  end.

(** Modelled from the spec: the reconciliation of two lists of such
    entities, section 4.3. *)
Definition generate_live_patch_of_list (expected current : list Nested.t)
    (parent_object : option Model) : Emit LivePatch.t unit :=
  (do expected_by_key <- emit_lift (associate_by_key Nested.key expected []);
   do remaining <- for_current current expected_by_key parent_object;
   for_remaining remaining parent_object)%emit.
End NestedPatch.

(** ** Repository: patch generation *)

Module RepositoryPatch.
Import Repository.

(** The special handling of the key that can be set organization wide:
    the current repository as it is once the override has been applied. *)
Definition override_current (context : LivePatchContext)
    (current_object : Repository.t) : Repository.t :=
  match modified_org_settings context !! "web_commit_signoff_required" with
  | Some change =>
      if is_True (to_value change)
      then setattr current_object "web_commit_signoff_required"
             (to_value change)
      else current_object
  | None => current_object
  end.

(** [modified_repo] as it is handed to [LivePatch.of_changes]: the
    difference from the current repository, with the source path added
    whenever the source branch changed, and without [has_projects] when
    projects are disabled for the organization. *)
Definition modified_repo (context : LivePatchContext)
    (expected_object current_object : Repository.t) : gmap string Change :=
  let has_organization_projects_disabled :=
    is_False
      (data_get (expected_org_settings context) "has_organization_projects"
         VNone) in
  let modified_repo := get_difference_from expected_object current_object in
  let modified_repo :=
    if bool_decide (is_Some (modified_repo !! "gh_pages_source_branch")) then
      let gh_pages_source_path := gh_pages_source_path expected_object in
      <["gh_pages_source_path" :=
          mkChange gh_pages_source_path gh_pages_source_path]> modified_repo
    else modified_repo in
  if bool_decide (is_Some (modified_repo !! "has_projects"))
     && has_organization_projects_disabled
  then delete "has_projects" modified_repo
  else modified_repo.

(** The reconciliation of the nested models, which follows the patch of
    the repository itself unless that patch was a deletion. *)
Definition generate_nested_patches (expected_object : Repository.t)
    (current_object : option Repository.t) (context : LivePatchContext)
    : Emit LivePatch.t unit :=
  let parent_repo :=
    match current_object with None => expected_object | Some c => c end in
  let parent := Some (MRepository parent_repo) in
  (run (match workflows expected_object, current_object with
        | Some expected_workflows, Some current =>
            NestedPatch.generate_live_patch (Some expected_workflows)
              (workflows current) parent
        | _, _ => emit_ret tt
        end);
   run NestedPatch.generate_live_patch_of_list (webhooks expected_object)
         (match current_object with Some c => webhooks c | None => [] end)
         parent;
   run NestedPatch.generate_live_patch_of_list (secrets expected_object)
         (match current_object with Some c => secrets c | None => [] end)
         parent;
   run EnvironmentPatch.generate_live_patch_of_list
         (environments expected_object)
         (match current_object with Some c => environments c | None => [] end)
         parent context;
   (* only take branch protection rules of non-archive projects into account *)
   if is_False (archived expected_object)
   then NestedPatch.generate_live_patch_of_list
          (branch_protection_rules expected_object)
          (match current_object with
           | Some c => branch_protection_rules c
           | None => []
           end)
          parent
   else emit_ret tt)%emit.

Definition generate_live_patch
    (expected_object current_object : option Repository.t)
    (parent_object : option Model) (context : LivePatchContext)
    : Emit LivePatch.t unit :=
  match current_object, expected_object with
  | None, None => emit_raise AssertionError
  | None, Some expected =>
      (run handler (LivePatch.of_addition (MRepository expected) parent_object);
       generate_nested_patches expected None context)%emit
  | Some current, None =>
      handler (LivePatch.of_deletion (MRepository current) parent_object)
  | Some current, Some expected =>
      let current := override_current context current in
      let modified_repo := modified_repo context expected current in
      (run (if Nat.ltb 0 (size modified_repo)
            then handler (LivePatch.of_changes (MRepository expected)
                            (MRepository current) modified_repo parent_object
                            false)
            else emit_ret tt);
       generate_nested_patches expected (Some current) context)%emit
  end.

(** [for name in expected_repo.get_all_names():
       expected_repos_by_all_names.pop(name)] *)
Fixpoint pop_all_names (names : list string) (by_all_names : dict Repository.t)
    : result (dict Repository.t) :=
  match names with
  | [] => Ok by_all_names
  | n :: rest =>
      (let? by_all_names := dict_pop by_all_names n in
       pop_all_names rest by_all_names)%result
  end.

(** [for current_repo in current_repos: ...], threading both dicts of the
    expected repositories that are still unmatched. *)
Fixpoint for_current_repos (current_repos : list Repository.t)
    (expected_repos_by_all_names expected_repos_by_name : dict Repository.t)
    (context : LivePatchContext) : Emit LivePatch.t (dict Repository.t) :=
  match current_repos with
  | [] => emit_ret expected_repos_by_name
  | current_repo :: rest =>
      let current_repo_name := name current_repo in
      match dict_get expected_repos_by_all_names current_repo_name with
      | None =>
          (run generate_live_patch None (Some current_repo) None context;
           for_current_repos rest expected_repos_by_all_names
             expected_repos_by_name context)%emit
      | Some expected_repo =>
          (run generate_live_patch (Some expected_repo) (Some current_repo)
                 None context;
           (* pop the already handled repos *)
           do by_all_names <- emit_lift
                (pop_all_names (get_all_names expected_repo)
                   expected_repos_by_all_names);
           do by_name <- emit_lift
                (dict_pop expected_repos_by_name (name expected_repo));
           for_current_repos rest by_all_names by_name context)%emit
      end
  end.

(** [for repo_name, repo in expected_repos_by_name.items(): ...] *)
Fixpoint for_remaining_repos (remaining : dict Repository.t)
    (context : LivePatchContext) : Emit LivePatch.t unit :=
  match remaining with
  | [] => emit_ret tt
  | (repo_name, repo) :: rest =>
      (run generate_live_patch (Some repo) None None context;
       for_remaining_repos rest context)%emit
  end.

Definition generate_live_patch_of_list
    (expected_repos current_repos : list Repository.t)
    (context : LivePatchContext) : Emit LivePatch.t unit :=
  (do expected_repos_by_all_names <-
        emit_lift (multi_associate_by_key get_all_names expected_repos []);
   do expected_repos_by_name <-
        emit_lift (associate_by_key name expected_repos []);
   do remaining <- for_current_repos current_repos
                     expected_repos_by_all_names expected_repos_by_name
                     context;
   for_remaining_repos remaining context)%emit.
End RepositoryPatch.

(** ** Organization workflow settings *)

Module OrganizationWorkflowSettings.
Section WithBaseClass.
(** The base class [WorkflowSettings] is not among the sources: its
    attributes and its own [include_field_for_diff_computation] are taken
    as given. *)
Variable WorkflowSettings : Type.
Variable super_include_field_for_diff_computation :
  WorkflowSettings -> Field.t -> bool.

Record t := mk {
  base : WorkflowSettings;
  enabled_repositories : value;
  selected_repositories : value;
}.

Definition include_field_for_diff_computation (self : t) (field : Field.t)
    : bool :=
  if py_eq (enabled_repositories self) (VStr "none") then
    if String.eqb (Field.name field) "enabled_repositories"
    then true
    else false
  else if String.eqb (Field.name field) "selected_repositories" then
    if py_eq (enabled_repositories self) (VStr "selected")
    then true
    else false
  else super_include_field_for_diff_computation (base self) field.
End WithBaseClass.
Arguments enabled_repositories {WorkflowSettings} _.
Arguments selected_repositories {WorkflowSettings} _.
Arguments base {WorkflowSettings} _.
Arguments include_field_for_diff_computation {WorkflowSettings} _ _ _.
End OrganizationWorkflowSettings.

(** ** The REST client for git references *)

Module ReferenceClient.
Section WithRequester.
(** [self.requester.request_raw(method, url)]: the status and the body of
    the provider's response. *)
Variable request_raw : string -> string -> Z * string.

Definition delete_reference (org_id repo ref : string) : result bool :=
  let full_ref := "refs/heads/" +:+ ref in
  let '(status, body) :=
    request_raw "DELETE"
      ("/repos/" +:+ org_id +:+ "/" +:+ repo +:+ "/git/" +:+ full_ref) in
  if status =? 204 then Ok true
  else if (status =? 409) || (status =? 422) then Ok false
  else Raise (RuntimeError ("failed deleting reference '" +:+ ref +:+ "'")).
End WithRequester.
End ReferenceClient.

(** ** Reading patches *)

Inductive ModelKind :=
| REPOSITORY
| ENVIRONMENT
| NESTED (k : NestedKind).

#[global] Instance ModelKind_eq_dec : EqDecision ModelKind.
Proof. solve_decision. Defined.

Definition model_kind (m : Model) : ModelKind :=
  match m with
  | MRepository _ => REPOSITORY
  | MEnvironment _ => ENVIRONMENT
  | MNested n => NESTED (Nested.kind n)
  end.

(** The key of an entity within its parent's list. *)
Definition model_key (m : Model) : string :=
  match m with
  | MRepository r => Repository.name r
  | MEnvironment e => Environment.name e
  | MNested n => Nested.key n
  end.

(** The entity a patch acts on: the expected one for an addition, the
    current one for a removal or a change ([apply_live_patch] addresses
    both by the name of [patch.current_object]). *)
Definition patch_subject (p : LivePatch.t) : option Model :=
  match LivePatch.patch_type p with
  | ADD => LivePatch.expected_object p
  | REMOVE | CHANGE => LivePatch.current_object p
  end.

(** [patch_is kind ty k p]: [p] is a patch of type [ty] on the entity of
    class [kind] with key [k]. *)
Definition patch_is (kind : ModelKind) (ty : LivePatchType) (k : string)
    (p : LivePatch.t) : bool :=
  bool_decide (LivePatch.patch_type p = ty)
  && match patch_subject p with
     | Some m => bool_decide (model_kind m = kind) && String.eqb (model_key m) k
     | None => false
     end.

Definition count_patches (kind : ModelKind) (ty : LivePatchType) (k : string)
    (ps : list LivePatch.t) : nat :=
  length (List.filter (patch_is kind ty k) ps).

(** [mentions_repository p]: the expected or the current object of [p] is a
    repository. *)
Definition is_repository (m : option Model) : bool :=
  match m with Some (MRepository _) => true | _ => false end.

Definition mentions_repository (p : LivePatch.t) : bool :=
  is_repository (LivePatch.expected_object p)
  || is_repository (LivePatch.current_object p).

(** What relates, during the loop over the current repositories, the two
    dicts of the expected repositories that are still unmatched: each
    entry by name is also an entry by all names, and each entry by all
    names is filed under a name or an alias of an expected repository. *)
Definition unmatched (expected_repos : list Repository.t)
    (by_all_names by_name : dict Repository.t) : Prop :=
  NoDup (dict_keys by_all_names)
  /\ NoDup (dict_keys by_name)
  /\ (forall n e, In (n, e) by_name ->
        Repository.name e = n /\ dict_get by_all_names n = Some e)
  /\ (forall n e, dict_get by_all_names n = Some e ->
        In e expected_repos /\ In n (Repository.get_all_names e)).

(** ** Provider-bound payloads *)

(** The data that goes to or comes from the provider: plain values, dicts
    and lists. *)
#[warnings="-register-all"] Inductive json :=
| JVal (v : value)
| JObj (entries : list (string * json))
| JArr (items : list json).

(** [bend(mapping, data)] of jsonbender on the benders above: a selector
    reads [data[key]] and raises [KeyError] when the key is missing, a
    constant stands for itself, [If] tests its selector against its
    constant, a dict and a list are bent entry by entry. *)
Fixpoint bend (b : Bender.t) (data : gmap string value) : result json :=
  match b with
  | Bender.S key =>
      match data !! key with
      | Some v => Ok (JVal v)
      | None => Raise (KeyError key)
      end
  | Bender.K v => Ok (JVal v)
  | Bender.IfEq sel v a b' =>
      match data !! sel with
      | Some x => if py_eq x v then bend a data else bend b' data
      | None => Raise (KeyError sel)
      end
  | Bender.Obj entries =>
      match
        (fix bend_entries (l : list (string * Bender.t))
           : result (list (string * json)) :=
           match l with
           | [] => Ok []
           | (k, x) :: r =>
               match bend x data with
               | Ok j =>
                   match bend_entries r with
                   | Ok js => Ok ((k, j) :: js)
                   | Raise e => Raise e
                   end
               | Raise e => Raise e
               end
           end) entries
      with
      | Ok js => Ok (JObj js)
      | Raise e => Raise e
      end
  | Bender.Arr items =>
      match
        (fix bend_items (l : list Bender.t) : result (list json) :=
           match l with
           | [] => Ok []
           | x :: r =>
               match bend x data with
               | Ok j =>
                   match bend_items r with
                   | Ok js => Ok (j :: js)
                   | Raise e => Raise e
                   end
               | Raise e => Raise e
               end
           end) items
      with
      | Ok js => Ok (JArr js)
      | Raise e => Raise e
      end
  end.

(** [bend(mapping, data)] for the mapping itself, a dict of benders. *)
Definition bend_mapping (mapping : dict Bender.t) (data : gmap string value)
    : result json :=
  bend (Bender.Obj mapping) data.

(** ** Environment: reading the provider's data *)

Module EnvironmentProviderData.
(** How a call of [transform_policy] ends: with a policy, or with one of
    the two exceptions it can run into. *)
Inductive outcome :=
| Policy (policy : string)
| ValueError
| AttributeError.

(** [x.get(key, False) is True] for a dict [x]. *)
Definition flag_is_True (entries : list (string * json)) (key : string)
    : bool :=
  match dict_get entries key with
  | Some (JVal (VBool true)) => true
  | _ => false
  end.

(** The inner function [transform_policy] of [get_mapping_from_provider]:
    no policy object means ["all"]; otherwise the first of the two flags
    that is [True] decides, and none is a [ValueError].  Anything that is
    neither [None] nor a dict has no [get]. *)
Definition transform_policy (x : json) : outcome :=
  match x with
  | JVal VNone => Policy "all"
  | JObj entries =>
      if flag_is_True entries "protected_branches" then Policy "protected"
      else if flag_is_True entries "custom_branch_policies"
      then Policy "selected"
      else ValueError
  | _ => AttributeError
  end.
End EnvironmentProviderData.

(** ** Repository: reading the provider's data *)

Module RepositoryProviderData.
(** The inner function [status_to_bool] of [get_mapping_from_provider]. *)
Definition status_to_bool (status : value) : value :=
  if py_eq status (VStr "enabled") then VBool true
  else if py_eq status (VStr "disabled") then VBool false
  else UNSET.
End RepositoryProviderData.

(** ** Organization settings *)

(** [needle in v] for a string [needle]: a substring test on a string, a
    membership test on a list, a [TypeError] on anything else. *)
Definition py_contains (needle : string) (v : value) : result bool :=
  match v with
  | VStr s =>
      Ok (match String.index 0 needle s with Some _ => true | None => false end)
  | VList l => Ok (existsb (String.eqb needle) l)
  | _ => Raise TypeError
  end.

Module OrganizationSettings.
Record t := mk {
  name : value;
  plan : value;
  description : value;
  email : value;
  location : value;
  company : value;
  billing_email : value;
  twitter_username : value;
  blog : value;
  has_discussions : value;
  discussion_source_repository : value;
  has_organization_projects : value;
  has_repository_projects : value;
  default_branch_name : value;
  default_repository_permission : value;
  two_factor_requirement : value;
  web_commit_signoff_required : value;
  dependabot_alerts_enabled_for_new_repositories : value;
  dependabot_security_updates_enabled_for_new_repositories : value;
  dependency_graph_enabled_for_new_repositories : value;
  members_can_create_private_repositories : value;
  members_can_create_public_repositories : value;
  members_can_fork_private_repositories : value;
  members_can_create_public_pages : value;
  members_can_change_repo_visibility : value;
  members_can_delete_repositories : value;
  members_can_delete_issues : value;
  members_can_create_teams : value;
  readers_can_create_discussions : value;
  packages_containers_public : value;
  packages_containers_internal : value;
  members_can_change_project_visibility : value;
  default_workflow_permissions : value;
  security_managers : value;
}.

Definition fields : list Field.t :=
  [ Field.plain "name"; Field.readonly "plan"; Field.plain "description";
    Field.plain "email"; Field.plain "location"; Field.plain "company";
    Field.plain "billing_email"; Field.plain "twitter_username";
    Field.plain "blog"; Field.plain "has_discussions";
    Field.plain "discussion_source_repository";
    Field.plain "has_organization_projects";
    Field.plain "has_repository_projects"; Field.plain "default_branch_name";
    Field.plain "default_repository_permission";
    Field.readonly "two_factor_requirement";
    Field.plain "web_commit_signoff_required";
    Field.plain "dependabot_alerts_enabled_for_new_repositories";
    Field.plain "dependabot_security_updates_enabled_for_new_repositories";
    Field.plain "dependency_graph_enabled_for_new_repositories";
    Field.plain "members_can_create_private_repositories";
    Field.plain "members_can_create_public_repositories";
    Field.plain "members_can_fork_private_repositories";
    Field.plain "members_can_create_public_pages";
    Field.plain "members_can_change_repo_visibility";
    Field.plain "members_can_delete_repositories";
    Field.plain "members_can_delete_issues";
    Field.plain "members_can_create_teams";
    Field.plain "readers_can_create_discussions";
    Field.plain "packages_containers_public";
    Field.plain "packages_containers_internal";
    Field.plain "members_can_change_project_visibility";
    Field.plain "default_workflow_permissions";
    Field.plain "security_managers" ].

Definition attributes (self : t) : dict value :=
  [ ("name", name self); ("plan", plan self);
    ("description", description self); ("email", email self);
    ("location", location self); ("company", company self);
    ("billing_email", billing_email self);
    ("twitter_username", twitter_username self); ("blog", blog self);
    ("has_discussions", has_discussions self);
    ("discussion_source_repository", discussion_source_repository self);
    ("has_organization_projects", has_organization_projects self);
    ("has_repository_projects", has_repository_projects self);
    ("default_branch_name", default_branch_name self);
    ("default_repository_permission", default_repository_permission self);
    ("two_factor_requirement", two_factor_requirement self);
    ("web_commit_signoff_required", web_commit_signoff_required self);
    ("dependabot_alerts_enabled_for_new_repositories",
       dependabot_alerts_enabled_for_new_repositories self);
    ("dependabot_security_updates_enabled_for_new_repositories",
       dependabot_security_updates_enabled_for_new_repositories self);
    ("dependency_graph_enabled_for_new_repositories",
       dependency_graph_enabled_for_new_repositories self);
    ("members_can_create_private_repositories",
       members_can_create_private_repositories self);
    ("members_can_create_public_repositories",
       members_can_create_public_repositories self);
    ("members_can_fork_private_repositories",
       members_can_fork_private_repositories self);
    ("members_can_create_public_pages", members_can_create_public_pages self);
    ("members_can_change_repo_visibility",
       members_can_change_repo_visibility self);
    ("members_can_delete_repositories", members_can_delete_repositories self);
    ("members_can_delete_issues", members_can_delete_issues self);
    ("members_can_create_teams", members_can_create_teams self);
    ("readers_can_create_discussions", readers_can_create_discussions self);
    ("packages_containers_public", packages_containers_public self);
    ("packages_containers_internal", packages_containers_internal self);
    ("members_can_change_project_visibility",
       members_can_change_project_visibility self);
    ("default_workflow_permissions", default_workflow_permissions self);
    ("security_managers", security_managers self) ].

Definition getattribute (self : t) (key : string) : value :=
  match dict_get (attributes self) key with Some v => v | None => UNSET end.

Definition include_field_for_diff_computation (self : t) (field : Field.t)
    : bool :=
  if is_False (has_discussions self)
     && String.eqb (Field.name field) "discussion_source_repository"
  then false
  else true.

Definition include_field_for_patch_computation (self : t) (field : Field.t)
    : bool := true.

(** The messages of the findings of [validate]. *)
Definition description_too_long : string :=
  "setting 'description' exceeds maximum allowed length of 160 chars.".
Definition dependabot_needs_dependency_graph : string :=
  "enabling 'dependabot_alerts' or 'dependabot_security_updates' implicitly enables 'dependency_graph_enabled_for_new_repositories'.".
Definition security_updates_need_alerts : string :=
  "enabling 'dependabot_security_updates' implicitly enables dependabot_alerts.".
Definition discussions_need_source : string :=
  "enabling 'has_discussions' requires setting a valid repository in 'discussion_source_repository'.".
Definition source_needs_owner : string :=
  "setting 'discussion_source_repository' requires a repository in '<owner>/<repo-name>' format.".
Definition workflow_permissions_not_allowed : string :=
  "'default_workflow_permissions' has a value that is not allowed, only values ('read' | 'write') are allowed.".
Definition repository_permission_not_allowed : string :=
  "'default_repository_permission' has a value that is not allowed, only values ('none' | 'read' | 'write' | 'admin') are allowed.".

(** [validate]; the custom validation rules of the organization, which
    the base class runs from a script, and the helper
    [otterdog.utils.is_set_and_present], which is not among the sources,
    are passed in. *)
Definition validate
    (execute_custom_validation_if_present : t -> string -> Emit Failure unit)
    (is_set_and_present : value -> bool)
    (self : t) : Emit Failure unit :=
  (* execute custom validation rules if present *)
  (run execute_custom_validation_if_present self "validate-org-settings.py";
   (* enabling dependabot implicitly enables the dependency graph,
      disabling the dependency graph in the configuration will result in
      inconsistencies after applying the configuration, warn the user
      about it. *)
   let dependabot_alerts_enabled :=
     is_True (dependabot_alerts_enabled_for_new_repositories self) in
   let dependabot_security_updates_enabled :=
     is_True (dependabot_security_updates_enabled_for_new_repositories self) in
   let dependency_graph_disabled :=
     is_False (dependency_graph_enabled_for_new_repositories self) in
   run (do too_long <- emit_lift
              (if is_set_and_present (description self)
               then match py_len (description self) with
                    | Ok n => Ok (Nat.ltb 160 n)
                    | Raise e => Raise e
                    end
               else Ok false);
        if too_long : bool
        then add_failure ERROR description_too_long
        else emit_ret tt);
   run (if (dependabot_alerts_enabled || dependabot_security_updates_enabled)
           && dependency_graph_disabled
        then add_failure ERROR dependabot_needs_dependency_graph
        else emit_ret tt);
   run (if dependabot_security_updates_enabled
           && negb dependabot_alerts_enabled
        then add_failure ERROR security_updates_need_alerts
        else emit_ret tt);
   run (if is_True (has_discussions self)
           && negb (is_set_and_valid (discussion_source_repository self))
        then add_failure ERROR discussions_need_source
        else emit_ret tt);
   run (do no_owner <- emit_lift
              (if is_set_and_present (discussion_source_repository self)
               then match py_contains "/" (discussion_source_repository self)
                    with
                    | Ok found => Ok (negb found)
                    | Raise e => Raise e
                    end
               else Ok false);
        if no_owner : bool
        then add_failure ERROR source_needs_owner
        else emit_ret tt);
   run (if is_set_and_valid (default_workflow_permissions self) then
          do known <- emit_lift
                (in_str_set (default_workflow_permissions self)
                   ["read"; "write"]);
          if negb known
          then add_failure ERROR workflow_permissions_not_allowed
          else emit_ret tt
        else emit_ret tt);
   if is_set_and_valid (default_repository_permission self) then
     do known <- emit_lift
           (in_str_set (default_repository_permission self)
              ["none"; "read"; "write"; "admin"]);
     if negb known
     then add_failure ERROR repository_permission_not_allowed
     else emit_ret tt
   else emit_ret tt)%emit.

(** [_to_provider_data]: the comprehension over the provider fields that
    [data] sets, bent against [data]. *)
Definition _to_provider_data (org_id : string) (data : gmap string value)
    : result json :=
  let mapping := set_fields_mapping fields data in
  bend_mapping mapping data.
End OrganizationSettings.

#[global] Instance OrganizationSettings_model
  : ModelObject OrganizationSettings.t := {
  all_fields := OrganizationSettings.fields;
  getattribute := OrganizationSettings.getattribute;
  include_field_for_diff_computation :=
    OrganizationSettings.include_field_for_diff_computation;
}.

(** What [Repository.validate] reads from its parent, the organization
    (its class is not among the sources). *)
Record GitHubOrganization := {
  github_id : string;
  settings : OrganizationSettings.t;
}.

(** ** Repository: validation *)

Module RepositoryValidation.
Import Repository.

(** The messages of the findings of [validate]. *)
Definition description_too_long : string :=
  "has 'description' that exceeds the maximum allowed length of 350 chars.".
Definition public_without_forking : string :=
  "public repo has 'allow_forking' disabled which is not permitted.".
Definition wiki_needs_billing : string :=
  "private repo has 'has_wiki' enabled which requires at least GitHub Team billing.".
Definition discussions_source_disabled : string :=
  "has 'has_discussions' disabled while the organization uses this repo as source repository for discussions.".
Definition projects_ignored : string :=
  "has 'has_projects' enabled while the organization disables 'has_repository_projects', setting will be ignored.".
Definition forking_not_allowed : string :=
  "private repo has 'allow_forking' enabled while the organization disables 'members_can_fork_private_repositories'.".
Definition signoff_required : string :=
  "has 'web_commit_signoff_required' disabled while the organization requires it.".
Definition push_protection_needs_scanning : string :=
  "has 'secret_scanning' disabled while 'secret_scanning_push_protection' is enabled.".
Definition archived_rules_ignored : string :=
  "is archived but has branch_protection_rules, rules will be ignored.".
Definition site_pages_disabled : string :=
  "has 'gh_pages_build_type' disabled but the repo hosts the organization site and GitHub pages will be enabled automatically.".
Definition site_without_environment : string :=
  "hosts the organization site but no corresponding 'github-pages' environment, please add such an environment.".
Definition build_type_not_allowed : string :=
  "'gh_pages_build_type' has a value that is not allowed, only values ('disabled' | 'legacy' | 'workflow') are allowed.".
Definition pages_property_ignored : string :=
  "has 'gh_pages_build_type' disabled but a source property is set to a value, setting will be ignored.".
Definition pages_without_environment : string :=
  "has 'gh_pages_build_type' enabled but no corresponding 'github-pages' environment, please add such an environment.".

(** [len(list(filter(lambda x: x.name == "github-pages",
                     self.environments))) == 0] *)
Definition no_github_pages_environment (self : t) : bool :=
  Nat.eqb
    (length (List.filter
               (fun x => String.eqb (Environment.name x) "github-pages")
               (environments self)))
    0.

(** [for key in self._gh_pages_properties: ...] under a disabled build:
    a warning for every property whose value is not [None]. *)
Fixpoint warn_pages_properties (self : t) (keys : list string)
    : Emit Failure unit :=
  match keys with
  | [] => emit_ret tt
  | key :: rest =>
      let value := getattribute self key in
      (run (if negb (is_None value)
            then add_failure WARNING pages_property_ignored
            else emit_ret tt);
       warn_pages_properties self rest)%emit
  end.

(** [for x in xs: x.validate(context, self)] *)
Fixpoint validate_each {X} (validate : X -> Emit Failure unit) (xs : list X)
    : Emit Failure unit :=
  match xs with
  | [] => emit_ret tt
  | x :: rest => (run validate x; validate_each validate rest)%emit
  end.

(** [validate]; the validation of the nested entities whose classes are
    not among the sources and the helper
    [otterdog.utils.is_set_and_present], which is not among them either,
    are passed in. *)
Definition validate
    (nested_validate : Nested.t -> t -> Emit Failure unit)
    (is_set_and_present : value -> bool)
    (self : t) (parent_object : GitHubOrganization) : Emit Failure unit :=
  let github_id := github_id parent_object in
  let org_settings := settings parent_object in
  let free_plan := py_eq (OrganizationSettings.plan org_settings) (VStr "free") in
  let org_has_projects_disabled :=
    is_False (OrganizationSettings.has_repository_projects org_settings) in
  let org_web_commit_signoff_required :=
    is_True (OrganizationSettings.web_commit_signoff_required org_settings) in
  let org_members_cannot_fork_private_repositories :=
    is_False
      (OrganizationSettings.members_can_fork_private_repositories
         org_settings) in
  let org_has_discussions_enabled_with_repo_as_source :=
    is_True (OrganizationSettings.has_discussions org_settings)
    && py_eq (OrganizationSettings.discussion_source_repository org_settings)
         (VStr (github_id +:+ "/" +:+ name self)) in
  let is_private := is_True (private self) in
  let is_public := is_False (private self) in
  let allow_forking' := is_True (allow_forking self) in
  let disallow_forking := is_False (allow_forking self) in
  (run (do too_long <- emit_lift
              (if is_set_and_present (description self)
               then match py_len (description self) with
                    | Ok n => Ok (Nat.ltb 350 n)
                    | Raise e => Raise e
                    end
               else Ok false);
        if too_long : bool
        then add_failure ERROR description_too_long
        else emit_ret tt);
   run (if is_public && disallow_forking
        then add_failure WARNING public_without_forking
        else emit_ret tt);
   let has_wiki' := is_True (has_wiki self) in
   run (if is_private && has_wiki' && free_plan
        then add_failure WARNING wiki_needs_billing
        else emit_ret tt);
   let has_discussions_disabled := is_False (has_discussions self) in
   run (if has_discussions_disabled
           && org_has_discussions_enabled_with_repo_as_source
        then add_failure ERROR discussions_source_disabled
        else emit_ret tt);
   let has_projects' := is_True (has_projects self) in
   run (if has_projects' && org_has_projects_disabled
        then add_failure INFO projects_ignored
        else emit_ret tt);
   run (if is_private && org_members_cannot_fork_private_repositories
           && allow_forking'
        then add_failure ERROR forking_not_allowed
        else emit_ret tt);
   let repo_web_commit_signoff_not_required :=
     is_False (web_commit_signoff_required self) in
   run (if repo_web_commit_signoff_not_required
           && org_web_commit_signoff_required
        then add_failure ERROR signoff_required
        else emit_ret tt);
   let secret_scanning_disabled :=
     py_eq (secret_scanning self) (VStr "disabled") in
   let secret_scanning_push_protection_enabled :=
     py_eq (secret_scanning_push_protection self) (VStr "enabled") in
   run (if secret_scanning_disabled
           && secret_scanning_push_protection_enabled
           && is_False (archived self)
        then add_failure ERROR push_protection_needs_scanning
        else emit_ret tt);
   run validate_each (fun webhook => nested_validate webhook self)
         (webhooks self);
   run (if is_True (archived self)
           && Nat.ltb 0 (length (branch_protection_rules self))
        then add_failure INFO archived_rules_ignored
        else emit_ret tt);
   run (if String.eqb (lower (name self)) (lower (github_id +:+ ".github.io"))
        then
          run (if py_eq (gh_pages_build_type self) (VStr "disabled")
               then add_failure ERROR site_pages_disabled
               else emit_ret tt);
          if no_github_pages_environment self
          then add_failure WARNING site_without_environment
          else emit_ret tt
        else if is_set_and_valid (gh_pages_build_type self) then
          run (do known <- emit_lift
                     (in_str_set (gh_pages_build_type self)
                        ["disabled"; "legacy"; "workflow"]);
               if negb known
               then add_failure ERROR build_type_not_allowed
               else emit_ret tt);
          run (if py_eq (gh_pages_build_type self) (VStr "disabled")
               then warn_pages_properties self _gh_pages_properties
               else emit_ret tt);
          do enabled <- emit_lift
                (in_str_set (gh_pages_build_type self) ["legacy"; "workflow"]);
          if (enabled : bool) && no_github_pages_environment self
          then add_failure WARNING pages_without_environment
          else emit_ret tt
        else emit_ret tt);
   run (match workflows self with
        | Some workflow_settings => nested_validate workflow_settings self
        | None => emit_ret tt
        end);
   run validate_each (fun secret => nested_validate secret self)
         (secrets self);
   run validate_each (fun bpr => nested_validate bpr self)
         (branch_protection_rules self);
   validate_each Environment.validate (environments self))%emit.

End RepositoryValidation.

(** ** Organization workflow settings: validation *)

Module OrganizationWorkflowSettingsValidation.
Definition selection_not_allowed : string :=
  "has 'enabled_repositories' with a value that is not allowed, only values ('all' | 'none' | 'selected') are allowed.".
Definition selection_ignored : string :=
  "has 'enabled_repositories' not set to 'selected', but 'selected_repositories' is set, setting will be ignored.".

(** [validate]; the validation of the base class [WorkflowSettings], which
    is not among the sources, is passed in. *)
Definition validate {WorkflowSettings : Type}
    (super_validate : WorkflowSettings -> Emit Failure unit)
    (self : OrganizationWorkflowSettings.t WorkflowSettings)
    : Emit Failure unit :=
  let enabled_repositories :=
    OrganizationWorkflowSettings.enabled_repositories self in
  let selected_repositories :=
    OrganizationWorkflowSettings.selected_repositories self in
  (run super_validate (OrganizationWorkflowSettings.base self);
   if is_set_and_valid enabled_repositories then
     run (do known <- emit_lift
                (in_str_set enabled_repositories ["all"; "none"; "selected"]);
          if negb known
          then add_failure ERROR selection_not_allowed
          else emit_ret tt);
     do ignored <- emit_lift
           (if py_ne enabled_repositories (VStr "selected")
            then match py_len selected_repositories with
                 | Ok n => Ok (Nat.ltb 0 n)
                 | Raise e => Raise e
                 end
            else Ok false);
     if ignored : bool
     then add_failure WARNING selection_ignored
     else emit_ret tt
   else emit_ret tt)%emit.
End OrganizationWorkflowSettingsValidation.

(** The nested entities of a repository other than its branch protection
    rules and its environments: its webhooks, its secrets and its
    workflow settings. *)
Definition entities_besides_rules (repo : Repository.t) : list Nested.t :=
  Repository.webhooks repo ++ Repository.secrets repo
  ++ match Repository.workflows repo with
     | Some workflow_settings => [workflow_settings]
     | None => []
     end.

(** ** Applying patches *)

(** The calls of the provider that the application of a patch ends in. *)
Inductive ProviderCall :=
| add_repo (org_id : string) (data : json)
    (template_repository post_process_template_content auto_init : value)
| delete_repo (org_id repo_name : string)
| update_repo (org_id repo_name : string) (data : json)
| add_repo_environment (org_id repo_name env_name : string) (data : json)
| delete_repo_environment (org_id repo_name env_name : string)
| update_repo_environment (org_id repo_name env_name : string) (data : json).

Module EnvironmentApply.
Section WithBaseClass.
(** [to_provider_data] and [changes_to_provider] of the base class
    [ModelObject], which is not among the sources. *)
Variable to_provider_data :
  Environment.t -> string -> GitHubProvider -> result json.
Variable changes_to_provider :
  string -> gmap string Change -> GitHubProvider -> result json.

Definition apply_live_patch (patch : LivePatch.t) (org_id : string)
    (provider : GitHubProvider) : Emit ProviderCall unit :=
  match LivePatch.patch_type patch with
  | ADD =>
      match LivePatch.expected_object patch with
      | Some (MEnvironment expected_object) =>
          match LivePatch.parent_object patch with
          | Some (MRepository parent_object) =>
              (do data <- emit_lift
                            (to_provider_data expected_object org_id provider);
               emit (add_repo_environment org_id
                       (Repository.name parent_object)
                       (Environment.name expected_object) data))%emit
          | _ => emit_raise AssertionError
          end
      | _ => emit_raise AssertionError
      end
  | REMOVE =>
      match LivePatch.current_object patch with
      | Some (MEnvironment current_object) =>
          match LivePatch.parent_object patch with
          | Some (MRepository parent_object) =>
              emit (delete_repo_environment org_id
                      (Repository.name parent_object)
                      (Environment.name current_object))
          | _ => emit_raise AssertionError
          end
      | _ => emit_raise AssertionError
      end
  | CHANGE =>
      match LivePatch.changes patch with
      | Some changes =>
          match LivePatch.current_object patch with
          | Some (MEnvironment current_object) =>
              match LivePatch.parent_object patch with
              | Some (MRepository parent_object) =>
                  (do data <- emit_lift
                                (changes_to_provider org_id changes provider);
                   emit (update_repo_environment org_id
                           (Repository.name parent_object)
                           (Environment.name current_object) data))%emit
              | _ => emit_raise AssertionError
              end
          | _ => emit_raise AssertionError
          end
      | None => emit_raise AssertionError
      end
  end.
End WithBaseClass.
End EnvironmentApply.

Module RepositoryApply.
Section WithBaseClass.
(** [to_provider_data] and [changes_to_provider] of the base class
    [ModelObject], which is not among the sources. *)
Variable to_provider_data :
  Repository.t -> string -> GitHubProvider -> result json.
Variable changes_to_provider :
  string -> gmap string Change -> GitHubProvider -> result json.

Definition apply_live_patch (patch : LivePatch.t) (org_id : string)
    (provider : GitHubProvider) : Emit ProviderCall unit :=
  match LivePatch.patch_type patch with
  | ADD =>
      match LivePatch.expected_object patch with
      | Some (MRepository expected_object) =>
          (do data <- emit_lift
                        (to_provider_data expected_object org_id provider);
           emit (add_repo org_id data
                   (Repository.template_repository expected_object)
                   (Repository.post_process_template_content expected_object)
                   (Repository.auto_init expected_object)))%emit
      | _ => emit_raise AssertionError
      end
  | REMOVE =>
      match LivePatch.current_object patch with
      | Some (MRepository current_object) =>
          emit (delete_repo org_id (Repository.name current_object))
      | _ => emit_raise AssertionError
      end
  | CHANGE =>
      match LivePatch.changes patch with
      | Some changes =>
          match LivePatch.expected_object patch with
          | Some (MRepository expected_object) =>
              match LivePatch.current_object patch with
              | Some (MRepository current_object) =>
                  (do data <- emit_lift
                                (changes_to_provider org_id changes provider);
                   emit (update_repo org_id (Repository.name current_object)
                           data))%emit
              | _ => emit_raise AssertionError
              end
          | _ => emit_raise AssertionError
          end
      | None => emit_raise AssertionError
      end
  end.
End WithBaseClass.
End RepositoryApply.

(** ** The import operation *)

Module ImportOperation.
Record t := mk {
  force_processing : bool;
  no_web_ui : bool;
}.

Section WithCollaborators.
(** [self.config.get_credentials(org_config)], and the organization as it
    is loaded from the provider and rendered:
    [GitHubOrganization.load_from_provider(...).to_jsonnet(...)]. *)
Variable Credentials : Type.
Variable get_credentials : result Credentials.
Variable load_and_render : Credentials -> bool -> result string.

(** [execute], on the files given by their contents, by path; [answer] is
    what [input()] reads when the user is asked, and the exit code is the
    value returned.  What is printed is left out, and so are the
    directories: [os.makedirs] creates no file. *)
Definition execute (self : t) (org_file_name : string) (answer : string)
    (files : gmap string string) : gmap string string * result Z :=
  let file_exists := bool_decide (is_Some (files !! org_file_name)) in
  let cancelled :=
    if file_exists && negb (force_processing self)
    then negb (String.eqb answer "yes")
    else false in
  if cancelled then (files, Ok 1)
  else
    let files :=
      match files !! org_file_name with
      | Some contents =>
          let backup_file := org_file_name +:+ ".bak" in
          <[backup_file := contents]> files
      | None => files
      end in
    match get_credentials with
    | Raise (RuntimeError e) => (files, Ok 1)
    | Raise e => (files, Raise e)
    | Ok credentials =>
        match load_and_render credentials (no_web_ui self) with
        | Ok output => (<[org_file_name := output]> files, Ok 0)
        | Raise e => (files, Raise e)
        end
    end.
End WithCollaborators.
End ImportOperation.

(** ** The validation of a pull request *)

(** [try: body except RuntimeError: handler]: what the body handed over
    stays, and the handler runs when a [RuntimeError] interrupted the
    body; any other exception passes. *)
Definition except_RuntimeError {O A} (body handler : Emit O A) : Emit O A :=
  match outcome body with
  | Raise (RuntimeError _) =>
      (emitted body ++ emitted handler, outcome handler)
  | _ => body
  end.

Module ValidatePullRequest.
(** A commit status as [create_commit_status] is asked to post it: the
    commit, the state, the context and the description. *)
Record CommitStatus := {
  sha : string;
  state : string;
  context : string;
  description : string;
}.

Section WithCollaborators.
(** The REST API of the installation, the pull request of the event and
    its head commit, the request for a pull request that is given by its
    number ([None] when the response does not validate),
    [_execute_validation], whose plan operation is not among the sources,
    what the provider answers when it is asked to post a status, and the
    context that the application is configured with. *)
Variable RestApi : Type.
Variable PullRequest : Type.
Variable head_sha : PullRequest -> string.
Variable get_rest_api_for_installation : result RestApi.
Variable get_pull_request : RestApi -> Z -> result (option PullRequest).
Variable _execute_validation : PullRequest -> RestApi -> result Z.
Variable commit_status_response : RestApi -> CommitStatus -> result unit.
Variable _get_webhook_context : string.

(** [rest_api.commits.create_commit_status(...)]: the log holds the
    requests in the order in which they are made, whether they succeed or
    raise. *)
Definition create_commit_status (rest_api : RestApi) (status : CommitStatus)
    : Emit CommitStatus unit :=
  (run emit status;
   emit_lift (commit_status_response rest_api status))%emit.

Definition _create_pending_status (rest_api : RestApi) (sha : string)
    : Emit CommitStatus unit :=
  create_commit_status rest_api
    {| sha := sha; state := "pending"; context := _get_webhook_context;
       description := "validating configuration change using otterdog" |}.

Definition _create_failure_status (rest_api : RestApi) (sha : string)
    : Emit CommitStatus unit :=
  create_commit_status rest_api
    {| sha := sha; state := "failure"; context := _get_webhook_context;
       description := "otterdog validation failed, please contact admin" |}.

Definition _update_final_status (rest_api : RestApi) (sha : string)
    (plan_result : Z) : Emit CommitStatus unit :=
  let desc :=
    if plan_result =? 0
    then "otterdog validation completed successfully"
    else "otterdog validation failed, check validation result in comment history"
  in
  create_commit_status rest_api
    {| sha := sha;
       state := if plan_result =? 0 then "success" else "error";
       context := _get_webhook_context;
       description := desc |}.

Definition validate_pull_request (pull_request_or_number : PullRequest + Z)
    : Emit CommitStatus unit :=
  (do rest_api <- emit_lift get_rest_api_for_installation;
   do loaded <- match pull_request_or_number with
                | inr number => emit_lift (get_pull_request rest_api number)
                | inl pull_request => emit_ret (Some pull_request)
                end;
   match loaded with
   | None => emit_ret tt
   | Some pull_request =>
       run _create_pending_status rest_api (head_sha pull_request);
       except_RuntimeError
         (do result <- emit_lift (_execute_validation pull_request rest_api);
          _update_final_status rest_api (head_sha pull_request) result)
         (_create_failure_status rest_api (head_sha pull_request))
   end)%emit.
End WithCollaborators.
End ValidatePullRequest.

(** ** The validate operation *)

Module ValidateOperation.
(** [secret and all(ch == '*' for ch in secret)] *)
Definition is_dummy_secret (secret : string) : bool :=
  negb (String.eqb secret "")
  && forallb (fun ch => Ascii.eqb ch "*") (list_ascii_of_string secret).

(** The rules that [execute] checks on a configuration that has been
    loaded: the settings of the organization, and for each webhook what
    the filter [.config.secret // ""] yields, a string. *)
Definition validation_errors (settings : gmap string value)
    (webhook_secrets : list string) : Z :=
  let validation_errors := 0 in
  let dependabot_alerts_enabled :=
    is_True (data_get settings
               "dependabot_alerts_enabled_for_new_repositories" VNone) in
  let dependabot_security_updates_enabled :=
    is_True (data_get settings
               "dependabot_security_updates_enabled_for_new_repositories"
               VNone) in
  let dependency_graph_disabled :=
    is_False (data_get settings
                "dependency_graph_enabled_for_new_repositories" VNone) in
  let validation_errors :=
    if (dependabot_alerts_enabled || dependabot_security_updates_enabled)
       && dependency_graph_disabled
    then validation_errors + 1
    else validation_errors in
  let validation_errors :=
    if dependabot_security_updates_enabled && negb dependabot_alerts_enabled
    then validation_errors + 1
    else validation_errors in
  fold_left
    (fun validation_errors secret =>
       if is_dummy_secret secret
       then validation_errors + 1
       else validation_errors)
    webhook_secrets validation_errors.

(** [execute]: whether the configuration file exists, and what loading
    it gives. *)
Definition execute (file_exists : bool)
    (load_from_file : result (gmap string value * list string)) : result Z :=
  if negb file_exists then Ok 1
  else
    match load_from_file with
    | Raise (RuntimeError ex) => Ok 1
    | Raise ex => Raise ex
    | Ok (settings, webhook_secrets) =>
        Ok (validation_errors settings webhook_secrets)
    end.

(** The number of findings that carry one of the two messages of
    [OrganizationSettings.validate] about Dependabot. *)
Definition dependabot_findings (findings : list Failure) : nat :=
  length
    (List.filter
       (fun finding =>
          String.eqb (snd finding)
            OrganizationSettings.dependabot_needs_dependency_graph
          || String.eqb (snd finding)
               OrganizationSettings.security_updates_need_alerts)
       findings).
End ValidateOperation.

(** ** Sample inputs *)

(** A provider that knows no actors. *)
Definition sample_provider : GitHubProvider :=
  {| get_actor_ids_with_type := fun _ => [] |}.

(** The context of a run for the organization ["acme"] in which no
    organization setting is modified. *)
Definition sample_context : LivePatchContext :=
  {| org_id := "acme"; expected_org_settings := ∅;
     modified_org_settings := ∅ |}.

(** An environment that specifies nothing but its name. *)
Definition sample_environment (name : string) : Environment.t :=
  Environment.mk UNSET UNSET name UNSET UNSET UNSET UNSET.

(** * Properties *)

Arguments EnvironmentPatch.generate_live_patch : simpl never.
Arguments EnvironmentPatch.generate_live_patch_of_list : simpl never.
Arguments NestedPatch.generate_live_patch : simpl never.
Arguments NestedPatch.generate_live_patch_of_list : simpl never.
Arguments RepositoryPatch.generate_nested_patches : simpl never.
Arguments RepositoryPatch.generate_live_patch : simpl never.
Arguments RepositoryPatch.modified_repo : simpl never.
Arguments RepositoryPatch.override_current : simpl never.
Arguments get_difference_from : simpl never.

(** ** Values *)

Lemma py_eq_str (v : value) (s : string) : py_eq v (VStr s) = true <-> v = VStr s.
Proof.
  destruct v; simpl; rewrite ?bool_decide_eq_true; split; congruence.
Qed.

Lemma py_ne_str (v : value) (s : string) :
  py_ne v (VStr s) = true <-> v <> VStr s.
Proof.
  unfold py_ne. rewrite negb_true_iff, <- not_true_iff_false, py_eq_str. tauto.
Qed.

Lemma name_in_In (n : string) (l : list string) : name_in n l = true <-> In n l.
Proof.
  unfold name_in. rewrite existsb_exists. split.
  - intros (x & Hx & He). apply String.eqb_eq in He. subst. exact Hx.
  - intros H. exists n. split; [exact H | apply String.eqb_refl].
Qed.

(** ** The length of a string *)

(** A string has at most as many characters as bytes. *)
Lemma str_len_le_length (s : string) : (str_len s <= String.length s)%nat.
Proof.
  induction s as [| c s IH]; simpl; [lia |].
  destruct (is_continuation_byte c); lia.
Qed.

(** On a string of ASCII characters, the two agree. *)
Lemma str_len_ascii (s : string) :
  forallb (fun c => Nat.ltb (nat_of_ascii c) 128) (list_ascii_of_string s)
  = true ->
  str_len s = String.length s.
Proof.
  induction s as [| c s IH]; simpl; [reflexivity |].
  intros H. apply andb_true_iff in H as [Hc Hs].
  rewrite (IH Hs).
  destruct c as [b0 b1 b2 b3 b4 b5 b6 b7]. destruct b7; [| reflexivity].
  exfalso. apply Nat.ltb_lt in Hc. revert Hc.
  destruct b0, b1, b2, b3, b4, b5, b6; vm_compute; lia.
Qed.

(** A character outside ASCII counts once, however many bytes encode it. *)
Example py_len_counts_characters :
  py_len (VStr "Grüße aus Köln") = Ok 14%nat
  /\ String.length "Grüße aus Köln" = 17%nat.
Proof. split; reflexivity. Qed.

(** ** Logging computations *)

Lemma emitted_bind {O A B} (m : Emit O A) (f : A -> Emit O B) :
  emitted (emit_bind m f)
  = emitted m ++ match outcome m with
                 | Ok a => emitted (f a)
                 | Raise _ => []
                 end.
Proof.
  destruct m as [out [a | e]]; simpl.
  - destruct (f a); reflexivity.
  - rewrite app_nil_r. reflexivity.
Qed.

Lemma outcome_bind {O A B} (m : Emit O A) (f : A -> Emit O B) :
  outcome (emit_bind m f)
  = match outcome m with
    | Ok a => outcome (f a)
    | Raise e => Raise e
    end.
Proof.
  destruct m as [out [a | e]]; simpl; [destruct (f a) |]; reflexivity.
Qed.

Lemma emit_bind_Ok {O A B} (m : Emit O A) (f : A -> Emit O B) out a :
  m = (out, Ok a) ->
  emit_bind m f = (out ++ emitted (f a), outcome (f a)).
Proof. intros ->. simpl. destruct (f a); reflexivity. Qed.

Lemma emit_bind_lift_Ok {O A B} (a : A) (f : A -> Emit O B) :
  emit_bind (emit_lift (Ok a)) f = f a.
Proof. simpl. destruct (f a); reflexivity. Qed.

Lemma emit_bind_ret {O A B} (a : A) (f : A -> Emit O B) :
  emit_bind (emit_ret a) f = f a.
Proof. simpl. destruct (f a); reflexivity. Qed.

(** ** Organization workflow settings *)

(** C10.  With [enabled_repositories] equal to ["none"], every field
    other than [enabled_repositories] is excluded from the computation of
    the difference; and [selected_repositories] is included if and only if
    [enabled_repositories] equals ["selected"]. *)
Theorem org_workflow_settings_diff_fields
    (WorkflowSettings : Type)
    (super_include : WorkflowSettings -> Field.t -> bool)
    (self : OrganizationWorkflowSettings.t WorkflowSettings)
    (field : Field.t) :
  (OrganizationWorkflowSettings.enabled_repositories self = VStr "none" ->
   Field.name field <> "enabled_repositories" ->
   OrganizationWorkflowSettings.include_field_for_diff_computation
     super_include self field = false)
  /\ (Field.name field = "selected_repositories" ->
      (OrganizationWorkflowSettings.include_field_for_diff_computation
         super_include self field = true
       <-> OrganizationWorkflowSettings.enabled_repositories self
           = VStr "selected")).
Proof.
  unfold OrganizationWorkflowSettings.include_field_for_diff_computation.
  split.
  - intros Hnone Hne. rewrite Hnone. simpl.
    destruct (String.eqb_spec (Field.name field) "enabled_repositories");
      [contradiction | reflexivity].
  - intros Hsel. rewrite Hsel. simpl.
    destruct (py_eq _ (VStr "none")) eqn:Hnone.
    + apply py_eq_str in Hnone. rewrite Hnone. split; discriminate.
    + destruct (py_eq _ (VStr "selected")) eqn:Hs.
      * apply py_eq_str in Hs. tauto.
      * split; [discriminate |]. intros H. apply py_eq_str in H. congruence.
Qed.

Lemma org_workflow_settings_diff_fields_witness :
  let self := OrganizationWorkflowSettings.mk unit tt (VStr "none") (VList []) in
  OrganizationWorkflowSettings.include_field_for_diff_computation
    (fun _ _ => true) self (Field.plain "allowed_actions") = false
  /\ (OrganizationWorkflowSettings.include_field_for_diff_computation
        (fun _ _ => true) self (Field.plain "selected_repositories") = true
      <-> OrganizationWorkflowSettings.enabled_repositories self
          = VStr "selected").
Proof.
  split.
  - apply (org_workflow_settings_diff_fields unit (fun _ _ => true));
      [reflexivity | discriminate].
  - apply (org_workflow_settings_diff_fields unit (fun _ _ => true)).
    reflexivity.
Defined.

(** ** The reference client *)

(** C9, as the code has it.  Deleting a git reference: a response with
    status 204 makes [delete_reference] return [True]; a conflict (409) or
    an unprocessable request (422, the status with which the provider
    answers the deletion of a reference that does not exist) makes it
    return [False] instead of raising; every other status, a plain
    not-found (404) included, raises [RuntimeError]. *)
Theorem delete_reference_outcomes
    (request_raw : string -> string -> Z * string)
    (org_id repo ref : string) :
  let status :=
    fst (request_raw "DELETE"
           ("/repos/" +:+ org_id +:+ "/" +:+ repo +:+ "/git/"
            +:+ ("refs/heads/" +:+ ref))) in
  (status = 204 ->
   ReferenceClient.delete_reference request_raw org_id repo ref = Ok true)
  /\ (status = 409 \/ status = 422 ->
      ReferenceClient.delete_reference request_raw org_id repo ref = Ok false)
  /\ (status <> 204 -> status <> 409 -> status <> 422 ->
      exists msg,
        ReferenceClient.delete_reference request_raw org_id repo ref
        = Raise (RuntimeError msg)).
Proof.
  unfold ReferenceClient.delete_reference.
  destruct (request_raw _ _) as [status body]. simpl.
  repeat split.
  - intros ->. reflexivity.
  - intros [-> | ->]; reflexivity.
  - intros H1 H2 H3.
    destruct (Z.eqb_spec status 204); [contradiction |].
    destruct (Z.eqb_spec status 409); [contradiction |].
    destruct (Z.eqb_spec status 422); [contradiction |].
    simpl. eexists. reflexivity.
Qed.

Lemma delete_reference_outcomes_witness :
  ReferenceClient.delete_reference (fun _ _ => (204, "")) "acme" "web" "tmp"
  = Ok true
  /\ ReferenceClient.delete_reference (fun _ _ => (409, "")) "acme" "web" "tmp"
     = Ok false
  /\ ReferenceClient.delete_reference (fun _ _ => (422, "")) "acme" "web" "tmp"
     = Ok false
  /\ exists msg,
       ReferenceClient.delete_reference (fun _ _ => (500, "")) "acme" "web"
         "tmp" = Raise (RuntimeError msg).
Proof.
  split; [| split; [| split]].
  - apply (delete_reference_outcomes (fun _ _ => (204, "")) "acme" "web" "tmp").
    reflexivity.
  - apply (delete_reference_outcomes (fun _ _ => (409, "")) "acme" "web" "tmp").
    left. reflexivity.
  - apply (delete_reference_outcomes (fun _ _ => (422, "")) "acme" "web" "tmp").
    right. reflexivity.
  - apply (delete_reference_outcomes (fun _ _ => (500, "")) "acme" "web" "tmp");
      simpl; lia.
Defined.

(** C9, as it is stated, fails for the response that is a not-found in
    the plain sense: on status 404 [delete_reference] raises. *)
Lemma delete_reference_not_found_raises :
  ~ (exists deleted,
       ReferenceClient.delete_reference (fun _ _ => (404, "Not Found"))
         "acme" "web" "tmp" = Ok deleted).
Proof. intros [deleted H]. vm_compute in H. discriminate H. Qed.

(** ** The field-level difference *)

Section Difference.
Context {T : Type} `{ModelObject T}.

Lemma diff_fold_lookup (self other : T) (keys : list string)
    (acc : gmap string Change) (k : string) (ch : Change) :
  fold_left (diff_step self other) keys acc !! k = Some ch ->
  acc !! k = Some ch
  \/ (In k keys
      /\ ch = mkChange (getattribute other k) (getattribute self k)
      /\ py_ne (getattribute other k) (getattribute self k) = true).
Proof.
  revert acc. induction keys as [| a keys IH]; intros acc Hl; simpl in Hl.
  - left. exact Hl.
  - apply IH in Hl. destruct Hl as [Hl | (Hin & Hch & Hne)].
    + unfold diff_step in Hl.
      destruct (py_ne (getattribute other a) (getattribute self a)) eqn:Hne;
        [| left; exact Hl].
      destruct (decide (a = k)) as [-> | Hak].
      * rewrite lookup_insert_eq in Hl. injection Hl as <-.
        right. split; [left; reflexivity | split; [reflexivity | exact Hne]].
      * rewrite lookup_insert_ne in Hl by exact Hak. left. exact Hl.
    + right. split; [right; exact Hin | split; assumption].
Qed.

Lemma diff_keys_In (self : T) (k : string) :
  In k (diff_keys self) ->
  exists f, In f all_fields /\ Field.name f = k
            /\ Field.nested_model f = false
            /\ include_field_for_diff_computation self f = true
            /\ is_unset (getattribute self k) = false.
Proof.
  unfold diff_keys. rewrite in_map_iff. intros (f & Hname & Hin).
  apply filter_In in Hin. destruct Hin as [Hin Hcond].
  apply andb_true_iff in Hcond. destruct Hcond as [Hcond Hset].
  apply andb_true_iff in Hcond. destruct Hcond as [Hnest Hincl].
  exists f. subst k. rewrite negb_true_iff in Hnest, Hset. auto.
Qed.

(** An entry of the difference is a change from the current to the
    expected value of an eligible field that is set and differs. *)
Lemma get_difference_from_lookup (self other : T) (k : string) (ch : Change) :
  get_difference_from self other !! k = Some ch ->
  In k (diff_keys self)
  /\ ch = mkChange (getattribute other k) (getattribute self k)
  /\ py_ne (getattribute other k) (getattribute self k) = true.
Proof.
  unfold get_difference_from. intros Hl. apply diff_fold_lookup in Hl.
  destruct Hl as [Hl | Hl]; [| exact Hl].
  rewrite lookup_empty in Hl. discriminate.
Qed.

(** A field whose expected value is unset is no part of the difference. *)
Lemma get_difference_from_unset (self other : T) (k : string) :
  is_unset (getattribute self k) = true ->
  get_difference_from self other !! k = None.
Proof.
  intros Hunset.
  destruct (get_difference_from self other !! k) as [ch |] eqn:Hl;
    [| reflexivity].
  apply get_difference_from_lookup in Hl. destruct Hl as (Hin & _).
  apply diff_keys_In in Hin. destruct Hin as (f & _ & _ & _ & _ & Hset).
  congruence.
Qed.

(** A field that the entity excludes is no part of the difference. *)
Lemma get_difference_from_excluded (self other : T) (k : string) :
  (forall f, Field.name f = k ->
             include_field_for_diff_computation self f = false) ->
  get_difference_from self other !! k = None.
Proof.
  intros Hexcl.
  destruct (get_difference_from self other !! k) as [ch |] eqn:Hl;
    [| reflexivity].
  apply get_difference_from_lookup in Hl. destruct Hl as (Hin & _).
  apply diff_keys_In in Hin. destruct Hin as (f & _ & Hname & _ & Hincl & _).
  rewrite (Hexcl f Hname) in Hincl. discriminate.
Qed.
End Difference.

(** ** Environment: validation and the difference *)




(** ** Patches of the nested models *)

Arguments emit_bind : simpl never.
Arguments emit_lift : simpl never.
Arguments emit_ret : simpl never.
Arguments emit_raise : simpl never.
Arguments handler : simpl never.

Lemma Forall_emitted_bind {O A B} (P : O -> Prop) (m : Emit O A)
    (f : A -> Emit O B) :
  Forall P (emitted m) ->
  (forall a, outcome m = Ok a -> Forall P (emitted (f a))) ->
  Forall P (emitted (emit_bind m f)).
Proof.
  intros Hm Hf. rewrite emitted_bind. apply Forall_app. split; [exact Hm |].
  destruct (outcome m) as [a | e]; [apply Hf; reflexivity | constructor].
Qed.

Lemma environment_patch_no_repository expected current parent context :
  Forall (fun p => mentions_repository p = false)
    (emitted (EnvironmentPatch.generate_live_patch expected current parent
                context)).
Proof.
  unfold EnvironmentPatch.generate_live_patch.
  destruct current as [c |], expected as [e |]; simpl;
    repeat match goal with
           | |- context [if ?b then _ else _] => destruct b; simpl
           end;
    repeat constructor.
Qed.

Lemma environment_list_no_repository expected current parent context :
  Forall (fun p => mentions_repository p = false)
    (emitted (EnvironmentPatch.generate_live_patch_of_list expected current
                parent context)).
Proof.
  unfold EnvironmentPatch.generate_live_patch_of_list.
  apply Forall_emitted_bind; [constructor |]. intros by_name _.
  destruct parent as [[parent | |] |]; try constructor.
  apply Forall_emitted_bind.
  - clear expected. revert by_name.
    induction current as [| c rest IH]; intros by_name; simpl;
      [constructor |].
    destruct (dict_get by_name (Environment.name c)) as [e |].
    + apply Forall_emitted_bind;
        [apply environment_patch_no_repository |]. intros _ _.
      apply Forall_emitted_bind; [constructor |]. intros remaining _.
      apply IH.
    + apply Forall_emitted_bind; [| intros _ _; apply IH].
      destruct (EnvironmentPatch.keeps_github_pages parent context c);
        [constructor | apply environment_patch_no_repository].
  - intros remaining _. clear.
    induction remaining as [| [n e] rest IH]; simpl; [constructor |].
    apply Forall_emitted_bind;
      [apply environment_patch_no_repository | intros _ _; exact IH].
Qed.

Lemma nested_patch_no_repository expected current parent :
  Forall (fun p => mentions_repository p = false)
    (emitted (NestedPatch.generate_live_patch expected current parent)).
Proof.
  unfold NestedPatch.generate_live_patch.
  destruct current as [c |], expected as [e |]; simpl;
    repeat match goal with
           | |- context [if ?b then _ else _] => destruct b; simpl
           end;
    repeat constructor.
Qed.

Lemma nested_list_no_repository expected current parent :
  Forall (fun p => mentions_repository p = false)
    (emitted (NestedPatch.generate_live_patch_of_list expected current parent)).
Proof.
  unfold NestedPatch.generate_live_patch_of_list.
  apply Forall_emitted_bind; [constructor |]. intros by_key _.
  apply Forall_emitted_bind.
  - clear expected. revert by_key.
    induction current as [| c rest IH]; intros by_key; simpl; [constructor |].
    destruct (dict_get by_key (Nested.key c)) as [e |].
    + apply Forall_emitted_bind; [apply nested_patch_no_repository |].
      intros _ _.
      apply Forall_emitted_bind; [constructor |]. intros remaining _.
      apply IH.
    + apply Forall_emitted_bind;
        [apply nested_patch_no_repository | intros _ _; apply IH].
  - intros remaining _. clear.
    induction remaining as [| [n e] rest IH]; simpl; [constructor |].
    apply Forall_emitted_bind;
      [apply nested_patch_no_repository | intros _ _; exact IH].
Qed.

(** The patches of the nested models never mention a repository as their
    expected or current object. *)
Lemma generate_nested_patches_no_repository expected current context :
  Forall (fun p => mentions_repository p = false)
    (emitted (RepositoryPatch.generate_nested_patches expected current
                context)).
Proof.
  unfold RepositoryPatch.generate_nested_patches.
  apply Forall_emitted_bind.
  { destruct (Repository.workflows expected), current;
      try constructor; apply nested_patch_no_repository. }
  intros _ _. apply Forall_emitted_bind;
    [apply nested_list_no_repository |].
  intros _ _. apply Forall_emitted_bind;
    [apply nested_list_no_repository |].
  intros _ _. apply Forall_emitted_bind;
    [apply environment_list_no_repository |].
  intros _ _. destruct (is_False (Repository.archived expected));
    [apply nested_list_no_repository | constructor].
Qed.

(** ** Repository: the change set *)

(** Every patch that [generate_live_patch] emits for a matched pair and
    that mentions a repository is the [CHANGE] of the expected repository
    against the current one after the organization-wide override, with
    [modified_repo] as its changes. *)
Lemma repository_change_patch expected current parent context p :
  In p (emitted (RepositoryPatch.generate_live_patch (Some expected)
                   (Some current) parent context)) ->
  mentions_repository p = true ->
  let baseline := RepositoryPatch.override_current context current in
  p = LivePatch.of_changes (MRepository expected) (MRepository baseline)
        (RepositoryPatch.modified_repo context expected baseline) parent false.
Proof.
  unfold RepositoryPatch.generate_live_patch. cbv zeta.
  rewrite emitted_bind. intros Hin Hrepo.
  apply in_app_iff in Hin. destruct Hin as [Hin | Hin].
  - destruct (Nat.ltb 0 _); simpl in Hin; [| contradiction].
    destruct Hin as [<- | []]. reflexivity.
  - exfalso.
    assert (Hnone : mentions_repository p = false); [| congruence].
    match type of Hin with
    | In _ (match ?o with _ => _ end) => destruct o; [| contradiction]
    end.
    pose proof (generate_nested_patches_no_repository expected
                  (Some (RepositoryPatch.override_current context current))
                  context) as Hall.
    rewrite Forall_forall in Hall. apply Hall.
    apply list_elem_of_In. exact Hin.
Qed.

Lemma modified_repo_lookup_None context expected current (f : string) :
  f <> "gh_pages_source_path" ->
  get_difference_from expected current !! f = None ->
  RepositoryPatch.modified_repo context expected current !! f = None.
Proof.
  intros Hf Hnone. unfold RepositoryPatch.modified_repo.
  set (m := if bool_decide _ then _ else _).
  assert (Hm : m !! f = None).
  { subst m. destruct (bool_decide _); [| exact Hnone].
    rewrite lookup_insert_ne by congruence. exact Hnone. }
  destruct (_ && _); [| exact Hm].
  destruct (decide ("has_projects" = f)) as [<- | Hne].
  - apply lookup_delete_eq.
  - rewrite lookup_delete_ne by exact Hne. exact Hm.
Qed.

Lemma modified_repo_lookup_Some context expected current (f : string) ch :
  f <> "gh_pages_source_path" ->
  RepositoryPatch.modified_repo context expected current !! f = Some ch ->
  get_difference_from expected current !! f = Some ch.
Proof.
  intros Hf Hsome.
  destruct (get_difference_from expected current !! f) as [ch' |] eqn:Hd.
  - revert Hsome. unfold RepositoryPatch.modified_repo.
    set (m := if bool_decide _ then _ else _).
    assert (Hm : m !! f = Some ch').
    { subst m. destruct (bool_decide _); [| exact Hd].
      rewrite lookup_insert_ne by congruence. exact Hd. }
    destruct (_ && _); [| congruence].
    destruct (decide ("has_projects" = f)) as [<- | Hne].
    + rewrite lookup_delete_eq. discriminate.
    + rewrite lookup_delete_ne by exact Hne. congruence.
  - rewrite (modified_repo_lookup_None context expected current f Hf Hd)
      in Hsome. discriminate.
Qed.

Lemma repository_excluded_field context (expected current : Repository.t)
    (f : string) :
  f <> "gh_pages_source_path" ->
  (forall field, Field.name field = f ->
     include_field_for_diff_computation expected field = false) ->
  get_difference_from expected current !! f = None
  /\ RepositoryPatch.modified_repo context expected current !! f = None.
Proof.
  intros Hf Hexcl.
  assert (Hd : get_difference_from expected current !! f = None)
    by (apply get_difference_from_excluded; exact Hexcl).
  split; [exact Hd | apply modified_repo_lookup_None; assumption].
Qed.

(** C5.  For an expected repository whose [archived] flag is [True], no
    field of [_unavailable_fields_in_archived_repos] is eligible for the
    computation of the difference, so none is in the difference from any
    current repository nor in the change set handed to the [CHANGE] patch,
    whatever the two values are; for an expected repository whose
    [private] flag is [True] the same holds of the fields of
    [_security_properties]. *)
Theorem repository_exclusions_are_diff_blind
    (context : LivePatchContext) (expected current : Repository.t)
    (f : string) :
  (Repository.archived expected = VBool true ->
   In f Repository._unavailable_fields_in_archived_repos ->
   (forall field, Field.name field = f ->
      include_field_for_diff_computation expected field = false)
   /\ get_difference_from expected current !! f = None
   /\ RepositoryPatch.modified_repo context expected current !! f = None)
  /\ (Repository.private expected = VBool true ->
      In f Repository._security_properties ->
      (forall field, Field.name field = f ->
         include_field_for_diff_computation expected field = false)
      /\ get_difference_from expected current !! f = None
      /\ RepositoryPatch.modified_repo context expected current !! f = None).
Proof.
  split.
  - intros Harchived Hin.
    assert (Hexcl : forall field, Field.name field = f ->
              include_field_for_diff_computation expected field = false).
    { intros field Hname. simpl.
      unfold Repository.include_field_for_diff_computation.
      rewrite Harchived, Hname.
      apply name_in_In in Hin. rewrite Hin. simpl.
      destruct (_ && _); reflexivity. }
    split; [exact Hexcl |]. apply repository_excluded_field; [| exact Hexcl].
    intros ->. simpl in Hin. intuition discriminate.
  - intros Hprivate Hin.
    assert (Hexcl : forall field, Field.name field = f ->
              include_field_for_diff_computation expected field = false).
    { intros field Hname. simpl.
      unfold Repository.include_field_for_diff_computation.
      rewrite Hprivate, Hname.
      apply name_in_In in Hin. rewrite Hin. reflexivity. }
    split; [exact Hexcl |]. apply repository_excluded_field; [| exact Hexcl].
    intros ->. simpl in Hin. intuition discriminate.
Qed.

Lemma repository_exclusions_are_diff_blind_witness :
  let context :=
    {| org_id := "acme"; expected_org_settings := ∅;
       modified_org_settings := ∅ |} in
  let expected :=
    Repository.setattr
      (Repository.setattr
         (Repository.setattr (Repository.named "web") "archived" (VBool true))
         "private" (VBool true))
      "secret_scanning" (VStr "enabled") in
  let current :=
    Repository.setattr (Repository.named "web") "secret_scanning"
      (VStr "disabled") in
  ((forall field, Field.name field = "secret_scanning" ->
      include_field_for_diff_computation expected field = false)
   /\ get_difference_from expected current !! "secret_scanning" = None
   /\ RepositoryPatch.modified_repo context expected current
        !! "secret_scanning" = None)
  /\ ((forall field, Field.name field = "secret_scanning" ->
         include_field_for_diff_computation expected field = false)
      /\ get_difference_from expected current !! "secret_scanning" = None
      /\ RepositoryPatch.modified_repo context expected current
           !! "secret_scanning" = None).
Proof.
  intros context expected current.
  split.
  - apply (repository_exclusions_are_diff_blind context expected current
             "secret_scanning"); [reflexivity |].
    simpl. tauto.
  - apply (repository_exclusions_are_diff_blind context expected current
             "secret_scanning"); [reflexivity |].
    simpl. tauto.
Defined.

(** ** Repository: the organization-wide override *)

Lemma override_current_signoff context current change :
  modified_org_settings context !! "web_commit_signoff_required" = Some change ->
  to_value change = VBool true ->
  Repository.web_commit_signoff_required
    (RepositoryPatch.override_current context current) = VBool true.
Proof.
  intros Hmod Hto. unfold RepositoryPatch.override_current.
  rewrite Hmod, Hto. reflexivity.
Qed.

(** C2.  When the modified organization settings hold a change of
    [web_commit_signoff_required] whose target value is [True], the
    current repository that takes part in the comparison has its
    [web_commit_signoff_required] forced to [True]; the resulting change
    set then never lists [web_commit_signoff_required] as a change to
    [True] (an entry, if any, starts from [True] and goes to another
    value), it does not list the field at all when the expected value is
    unset or [True], and this change set is the one carried by the
    [CHANGE] patch of the repository. *)
Theorem repository_signoff_override
    (context : LivePatchContext) (expected current : Repository.t)
    (parent : option Model) (change : Change) :
  modified_org_settings context !! "web_commit_signoff_required" = Some change ->
  to_value change = VBool true ->
  let baseline := RepositoryPatch.override_current context current in
  let modified_repo := RepositoryPatch.modified_repo context expected baseline in
  Repository.web_commit_signoff_required baseline = VBool true
  /\ (forall ch, modified_repo !! "web_commit_signoff_required" = Some ch ->
        from_value ch = VBool true
        /\ py_eq (VBool true) (to_value ch) = false)
  /\ (Repository.web_commit_signoff_required expected = UNSET
      \/ Repository.web_commit_signoff_required expected = VBool true ->
      modified_repo !! "web_commit_signoff_required" = None)
  /\ (forall p,
        In p (emitted (RepositoryPatch.generate_live_patch (Some expected)
                         (Some current) parent context)) ->
        mentions_repository p = true ->
        p = LivePatch.of_changes (MRepository expected) (MRepository baseline)
              modified_repo parent false).
Proof.
  intros Hmod Hto baseline modified_repo.
  pose proof (override_current_signoff context current change Hmod Hto)
    as Hforced. fold baseline in Hforced.
  assert (Hentry : forall ch,
            modified_repo !! "web_commit_signoff_required" = Some ch ->
            ch = mkChange (VBool true)
                   (Repository.web_commit_signoff_required expected)
            /\ py_ne (VBool true)
                 (Repository.web_commit_signoff_required expected) = true).
  { intros ch Hch. subst modified_repo.
    apply modified_repo_lookup_Some in Hch; [| discriminate].
    apply get_difference_from_lookup in Hch.
    destruct Hch as (_ & Hch & Hne).
    change (getattribute baseline "web_commit_signoff_required")
      with (Repository.web_commit_signoff_required baseline) in Hch, Hne.
    change (getattribute expected "web_commit_signoff_required")
      with (Repository.web_commit_signoff_required expected) in Hch, Hne.
    rewrite Hforced in Hch, Hne. split; assumption. }
  split; [exact Hforced |]. split; [| split].
  - intros ch Hch. apply Hentry in Hch. destruct Hch as [-> Hne].
    simpl. split; [reflexivity |].
    unfold py_ne in Hne. apply negb_true_iff in Hne. exact Hne.
  - intros [Hexp | Hexp].
    + subst modified_repo.
      apply modified_repo_lookup_None; [discriminate |].
      apply get_difference_from_unset.
      change (getattribute expected "web_commit_signoff_required")
        with (Repository.web_commit_signoff_required expected).
      rewrite Hexp. reflexivity.
    + apply eq_None_not_Some. intros [ch Hch].
      apply Hentry in Hch. destruct Hch as [_ Hne].
      rewrite Hexp in Hne. vm_compute in Hne. discriminate.
  - intros p Hin Hrepo.
    exact (repository_change_patch expected current parent context p Hin Hrepo).
Qed.

Lemma repository_signoff_override_witness :
  let context :=
    {| org_id := "acme"; expected_org_settings := ∅;
       modified_org_settings :=
         {[ "web_commit_signoff_required" :=
              mkChange (VBool false) (VBool true) ]} |} in
  let expected := Repository.named "web" in
  let current :=
    Repository.setattr (Repository.named "web") "web_commit_signoff_required"
      (VBool false) in
  let baseline := RepositoryPatch.override_current context current in
  Repository.web_commit_signoff_required baseline = VBool true
  /\ RepositoryPatch.modified_repo context expected baseline
       !! "web_commit_signoff_required" = None.
Proof.
  intros context expected current baseline.
  pose proof (repository_signoff_override context expected current None
                (mkChange (VBool false) (VBool true)) eq_refl eq_refl)
    as (Hforced & _ & Hnone & _).
  split; [exact Hforced | apply Hnone; left; reflexivity].
Defined.

(** ** Dictionaries *)

Section DictFacts.
Context {V : Type}.
Implicit Types (d : dict V) (k : string) (v : V).

Lemma dict_get_remove_ne d k k' :
  k <> k' -> dict_get (dict_remove d k) k' = dict_get d k'.
Proof.
  intros Hne. induction d as [| [k0 v0] d IH]; simpl; [reflexivity |].
  destruct (String.eqb_spec k0 k) as [-> | Hk0].
  - destruct (String.eqb_spec k k'); [contradiction | reflexivity].
  - simpl. rewrite IH. reflexivity.
Qed.

Lemma dict_get_set_eq d k v : dict_get (dict_set d k v) k = Some v.
Proof.
  induction d as [| [k0 v0] d IH]; simpl.
  - rewrite String.eqb_refl. reflexivity.
  - destruct (String.eqb_spec k0 k) as [-> | Hk0]; simpl.
    + rewrite String.eqb_refl. reflexivity.
    + destruct (String.eqb_spec k0 k); [contradiction | exact IH].
Qed.

Lemma dict_get_set_ne d k k' v :
  k <> k' -> dict_get (dict_set d k v) k' = dict_get d k'.
Proof.
  intros Hne. induction d as [| [k0 v0] d IH]; simpl.
  - destruct (String.eqb_spec k k'); [contradiction | reflexivity].
  - destruct (String.eqb_spec k0 k) as [-> | Hk0]; simpl.
    + destruct (String.eqb_spec k k'); [contradiction | reflexivity].
    + rewrite IH. reflexivity.
Qed.

Lemma dict_pop_Some d k v :
  dict_get d k = Some v -> dict_pop d k = Ok (dict_remove d k).
Proof. intros H. unfold dict_pop, dict_contains. rewrite H. reflexivity. Qed.

Lemma dict_pop_guarded d k :
  (if dict_contains d k then dict_pop d k else Ok d) = Ok (dict_remove d k).
Proof.
  unfold dict_pop. destruct (dict_contains d k) eqn:Hc; [reflexivity |].
  f_equal. unfold dict_contains in Hc.
  induction d as [| [k0 v0] d IH]; simpl in *; [reflexivity |].
  destruct (String.eqb k0 k); [discriminate |]. rewrite <- IH; auto.
Qed.
End DictFacts.

(** ** Repository: the mapping to the provider *)

Lemma set_fields_mapping_get fields data k :
  dict_get (set_fields_mapping fields data) k
  = if name_in k (map Field.name (provider_fields fields))
       && negb (is_unset (data_get data k UNSET))
    then Some (Bender.S k)
    else None.
Proof.
  unfold set_fields_mapping.
  induction (provider_fields fields) as [| f l IH]; simpl; [reflexivity |].
  rewrite (String.eqb_sym k).
  destruct (is_unset (data_get data (Field.name f) UNSET)) eqn:Hf; simpl.
  - rewrite IH.
    destruct (String.eqb (Field.name f) k) eqn:E; simpl; [| reflexivity].
    apply String.eqb_eq in E. rewrite <- E, Hf. simpl.
    rewrite andb_false_r. reflexivity.
  - destruct (String.eqb (Field.name f) k) eqn:E; simpl; [| exact IH].
    apply String.eqb_eq in E. rewrite <- E, Hf. reflexivity.
Qed.

Lemma pop_security_properties_spec props mapping :
  exists mapping',
    Repository.pop_security_properties props mapping = Ok mapping'
    /\ forall k, ~ In k props -> dict_get mapping' k = dict_get mapping k.
Proof.
  revert mapping. induction props as [| p props IH]; intros mapping; simpl.
  - exists mapping. split; [reflexivity | auto].
  - rewrite dict_pop_guarded. simpl.
    destruct (IH (dict_remove mapping p)) as (m' & Hm' & Hget).
    exists m'. split; [exact Hm' |].
    intros k Hk. rewrite Hget by tauto. apply dict_get_remove_ne. tauto.
Qed.

Lemma nest_security_properties_spec data props mapping security_mapping :
  exists mapping' security_mapping',
    Repository.nest_security_properties data props mapping security_mapping
    = Ok (mapping', security_mapping')
    /\ forall k, ~ In k props -> dict_get mapping' k = dict_get mapping k.
Proof.
  revert mapping security_mapping.
  induction props as [| p props IH]; intros mapping security_mapping; simpl.
  - exists mapping, security_mapping. split; [reflexivity | auto].
  - rewrite dict_pop_guarded. simpl.
    match goal with
    | |- context [Repository.nest_security_properties data props ?m ?sm] =>
        destruct (IH m sm) as (m' & sm' & Hm' & Hget)
    end.
    exists m', sm'. split; [exact Hm' |].
    intros k Hk. rewrite Hget by tauto. apply dict_get_remove_ne. tauto.
Qed.

(** The first part of [get_mapping_to_provider], up to the nesting of the
    security properties, never raises and leaves every entry alone that is
    not a security property. *)
Lemma security_stage_spec data mapping :
  exists mapping',
    (if truthy (data_get data "private" (VBool false))
     then Repository.pop_security_properties Repository._security_properties
            mapping
     else
       (let? r := Repository.nest_security_properties data
                    Repository._security_properties mapping [] in
        let '(mapping, security_mapping) := r in
        if Nat.ltb 0 (length security_mapping)
        then Ok (dict_set mapping "security_and_analysis"
                   (Bender.Obj security_mapping))
        else Ok mapping)%result) = Ok mapping'
    /\ forall k, ~ In k Repository._security_properties ->
                 k <> "security_and_analysis" ->
                 dict_get mapping' k = dict_get mapping k.
Proof.
  destruct (truthy _).
  - destruct (pop_security_properties_spec Repository._security_properties
                mapping) as (m' & Hm' & Hget).
    exists m'. split; [exact Hm' | auto].
  - destruct (nest_security_properties_spec data
                Repository._security_properties mapping [])
      as (m' & sm' & Hm' & Hget).
    rewrite Hm'. simpl. destruct (Nat.ltb 0 (length sm')).
    + eexists. split; [reflexivity |]. intros k Hk Hne.
      rewrite dict_get_set_ne by congruence. auto.
    + exists m'. split; [reflexivity | auto].
Qed.

(** C7, as the code has it.  When [data] holds ["disabled"] as
    [gh_pages_build_type], [get_mapping_to_provider] returns a mapping
    whose nested [gh_pages] object carries the build type only, without a
    [source] branch or path; the flat entries [gh_pages_source_branch] and
    [gh_pages_source_path] are not taken out of the mapping: each one is
    still there exactly when [data] sets it. *)
Theorem repository_mapping_pages_disabled
    (org_id : string) (data : gmap string value) (provider : GitHubProvider) :
  data !! "gh_pages_build_type" = Some (VStr "disabled") ->
  exists mapping,
    Repository.get_mapping_to_provider org_id data provider = Ok mapping
    /\ dict_get mapping "gh_pages"
       = Some (Bender.Obj [("build_type", Bender.S "gh_pages_build_type")])
    /\ forall source_prop,
         In source_prop Repository._gh_pages_properties ->
         dict_get mapping source_prop
         = if is_unset (data_get data source_prop UNSET)
           then None
           else Some (Bender.S source_prop).
Proof.
  intros Hbt. unfold Repository.get_mapping_to_provider.
  destruct (security_stage_spec data
              (set_fields_mapping Repository.fields data))
    as (m1 & Hm1 & Hget1).
  cbv zeta. rewrite Hm1. cbn [result_bind].
  assert (Hc : data_contains data "gh_pages_build_type" = true)
    by (unfold data_contains; rewrite Hbt; reflexivity).
  assert (Hv : data_get data "gh_pages_build_type" VNone = VStr "disabled")
    by (unfold data_get; rewrite Hbt; reflexivity).
  assert (Hv' : data_get data "gh_pages_build_type" UNSET = VStr "disabled")
    by (unfold data_get; rewrite Hbt; reflexivity).
  rewrite Hc, Hv.
  assert (Hbt1 : dict_get m1 "gh_pages_build_type"
                 = Some (Bender.S "gh_pages_build_type")).
  { rewrite Hget1; [| simpl; intuition discriminate | discriminate].
    rewrite set_fields_mapping_get, Hv'. reflexivity. }
  rewrite (dict_pop_Some _ _ _ Hbt1). cbn.
  eexists. split; [reflexivity |]. split.
  - apply dict_get_set_eq.
  - intros source_prop Hin.
    assert (Hsrc : source_prop = "gh_pages_source_branch"
                   \/ source_prop = "gh_pages_source_path")
      by (destruct Hin as [<- | [<- | []]]; auto).
    rewrite dict_get_set_ne by (destruct Hsrc; subst; discriminate).
    rewrite dict_get_remove_ne by (destruct Hsrc; subst; discriminate).
    rewrite Hget1;
      [| destruct Hsrc; subst; simpl; intuition discriminate
       | destruct Hsrc; subst; discriminate].
    rewrite set_fields_mapping_get.
    destruct Hsrc; subst; simpl;
      destruct (is_unset _); reflexivity.
Qed.

Lemma repository_mapping_pages_disabled_witness :
  exists mapping,
    Repository.get_mapping_to_provider "acme"
      (list_to_map [("gh_pages_build_type", VStr "disabled");
                    ("gh_pages_source_branch", VStr "main")])
      sample_provider = Ok mapping
    /\ dict_get mapping "gh_pages"
       = Some (Bender.Obj [("build_type", Bender.S "gh_pages_build_type")]).
Proof.
  assert (Hbt : (list_to_map [("gh_pages_build_type", VStr "disabled");
                              ("gh_pages_source_branch", VStr "main")]
                  : gmap string value) !! "gh_pages_build_type"
                = Some (VStr "disabled")) by reflexivity.
  destruct (repository_mapping_pages_disabled "acme" _ sample_provider Hbt)
    as (mapping & Hm & Hpages & _).
  exists mapping. split; assumption.
Defined.

(** C7, as it is stated, fails: with ["disabled"] as build type and both
    source properties set, the mapping still has both flat entries. *)
Lemma repository_mapping_pages_disabled_keeps_source :
  ~ (forall mapping,
       Repository.get_mapping_to_provider "acme"
         (list_to_map [("gh_pages_build_type", VStr "disabled");
                       ("gh_pages_source_branch", VStr "main");
                       ("gh_pages_source_path", VStr "/")])
         sample_provider = Ok mapping ->
       dict_get mapping "gh_pages_source_branch" = None
       /\ dict_get mapping "gh_pages_source_path" = None).
Proof.
  intros H.
  destruct (H [("gh_pages_source_branch", Bender.S "gh_pages_source_branch");
               ("gh_pages_source_path", Bender.S "gh_pages_source_path");
               ("gh_pages",
                Bender.Obj [("build_type", Bender.S "gh_pages_build_type")])])
    as [Hbranch _].
  - vm_compute. reflexivity.
  - discriminate Hbranch.
Qed.

(** ** Unset fields *)

(** An unset or missing entry of [data] is no entry of the mapping of an
    environment. *)
Lemma environment_mapping_unset org_id data provider mapping f :
  is_unset (data_get data f UNSET) = true ->
  Environment.get_mapping_to_provider org_id data provider = Ok mapping ->
  dict_get mapping f = None.
Proof.
  intros Hunset. unfold Environment.get_mapping_to_provider. cbv zeta.
  set (m0 := set_fields_mapping Environment.fields data).
  assert (H0 : dict_get m0 f = None).
  { subst m0. rewrite set_fields_mapping_get, Hunset.
    rewrite andb_false_r. reflexivity. }
  set (m1 := if dict_contains m0 "reviewers" then _ else _).
  assert (H1 : dict_get m1 f = None).
  { subst m1. destruct (dict_contains m0 "reviewers") eqn:Hc; [| exact H0].
    destruct (String.eqb_spec "reviewers" f) as [<- | Hne].
    - unfold dict_contains in Hc. rewrite H0 in Hc. discriminate.
    - rewrite dict_get_set_ne by exact Hne. exact H0. }
  destruct (dict_contains m1 "deployment_branch_policy") eqn:Hc.
  - intros Hm.
    assert (Hne : "deployment_branch_policy" <> f).
    { intros <-. unfold dict_contains in Hc. rewrite H1 in Hc. discriminate. }
    repeat match type of Hm with
           | context [if ?b then _ else _] => destruct b
           end;
      cbn in Hm; try discriminate; injection Hm as <-;
      rewrite dict_get_set_ne by exact Hne; exact H1.
  - intros [= <-]. exact H1.
Qed.

(** C4 at a failing input.  The expected repository sets a legacy GitHub
    Pages build from the branch ["main"] and leaves
    [gh_pages_source_path] unset; the current repository builds from
    ["gh-pages"].  The [CHANGE] patch then lists [gh_pages_source_path],
    whose expected value is unset, and the mapping to the provider of the
    target values of that change set raises [KeyError]. *)
Theorem repository_change_lists_unset_source_path :
  let expected :=
    Repository.setattr
      (Repository.setattr (Repository.named "web") "gh_pages_build_type"
         (VStr "legacy"))
      "gh_pages_source_branch" (VStr "main") in
  let current :=
    Repository.setattr
      (Repository.setattr
         (Repository.setattr (Repository.named "web") "gh_pages_build_type"
            (VStr "legacy"))
         "gh_pages_source_branch" (VStr "gh-pages"))
      "gh_pages_source_path" (VStr "/") in
  let changes : gmap string Change :=
    {[ "gh_pages_source_branch" := mkChange (VStr "gh-pages") (VStr "main");
       "gh_pages_source_path" := mkChange UNSET UNSET ]} in
  is_unset (Repository.gh_pages_source_path expected) = true
  /\ RepositoryPatch.generate_live_patch (Some expected) (Some current) None
       sample_context
     = ([LivePatch.of_changes (MRepository expected) (MRepository current)
           changes None false], Ok tt)
  /\ Repository.get_mapping_to_provider "acme" (to_value <$> changes)
       sample_provider
     = Raise (KeyError "gh_pages_source_path").
Proof.
  split; [reflexivity |]. split; vm_compute; reflexivity.
Qed.

(** The nesting of the security properties asks whether the property is a
    key of [data], not whether its value is set: an unset value is passed
    on below [security_and_analysis]. *)
Example repository_mapping_nests_unset_security_property :
  Repository.get_mapping_to_provider "acme"
    {[ "secret_scanning" := UNSET ]} sample_provider
  = Ok [("security_and_analysis",
         Bender.Obj
           [("secret_scanning",
             Bender.Obj [("status", Bender.S "secret_scanning")])])].
Proof. vm_compute. reflexivity. Qed.

(** ** Indexing a list of entities by key *)

Section DictKeys.
Context {V : Type}.
Implicit Types (d : dict V) (k : string) (v : V).

Lemma dict_get_None d k : dict_get d k = None <-> ~ In k (dict_keys d).
Proof.
  induction d as [| [k0 v0] d IH]; simpl; [tauto |].
  destruct (String.eqb_spec k0 k) as [-> | Hne].
  - split; [discriminate | tauto].
  - rewrite IH. tauto.
Qed.

Lemma dict_get_Some_In d k v : dict_get d k = Some v -> In (k, v) d.
Proof.
  induction d as [| [k0 v0] d IH]; simpl; [discriminate |].
  destruct (String.eqb_spec k0 k) as [-> | Hne].
  - intros [= ->]. left. reflexivity.
  - intros H. right. apply IH. exact H.
Qed.

Lemma dict_In_get d k v :
  NoDup (dict_keys d) -> In (k, v) d -> dict_get d k = Some v.
Proof.
  induction d as [| [k0 v0] d IH]; simpl; [tauto |].
  intros Hnd Hin. apply NoDup_cons in Hnd. destruct Hnd as [Hk0 Hnd].
  rewrite list_elem_of_In in Hk0.
  destruct Hin as [[= -> ->] | Hin].
  - rewrite String.eqb_refl. reflexivity.
  - destruct (String.eqb_spec k0 k) as [-> | Hne]; [| auto].
    exfalso. apply Hk0. apply in_map_iff. exists (k, v). split; auto.
Qed.

Lemma dict_remove_In d k k' v :
  In (k', v) (dict_remove d k) -> In (k', v) d.
Proof.
  induction d as [| [k0 v0] d IH]; simpl; [tauto |].
  destruct (String.eqb k0 k); simpl; [tauto |].
  intros [H | H]; [left; exact H | right; apply IH; exact H].
Qed.

Lemma dict_remove_keys_In d k k' :
  In k' (dict_keys (dict_remove d k)) -> In k' (dict_keys d).
Proof.
  unfold dict_keys. rewrite !in_map_iff. intros ([k0 v0] & Hk & Hin).
  exists (k0, v0). split; [exact Hk |]. eapply dict_remove_In. exact Hin.
Qed.

Lemma dict_remove_NoDup d k :
  NoDup (dict_keys d) -> NoDup (dict_keys (dict_remove d k)).
Proof.
  induction d as [| [k0 v0] d IH]; simpl; [auto |].
  intros Hnd. apply NoDup_cons in Hnd. destruct Hnd as [Hk0 Hnd].
  rewrite list_elem_of_In in Hk0.
  destruct (String.eqb k0 k); [exact Hnd |].
  simpl. apply NoDup_cons. split; [| auto].
  rewrite list_elem_of_In. intros Hin. apply Hk0. eapply dict_remove_keys_In. exact Hin.
Qed.

Lemma dict_remove_not_In d k :
  NoDup (dict_keys d) -> ~ In k (dict_keys (dict_remove d k)).
Proof.
  induction d as [| [k0 v0] d IH]; simpl; [tauto |].
  intros Hnd. apply NoDup_cons in Hnd. destruct Hnd as [Hk0 Hnd].
  rewrite list_elem_of_In in Hk0.
  destruct (String.eqb_spec k0 k) as [-> | Hne]; [exact Hk0 |].
  simpl. intros [H | H]; [contradiction | exact (IH Hnd H)].
Qed.

Lemma dict_remove_keys_ne d k k' :
  k <> k' -> In k' (dict_keys d) -> In k' (dict_keys (dict_remove d k)).
Proof.
  intros Hne Hin.
  destruct (dict_get (dict_remove d k) k') as [v |] eqn:Hget.
  - apply dict_get_Some_In in Hget. apply in_map_iff. exists (k', v). auto.
  - rewrite dict_get_remove_ne in Hget by exact Hne.
    apply dict_get_None in Hget. contradiction.
Qed.

Lemma dict_set_fresh d k v :
  ~ In k (dict_keys d) -> dict_set d k v = d ++ [(k, v)].
Proof.
  induction d as [| [k0 v0] d IH]; simpl; [reflexivity |].
  intros Hk. destruct (String.eqb_spec k0 k) as [-> | Hne]; [tauto |].
  rewrite IH by tauto. reflexivity.
Qed.

Lemma dict_keys_app d d' : dict_keys (d ++ d') = dict_keys d ++ dict_keys d'.
Proof. apply map_app. Qed.
End DictKeys.

Lemma associate_by_key_spec {T} (key_func : T -> string) (input : list T)
    (acc : dict T) :
  NoDup (dict_keys acc ++ map key_func input) ->
  associate_by_key key_func input acc
  = Ok (acc ++ map (fun item => (key_func item, item)) input).
Proof.
  revert acc. induction input as [| item rest IH]; intros acc Hnd; simpl.
  - rewrite app_nil_r. reflexivity.
  - assert (Hfresh : ~ In (key_func item) (dict_keys acc)).
    { intros Hin. apply NoDup_app in Hnd. destruct Hnd as (_ & Hdisj & _).
      apply list_elem_of_In in Hin. apply (Hdisj _ Hin).
      apply list_elem_of_In. left. reflexivity. }
    unfold dict_contains.
    destruct (dict_get acc (key_func item)) eqn:Hget.
    + exfalso. apply Hfresh. apply dict_get_Some_In in Hget.
      apply in_map_iff. exists (key_func item, t). auto.
    + rewrite dict_set_fresh by exact Hfresh.
      rewrite IH.
      * rewrite <- app_assoc. reflexivity.
      * rewrite dict_keys_app, <- app_assoc. exact Hnd.
Qed.

Lemma associate_by_key_keys {T} (key_func : T -> string) (input : list T) :
  dict_keys (map (fun item => (key_func item, item)) input)
  = map key_func input.
Proof. unfold dict_keys. rewrite map_map. reflexivity. Qed.

(** ** Counting patches *)

Lemma count_patches_app kind ty k (a b : list LivePatch.t) :
  count_patches kind ty k (a ++ b)
  = (count_patches kind ty k a + count_patches kind ty k b)%nat.
Proof.
  unfold count_patches. rewrite List.filter_app, List.length_app. reflexivity.
Qed.

Lemma count_emitted_bind {A B} kind ty k (m : Emit LivePatch.t A)
    (f : A -> Emit LivePatch.t B) :
  count_patches kind ty k (emitted (emit_bind m f))
  = (count_patches kind ty k (emitted m)
     + match outcome m with
       | Ok a => count_patches kind ty k (emitted (f a))
       | Raise _ => 0
       end)%nat.
Proof.
  rewrite emitted_bind, count_patches_app.
  destruct (outcome m); reflexivity.
Qed.

Lemma count_patches_no_repository ty k (ps : list LivePatch.t) :
  Forall (fun p => mentions_repository p = false) ps ->
  count_patches REPOSITORY ty k ps = 0%nat.
Proof.
  induction 1 as [| p ps Hp _ IH]; [reflexivity |].
  unfold count_patches in *. simpl.
  assert (Hno : patch_is REPOSITORY ty k p = false); [| rewrite Hno; exact IH].
  unfold mentions_repository in Hp. apply orb_false_iff in Hp.
  destruct Hp as [He Hc]. unfold patch_is, patch_subject.
  destruct p as [pty [[| |] |] [[| |] |] ch par forced];
    simpl in *; try discriminate; destruct pty;
    rewrite ?andb_false_r; reflexivity.
Qed.

Lemma count_occ_names_le_1 (names : list string) (k : string) :
  NoDup names -> (count_occ String.string_dec names k <= 1)%nat.
Proof.
  intros Hnd. apply NoDup_ListNoDup in Hnd.
  apply (proj1 (NoDup_count_occ String.string_dec names) Hnd).
Qed.

(** ** Environment: the reconciliation of a list *)

Section EnvironmentList.
Variable parent : Repository.t.
Variable context : LivePatchContext.

Lemma environment_patch_matched e c :
  EnvironmentPatch.generate_live_patch (Some e) (Some c) (Some (MRepository parent)) context
  = (if Nat.ltb 0 (size (get_difference_from e c))
     then [LivePatch.of_changes (MEnvironment e) (MEnvironment c)
             (get_difference_from e c) (Some (MRepository parent)) false]
     else [], Ok tt).
Proof.
  unfold EnvironmentPatch.generate_live_patch.
  destruct (Nat.ltb 0 _); reflexivity.
Qed.

Lemma environment_patch_matched_counts e c ty k :
  count_patches ENVIRONMENT ty k
    (emitted (EnvironmentPatch.generate_live_patch (Some e) (Some c)
                (Some (MRepository parent)) context))
  = if bool_decide (ty = CHANGE)
       && String.eqb (Environment.name c) k
       && Nat.ltb 0 (size (get_difference_from e c))
    then 1%nat else 0%nat.
Proof.
  rewrite environment_patch_matched. simpl.
  destruct (Nat.ltb 0 _); unfold count_patches; simpl;
    [| rewrite andb_false_r; reflexivity].
  unfold patch_is. simpl. rewrite andb_true_r.
  destruct ty; simpl; try reflexivity.
  destruct (String.eqb _ _); reflexivity.
Qed.

Lemma environment_patch_removed_counts c ty k :
  count_patches ENVIRONMENT ty k
    (emitted (EnvironmentPatch.generate_live_patch None (Some c)
                (Some (MRepository parent)) context))
  = if bool_decide (ty = REMOVE) && String.eqb (Environment.name c) k
    then 1%nat else 0%nat.
Proof.
  unfold count_patches, patch_is. simpl.
  destruct ty; simpl; try reflexivity.
  destruct (String.eqb _ _); reflexivity.
Qed.

Lemma count_occ_name_cons (c : Environment.t) rest k :
  count_occ String.string_dec (map Environment.name (c :: rest)) k
  = ((if String.eqb (Environment.name c) k then 1 else 0)
     + count_occ String.string_dec (map Environment.name rest) k)%nat.
Proof.
  simpl. destruct (String.string_dec (Environment.name c) k) as [-> | Hne].
  - rewrite String.eqb_refl. reflexivity.
  - destruct (String.eqb_spec (Environment.name c) k); [contradiction |].
    reflexivity.
Qed.

(** The loop over the current environments runs to its end; it removes
    from the dict the names it meets and emits no addition. *)
Lemma for_current_environments_spec current :
  forall by_name : dict Environment.t,
    NoDup (dict_keys by_name) ->
    exists ps remaining,
      EnvironmentPatch.for_current_environments current by_name parent context
      = (ps, Ok remaining)
      /\ NoDup (dict_keys remaining)
      /\ (forall n e, In (n, e) remaining -> In (n, e) by_name)
      /\ (forall n, In n (map Environment.name current) ->
                    ~ In n (dict_keys remaining))
      /\ (forall k, count_patches ENVIRONMENT ADD k ps = 0%nat)
      /\ (forall k, (count_patches ENVIRONMENT CHANGE k ps
                     <= count_occ String.string_dec
                          (map Environment.name current) k)%nat)
      /\ (forall k, (count_patches ENVIRONMENT REMOVE k ps
                     <= count_occ String.string_dec
                          (map Environment.name current) k)%nat)
      /\ (forall k, NoDup (map Environment.name current) ->
                    In k (dict_keys by_name) ->
                    count_patches ENVIRONMENT REMOVE k ps = 0%nat).
Proof.
  induction current as [| c rest IH]; intros by_name Hnd.
  - exists [], by_name. simpl. repeat split; auto; intros; reflexivity || lia.
  - cbn [EnvironmentPatch.for_current_environments].
    destruct (dict_get by_name (Environment.name c)) as [e |] eqn:Hget.
    + rewrite (dict_pop_Some _ _ _ Hget).
      destruct (IH (dict_remove by_name (Environment.name c))
                  (dict_remove_NoDup _ _ Hnd))
        as (ps & remaining & Hrun & Hnd' & Hsub & Hgone & Hadd & Hchg & Hrem
            & Hrem0).
      pose proof (environment_patch_matched_counts e c) as Hhead.
      rewrite (emit_bind_Ok _ _ _ _ (environment_patch_matched e c)).
      rewrite environment_patch_matched in Hhead. cbn [emitted fst] in Hhead.
      rewrite emit_bind_lift_Ok, Hrun. cbn [emitted outcome fst snd].
      eexists. exists remaining. split; [reflexivity |].
      split; [exact Hnd' |]. split.
      { intros n e' Hin. eapply dict_remove_In. apply Hsub. exact Hin. }
      split.
      { intros n [<- | Hin] Hn; [| exact (Hgone n Hin Hn)].
        apply (dict_remove_not_In by_name (Environment.name c) Hnd).
        apply in_map_iff in Hn. destruct Hn as ([n' e'] & Hn & Hin').
        simpl in Hn. subst n'. apply in_map_iff.
        exists (Environment.name c, e'). split; [reflexivity |].
        apply Hsub. exact Hin'. }
      split.
      { intros k. rewrite count_patches_app, Hhead, Hadd. reflexivity. }
      split.
      { intros k. rewrite count_patches_app, Hhead, count_occ_name_cons.
        specialize (Hchg k). simpl bool_decide.
        destruct (String.eqb _ _), (Nat.ltb 0 _); simpl; lia. }
      split.
      { intros k. rewrite count_patches_app, Hhead, count_occ_name_cons.
        specialize (Hrem k). simpl. lia. }
      intros k Hndc Hk. rewrite count_patches_app, Hhead.
      cbn [map] in Hndc.
      apply NoDup_cons in Hndc. destruct Hndc as [Hc Hndr].
      rewrite list_elem_of_In in Hc.
      replace (bool_decide (REMOVE = CHANGE)) with false by reflexivity.
      cbn [andb Nat.add].
      destruct (String.eqb_spec (Environment.name c) k) as [<- | Hne].
      * specialize (Hrem (Environment.name c)).
        rewrite (count_occ_not_In String.string_dec) in Hc.
        rewrite Hc in Hrem. lia.
      * apply Hrem0; [exact Hndr |].
        apply dict_remove_keys_ne; assumption.
    + destruct (IH by_name Hnd)
        as (ps & remaining & Hrun & Hnd' & Hsub & Hgone & Hadd & Hchg & Hrem
            & Hrem0).
      assert (Hfresh : ~ In (Environment.name c) (dict_keys by_name))
        by (apply dict_get_None; exact Hget).
      set (head := if EnvironmentPatch.keeps_github_pages parent context c
                   then emit_ret tt
                   else EnvironmentPatch.generate_live_patch None (Some c)
                          (Some (MRepository parent)) context).
      assert (Hhead : head = (emitted head, Ok tt))
        by (subst head; destruct (EnvironmentPatch.keeps_github_pages _ _ _);
            reflexivity).
      assert (Hcount : forall ty k,
                (count_patches ENVIRONMENT ty k (emitted head)
                 <= if bool_decide (ty = REMOVE)
                       && String.eqb (Environment.name c) k
                    then 1 else 0)%nat).
      { intros ty k. subst head.
        destruct (EnvironmentPatch.keeps_github_pages _ _ _).
        - unfold count_patches, emit_ret. simpl. lia.
        - rewrite environment_patch_removed_counts. lia. }
      rewrite (emit_bind_Ok _ _ _ _ Hhead), Hrun.
      cbn [emitted outcome fst snd].
      eexists. exists remaining. split; [reflexivity |].
      split; [exact Hnd' |]. split; [exact Hsub |]. split.
      { intros n [<- | Hin] Hn; [| exact (Hgone n Hin Hn)].
        apply Hfresh. apply in_map_iff in Hn.
        destruct Hn as ([n' e'] & Hn & Hin'). simpl in Hn. subst n'.
        apply in_map_iff. exists (Environment.name c, e').
        split; [reflexivity | apply Hsub; exact Hin']. }
      split.
      { intros k. rewrite count_patches_app, Hadd. specialize (Hcount ADD k).
        simpl in Hcount. lia. }
      split.
      { intros k. rewrite count_patches_app. specialize (Hcount CHANGE k).
        specialize (Hchg k). rewrite count_occ_name_cons.
        simpl in Hcount. lia. }
      split.
      { intros k. rewrite count_patches_app, count_occ_name_cons.
        specialize (Hcount REMOVE k). specialize (Hrem k).
        simpl in Hcount. lia. }
      intros k Hndc Hk. rewrite count_patches_app.
      cbn [map] in Hndc.
      apply NoDup_cons in Hndc. destruct Hndc as [_ Hndr].
      rewrite (Hrem0 k Hndr Hk). specialize (Hcount REMOVE k).
      simpl in Hcount.
      destruct (String.eqb_spec (Environment.name c) k) as [Heq | Hne];
        [rewrite Heq in Hfresh; contradiction | lia].
Qed.
End EnvironmentList.

Section EnvironmentListFacts.
Variable parent : Repository.t.
Variable context : LivePatchContext.

Lemma for_remaining_environments_spec (remaining : dict Environment.t)
    (parent_object : option Model) :
  EnvironmentPatch.for_remaining_environments remaining parent_object context
  = (map (fun ne => LivePatch.of_addition (MEnvironment (snd ne)) parent_object)
       remaining, Ok tt).
Proof.
  induction remaining as [| [n e] rest IH]; [reflexivity |].
  cbn [EnvironmentPatch.for_remaining_environments].
  rewrite (emit_bind_Ok _ _
             [LivePatch.of_addition (MEnvironment e) parent_object] tt)
    by reflexivity.
  rewrite IH. reflexivity.
Qed.

Lemma count_environment_additions (remaining : dict Environment.t)
    (parent_object : option Model) ty k :
  (ty <> ADD \/ forall n e, In (n, e) remaining -> Environment.name e <> k) ->
  count_patches ENVIRONMENT ty k
    (map (fun ne => LivePatch.of_addition (MEnvironment (snd ne)) parent_object)
       remaining) = 0%nat.
Proof.
  intros Hcase. induction remaining as [| [n e] rest IH]; [reflexivity |].
  unfold count_patches in *. simpl.
  assert (Hno : patch_is ENVIRONMENT ty k
                  (LivePatch.of_addition (MEnvironment e) parent_object)
                = false).
  { unfold patch_is. simpl. destruct Hcase as [Hty | Hname].
    - destruct ty; try reflexivity. contradiction.
    - destruct ty; try reflexivity. simpl.
      destruct (String.eqb_spec (Environment.name e) k) as [Heq | Hne];
        [| reflexivity].
      exfalso. apply (Hname n e); [left; reflexivity | exact Heq]. }
  rewrite Hno. apply IH.
  destruct Hcase as [Hty | Hname]; [left; exact Hty | right].
  intros n' e' Hin. apply (Hname n' e'). right. exact Hin.
Qed.

Lemma keeps_github_pages_spec (c : Environment.t) :
  EnvironmentPatch.keeps_github_pages parent context c = true
  <-> Environment.name c = "github-pages"
      /\ (lower (Repository.name parent)
          = lower (org_id context +:+ ".github.io")
          \/ Repository.gh_pages_build_type parent <> VStr "disabled").
Proof.
  unfold EnvironmentPatch.keeps_github_pages,
    EnvironmentPatch.is_site_repository.
  destruct (String.eqb_spec (lower (Repository.name parent))
              (lower (org_id context +:+ ".github.io"))) as [Hsite | Hsite];
    destruct (String.eqb_spec (Environment.name c) "github-pages")
      as [Hname | Hname];
    destruct (py_ne (Repository.gh_pages_build_type parent) (VStr "disabled"))
      eqn:Hbt; simpl;
    try (apply py_ne_str in Hbt);
    try (apply not_true_iff_false in Hbt; rewrite py_ne_str in Hbt);
    split; intros H; try discriminate; tauto.
Qed.

(** An unmatched current environment is removed exactly when it is not a
    ["github-pages"] environment that is kept. *)
Lemma for_current_environments_deletion current :
  forall (by_name : dict Environment.t) (c : Environment.t),
    dict_get by_name (Environment.name c) = None ->
    In (LivePatch.of_deletion (MEnvironment c) (Some (MRepository parent)))
      (emitted (EnvironmentPatch.for_current_environments current by_name
                  parent context))
    <-> In c current
        /\ EnvironmentPatch.keeps_github_pages parent context c = false.
Proof.
  induction current as [| c0 rest IH]; intros by_name c Hnone.
  - simpl. tauto.
  - cbn [EnvironmentPatch.for_current_environments].
    destruct (dict_get by_name (Environment.name c0)) as [e |] eqn:Hget.
    + rewrite (dict_pop_Some _ _ _ Hget).
      rewrite (emit_bind_Ok _ _ _ _ (environment_patch_matched parent context
                                       e c0)).
      rewrite emit_bind_lift_Ok. cbn [emitted fst].
      rewrite in_app_iff, IH.
      * assert (Hc : c0 <> c) by (intros ->; congruence).
        split.
        -- intros [Hin | [Hin Hk]]; [| split; [right |]; assumption].
           destruct (Nat.ltb 0 _); simpl in Hin; [| contradiction].
           destruct Hin as [Hin | []]. discriminate Hin.
        -- intros [[Heq | Hin] Hk]; [contradiction | right; split; assumption].
      * destruct (String.eqb_spec (Environment.name c0) (Environment.name c))
          as [Heq | Hne]; [congruence |].
        rewrite dict_get_remove_ne by exact Hne. exact Hnone.
    + set (head := if EnvironmentPatch.keeps_github_pages parent context c0
                   then emit_ret tt
                   else EnvironmentPatch.generate_live_patch None (Some c0)
                          (Some (MRepository parent)) context).
      assert (Hhead : head
                = (if EnvironmentPatch.keeps_github_pages parent context c0
                   then []
                   else [LivePatch.of_deletion (MEnvironment c0)
                           (Some (MRepository parent))], Ok tt))
        by (subst head; destruct (EnvironmentPatch.keeps_github_pages _ _ _);
            reflexivity).
      rewrite (emit_bind_Ok _ _ _ _ Hhead). cbn [emitted fst].
      rewrite in_app_iff, (IH by_name c Hnone).
      split.
      * intros [Hin | [Hin Hk]]; [| split; [right |]; assumption].
        destruct (EnvironmentPatch.keeps_github_pages parent context c0)
          eqn:Hk0; simpl in Hin; [contradiction |].
        destruct Hin as [Hin | []]. injection Hin as ->.
        split; [left; reflexivity | exact Hk0].
      * intros [[-> | Hin] Hk]; [| right; split; assumption].
        left. rewrite Hk. left. reflexivity.
Qed.
End EnvironmentListFacts.

(** C3.  In the reconciliation of the environments of a repository, a
    current environment whose name no expected environment has is not
    proposed for removal when it is named ["github-pages"] and the parent
    repository is named ["<org>.github.io"] (compared in lower case) or
    has a [gh_pages_build_type] other than ["disabled"]; in every other
    case its [REMOVE] patch is emitted.  (The names of the expected
    environments are pairwise distinct.) *)
Theorem environment_github_pages_removal
    (expected current : list Environment.t) (parent : Repository.t)
    (context : LivePatchContext) (c : Environment.t) :
  NoDup (map Environment.name expected) ->
  In c current ->
  ~ In (Environment.name c) (map Environment.name expected) ->
  let reconciliation :=
    EnvironmentPatch.generate_live_patch_of_list expected current
      (Some (MRepository parent)) context in
  outcome reconciliation = Ok tt
  /\ (In (LivePatch.of_deletion (MEnvironment c) (Some (MRepository parent)))
        (emitted reconciliation)
      <-> ~ (Environment.name c = "github-pages"
             /\ (lower (Repository.name parent)
                 = lower (org_id context +:+ ".github.io")
                 \/ Repository.gh_pages_build_type parent <> VStr "disabled"))).
Proof.
  intros Hnd Hc Hunmatched reconciliation. subst reconciliation.
  unfold EnvironmentPatch.generate_live_patch_of_list.
  rewrite associate_by_key_spec by exact Hnd. rewrite emit_bind_lift_Ok.
  cbn [app].
  set (by_name := map (fun item => (Environment.name item, item)) expected).
  assert (Hkeys : dict_keys by_name = map Environment.name expected)
    by apply associate_by_key_keys.
  assert (Hndk : NoDup (dict_keys by_name)) by (rewrite Hkeys; exact Hnd).
  assert (Hnone : dict_get by_name (Environment.name c) = None)
    by (apply dict_get_None; rewrite Hkeys; exact Hunmatched).
  pose proof (for_current_environments_deletion parent context current
                by_name c Hnone) as Hdel.
  destruct (for_current_environments_spec parent context current by_name Hndk)
    as (ps & remaining & Hrun & _).
  rewrite Hrun in Hdel. cbn [emitted fst] in Hdel.
  rewrite (emit_bind_Ok _ _ _ _ Hrun), for_remaining_environments_spec.
  cbn [emitted outcome fst snd]. split; [reflexivity |].
  rewrite in_app_iff, Hdel, <- keeps_github_pages_spec.
  split.
  - intros [[_ Hk] | Hin]; [congruence |].
    apply in_map_iff in Hin. destruct Hin as (ne & Hne & _). discriminate Hne.
  - intros Hk. left. split; [exact Hc |].
    destruct (EnvironmentPatch.keeps_github_pages parent context c);
      [contradiction | reflexivity].
Qed.

Lemma environment_github_pages_removal_witness :
  let parent := Repository.named "acme.github.io" in
  let c := sample_environment "staging" in
  let reconciliation :=
    EnvironmentPatch.generate_live_patch_of_list []
      [sample_environment "github-pages"; c]
      (Some (MRepository parent)) sample_context in
  outcome reconciliation = Ok tt
  /\ (In (LivePatch.of_deletion (MEnvironment c) (Some (MRepository parent)))
        (emitted reconciliation)
      <-> ~ (Environment.name c = "github-pages"
             /\ (lower (Repository.name parent)
                 = lower (org_id sample_context +:+ ".github.io")
                 \/ Repository.gh_pages_build_type parent
                    <> VStr "disabled"))).
Proof.
  apply (environment_github_pages_removal []
           [sample_environment "github-pages"; sample_environment "staging"]
           (Repository.named "acme.github.io") sample_context
           (sample_environment "staging")).
  - constructor.
  - simpl. tauto.
  - simpl. tauto.
Defined.

(** The run of the witness above, in full: the ["github-pages"]
    environment of the site repository stays, the other one goes. *)
Example environment_github_pages_removal_run :
  emitted
    (EnvironmentPatch.generate_live_patch_of_list []
       [sample_environment "github-pages"; sample_environment "staging"]
       (Some (MRepository (Repository.named "acme.github.io")))
       sample_context)
  = [LivePatch.of_deletion (MEnvironment (sample_environment "staging"))
       (Some (MRepository (Repository.named "acme.github.io")))].
Proof. vm_compute. reflexivity. Qed.

(** ** Key conservation in the reconciliation of environments *)

Lemma environment_list_key_conservation
    (expected current : list Environment.t) (parent : Repository.t)
    (context : LivePatchContext) (k : string) :
  NoDup (map Environment.name expected) ->
  NoDup (map Environment.name current) ->
  In k (map Environment.name expected) ->
  In k (map Environment.name current) ->
  let reconciliation :=
    EnvironmentPatch.generate_live_patch_of_list expected current
      (Some (MRepository parent)) context in
  outcome reconciliation = Ok tt
  /\ count_patches ENVIRONMENT ADD k (emitted reconciliation) = 0%nat
  /\ count_patches ENVIRONMENT REMOVE k (emitted reconciliation) = 0%nat
  /\ (count_patches ENVIRONMENT CHANGE k (emitted reconciliation) <= 1)%nat.
Proof.
  intros Hnde Hndc Hke Hkc reconciliation. subst reconciliation.
  unfold EnvironmentPatch.generate_live_patch_of_list.
  rewrite associate_by_key_spec by exact Hnde. rewrite emit_bind_lift_Ok.
  cbn [app].
  set (by_name := map (fun item => (Environment.name item, item)) expected).
  assert (Hkeys : dict_keys by_name = map Environment.name expected)
    by apply associate_by_key_keys.
  assert (Hndk : NoDup (dict_keys by_name)) by (rewrite Hkeys; exact Hnde).
  destruct (for_current_environments_spec parent context current by_name Hndk)
    as (ps & remaining & Hrun & _ & Hsub & Hgone & Hadd & Hchg & _ & Hrem0).
  rewrite (emit_bind_Ok _ _ _ _ Hrun), for_remaining_environments_spec.
  cbn [emitted outcome fst snd]. split; [reflexivity |].
  rewrite !count_patches_app.
  rewrite (count_environment_additions remaining _ REMOVE k)
    by (left; discriminate).
  rewrite (count_environment_additions remaining _ CHANGE k)
    by (left; discriminate).
  rewrite (count_environment_additions remaining _ ADD k).
  - rewrite Hadd, Hrem0 by (rewrite ?Hkeys; assumption).
    specialize (Hchg k).
    pose proof (count_occ_names_le_1 _ k Hndc). repeat split; lia.
  - right. intros n e Hin Hname.
    apply (Hgone k Hkc).
    assert (Hn : n = Environment.name e).
    { apply Hsub in Hin. subst by_name. apply in_map_iff in Hin.
      destruct Hin as (item & [= <- <-] & _). reflexivity. }
    apply in_map_iff. exists (n, e). split; [simpl; congruence | exact Hin].
Qed.

(** ** The addition of a repository *)

Lemma nested_for_remaining_spec (remaining : dict Nested.t)
    (parent_object : option Model) :
  NestedPatch.for_remaining remaining parent_object
  = (map (fun ke => LivePatch.of_addition (MNested (snd ke)) parent_object)
       remaining, Ok tt).
Proof.
  induction remaining as [| [n e] rest IH]; [reflexivity |].
  cbn [NestedPatch.for_remaining].
  rewrite (emit_bind_Ok _ _
             [LivePatch.of_addition (MNested e) parent_object] tt)
    by reflexivity.
  rewrite IH. reflexivity.
Qed.

(** Against an empty current list every expected entity is added, in the
    order of the expected list. *)
Lemma nested_list_additions (expected : list Nested.t)
    (parent_object : option Model) :
  NoDup (map Nested.key expected) ->
  NestedPatch.generate_live_patch_of_list expected [] parent_object
  = (map (fun e => LivePatch.of_addition (MNested e) parent_object) expected,
     Ok tt).
Proof.
  intros Hnd. unfold NestedPatch.generate_live_patch_of_list.
  rewrite associate_by_key_spec by exact Hnd. rewrite emit_bind_lift_Ok.
  cbn [app NestedPatch.for_current].
  rewrite emit_bind_ret, nested_for_remaining_spec.
  cbn [emitted outcome fst snd app]. rewrite map_map. reflexivity.
Qed.

Lemma environment_list_additions (expected : list Environment.t)
    (parent : Repository.t) (context : LivePatchContext) :
  NoDup (map Environment.name expected) ->
  EnvironmentPatch.generate_live_patch_of_list expected []
    (Some (MRepository parent)) context
  = (map (fun e => LivePatch.of_addition (MEnvironment e)
                     (Some (MRepository parent))) expected,
     Ok tt).
Proof.
  intros Hnd. unfold EnvironmentPatch.generate_live_patch_of_list.
  rewrite associate_by_key_spec by exact Hnd. rewrite emit_bind_lift_Ok.
  cbn [app EnvironmentPatch.for_current_environments].
  rewrite emit_bind_ret, for_remaining_environments_spec.
  cbn [emitted outcome fst snd app]. rewrite map_map. reflexivity.
Qed.

(** C1, as the code has it.  For a repository without a current
    counterpart the [ADD] patch of the repository is emitted first, and the
    reconciliation then still goes through its webhooks, secrets,
    environments and, when [archived] is [False], branch protection rules,
    each against an empty current list: every such child gets an [ADD]
    patch of its own, with the new repository as its parent.  Only the
    nested workflow settings are left out.  (The keys within each list of
    children are pairwise distinct.) *)
Theorem repository_addition_adds_children
    (expected : Repository.t) (parent_object : option Model)
    (context : LivePatchContext) :
  NoDup (map Nested.key (Repository.webhooks expected)) ->
  NoDup (map Nested.key (Repository.secrets expected)) ->
  NoDup (map Environment.name (Repository.environments expected)) ->
  NoDup (map Nested.key (Repository.branch_protection_rules expected)) ->
  let parent := Some (MRepository expected) in
  RepositoryPatch.generate_live_patch (Some expected) None parent_object
    context
  = (LivePatch.of_addition (MRepository expected) parent_object
     :: map (fun w => LivePatch.of_addition (MNested w) parent)
          (Repository.webhooks expected)
     ++ map (fun s => LivePatch.of_addition (MNested s) parent)
          (Repository.secrets expected)
     ++ map (fun e => LivePatch.of_addition (MEnvironment e) parent)
          (Repository.environments expected)
     ++ (if is_False (Repository.archived expected)
         then map (fun r => LivePatch.of_addition (MNested r) parent)
                (Repository.branch_protection_rules expected)
         else []),
     Ok tt).
Proof.
  intros Hw Hs He Hr parent.
  unfold RepositoryPatch.generate_live_patch,
    RepositoryPatch.generate_nested_patches.
  rewrite (emit_bind_Ok _ _
             [LivePatch.of_addition (MRepository expected) parent_object] tt)
    by reflexivity.
  assert (Hwf : (match Repository.workflows expected, @None Repository.t with
                 | Some expected_workflows, Some current =>
                     NestedPatch.generate_live_patch (Some expected_workflows)
                       (Repository.workflows current)
                       (Some (MRepository expected))
                 | _, _ => emit_ret tt
                 end) = ([], Ok tt))
    by (destruct (Repository.workflows expected); reflexivity).
  rewrite (emit_bind_Ok _ _ _ _ Hwf).
  rewrite (emit_bind_Ok _ _ _ _ (nested_list_additions _ _ Hw)).
  rewrite (emit_bind_Ok _ _ _ _ (nested_list_additions _ _ Hs)).
  rewrite (emit_bind_Ok _ _ _ _ (environment_list_additions _ _ _ He)).
  destruct (is_False (Repository.archived expected)).
  - rewrite (nested_list_additions _ _ Hr). reflexivity.
  - reflexivity.
Qed.

Lemma repository_addition_adds_children_witness :
  let expected :=
    Repository.set_environments
      (Repository.setattr (Repository.named "web") "archived" (VBool false))
      [sample_environment "production"] in
  RepositoryPatch.generate_live_patch (Some expected) None None sample_context
  = ([LivePatch.of_addition (MRepository expected) None;
      LivePatch.of_addition (MEnvironment (sample_environment "production"))
        (Some (MRepository expected))],
     Ok tt).
Proof.
  apply (repository_addition_adds_children
           (Repository.set_environments
              (Repository.setattr (Repository.named "web") "archived"
                 (VBool false))
              [sample_environment "production"])
           None sample_context).
  - constructor.
  - constructor.
  - apply NoDup_singleton.
  - constructor.
Defined.

(** C1, as it is stated, fails: the addition of a repository with one
    environment emits more than the [ADD] patch of the repository. *)
Lemma repository_addition_recurses_into_children :
  let expected :=
    Repository.set_environments
      (Repository.setattr (Repository.named "web") "archived" (VBool false))
      [sample_environment "production"] in
  ~ (emitted (RepositoryPatch.generate_live_patch (Some expected) None None
                sample_context)
     = [LivePatch.of_addition (MRepository expected) None]).
Proof. vm_compute. intros H. discriminate H. Qed.

(** ** Key conservation in the reconciliation of repositories *)

Lemma emit_bind_lift {O A B} (r : result A) (f : A -> Emit O B) :
  emit_bind (emit_lift r) f
  = match r with Ok a => f a | Raise e => ([], Raise e) end.
Proof. destruct r as [a | e]; [apply emit_bind_lift_Ok | reflexivity]. Qed.

Lemma dict_get_remove_Some {V} (d : dict V) k k' v :
  NoDup (dict_keys d) ->
  dict_get (dict_remove d k) k' = Some v -> dict_get d k' = Some v /\ k <> k'.
Proof.
  intros Hnd Hget.
  destruct (String.eqb_spec k k') as [<- | Hne].
  - exfalso. apply dict_get_Some_In in Hget.
    apply (dict_remove_not_In d k Hnd). apply in_map_iff.
    exists (k, v). auto.
  - rewrite dict_get_remove_ne in Hget by exact Hne. auto.
Qed.

Lemma pop_all_names_spec names :
  forall by_all_names remaining,
    NoDup (dict_keys by_all_names) ->
    RepositoryPatch.pop_all_names names by_all_names = Ok remaining ->
    NoDup (dict_keys remaining)
    /\ (forall n e, dict_get remaining n = Some e ->
                    dict_get by_all_names n = Some e /\ ~ In n names).
Proof.
  induction names as [| n0 names IH]; intros A A' Hnd Hpop; simpl in Hpop.
  - injection Hpop as <-. split; [exact Hnd | auto].
  - unfold dict_pop in Hpop. destruct (dict_contains A n0); [| discriminate].
    simpl in Hpop.
    destruct (IH _ _ (dict_remove_NoDup A n0 Hnd) Hpop) as [Hnd' Hget].
    split; [exact Hnd' |]. intros n e Hn.
    destruct (Hget n e Hn) as [Hrem Hnot].
    destruct (dict_get_remove_Some A n0 n e Hnd Hrem) as [HA Hne].
    split; [exact HA |]. simpl. tauto.
Qed.

Lemma associate_keys_spec {T} (item : T) (keys : list string) (acc : dict T) :
  NoDup (dict_keys acc ++ keys) ->
  associate_keys item keys acc = Ok (acc ++ map (fun k => (k, item)) keys).
Proof.
  revert acc. induction keys as [| k rest IH]; intros acc Hnd; simpl.
  - rewrite app_nil_r. reflexivity.
  - assert (Hfresh : ~ In k (dict_keys acc)).
    { intros Hin. apply NoDup_app in Hnd. destruct Hnd as (_ & Hdisj & _).
      apply list_elem_of_In in Hin. apply (Hdisj _ Hin).
      apply list_elem_of_In. left. reflexivity. }
    unfold dict_contains.
    destruct (dict_get acc k) eqn:Hget.
    + exfalso. apply Hfresh. apply dict_get_Some_In in Hget.
      apply in_map_iff. exists (k, t). auto.
    + rewrite dict_set_fresh by exact Hfresh. rewrite IH.
      * rewrite <- app_assoc. reflexivity.
      * rewrite dict_keys_app, <- app_assoc. exact Hnd.
Qed.

Lemma multi_associate_by_key_spec {T} (key_func : T -> list string)
    (input : list T) (acc : dict T) :
  NoDup (dict_keys acc ++ flat_map key_func input) ->
  multi_associate_by_key key_func input acc
  = Ok (acc ++ flat_map (fun item => map (fun k => (k, item)) (key_func item))
                 input).
Proof.
  revert acc. induction input as [| item rest IH]; intros acc Hnd; simpl.
  - rewrite app_nil_r. reflexivity.
  - simpl in Hnd. rewrite associate_keys_spec.
    + rewrite IH.
      * rewrite <- app_assoc. reflexivity.
      * rewrite dict_keys_app. unfold dict_keys at 2. rewrite map_map.
        simpl. rewrite map_id, <- app_assoc. exact Hnd.
    + rewrite app_assoc in Hnd. apply NoDup_app in Hnd. tauto.
Qed.

Lemma flat_map_keys {T} (key_func : T -> list string) (input : list T) :
  dict_keys (flat_map (fun item => map (fun k => (k, item)) (key_func item))
               input)
  = flat_map key_func input.
Proof.
  induction input as [| item rest IH]; [reflexivity |].
  simpl. rewrite dict_keys_app, IH. unfold dict_keys at 1.
  rewrite map_map. simpl. rewrite map_id. reflexivity.
Qed.

Lemma flat_map_names_unique {T} (key_func : T -> list string)
    (input : list T) (a b : T) (n : string) :
  NoDup (flat_map key_func input) ->
  In a input -> In b input -> In n (key_func a) -> In n (key_func b) -> a = b.
Proof.
  induction input as [| item rest IH]; simpl; [tauto |].
  intros Hnd Ha Hb Hna Hnb.
  apply NoDup_app in Hnd. destruct Hnd as (_ & Hdisj & Hrest).
  assert (Hcross : forall x, In x rest -> In n (key_func item) ->
                             In n (key_func x) -> False).
  { intros x Hx Hi Hnx. apply (Hdisj n); [apply list_elem_of_In; exact Hi |].
    apply list_elem_of_In. apply in_flat_map. exists x. auto. }
  destruct Ha as [<- | Ha], Hb as [<- | Hb].
  - reflexivity.
  - exfalso. eapply Hcross; eauto.
  - exfalso. eapply Hcross; eauto.
  - apply IH; assumption.
Qed.

Lemma names_NoDup_of_all_names (expected : list Repository.t) :
  NoDup (flat_map Repository.get_all_names expected) ->
  NoDup (map Repository.name expected).
Proof.
  induction expected as [| e rest IH]; simpl; intros Hnd; [constructor |].
  apply NoDup_cons in Hnd. destruct Hnd as [Hhead Hnd].
  apply NoDup_app in Hnd. destruct Hnd as (_ & _ & Hrest).
  apply NoDup_cons. split; [| apply IH; exact Hrest].
  rewrite list_elem_of_In in *. intros Hin. apply Hhead.
  apply in_or_app. right. apply in_map_iff in Hin.
  destruct Hin as (x & Hx & Hin). apply in_flat_map. exists x.
  split; [exact Hin |]. left. exact Hx.
Qed.

Lemma override_current_name context current :
  Repository.name (RepositoryPatch.override_current context current)
  = Repository.name current.
Proof.
  unfold RepositoryPatch.override_current.
  destruct (modified_org_settings context !! _) as [change |]; [| reflexivity].
  destruct (is_True (to_value change)); reflexivity.
Qed.

Lemma repository_patch_matched_counts e c context ty k :
  (count_patches REPOSITORY ty k
     (emitted (RepositoryPatch.generate_live_patch (Some e) (Some c) None
                 context))
   <= if bool_decide (ty = CHANGE) && String.eqb (Repository.name c) k
      then 1 else 0)%nat.
Proof.
  unfold RepositoryPatch.generate_live_patch. cbv zeta.
  rewrite count_emitted_bind.
  assert (Hnested : forall o : result unit,
            match o with
            | Ok _ =>
                count_patches REPOSITORY ty k
                  (emitted (RepositoryPatch.generate_nested_patches e
                              (Some (RepositoryPatch.override_current context
                                       c)) context))
            | Raise _ => 0%nat
            end = 0%nat).
  { intros [_ | _]; [| reflexivity]. apply count_patches_no_repository.
    apply generate_nested_patches_no_repository. }
  rewrite Hnested, Nat.add_0_r.
  destruct (Nat.ltb 0 _); unfold count_patches; simpl; [| lia].
  unfold patch_is. simpl. rewrite override_current_name.
  destruct ty; simpl; try lia.
  destruct (String.eqb _ _); simpl; lia.
Qed.

Lemma repository_patch_removed_counts c context ty k :
  count_patches REPOSITORY ty k
    (emitted (RepositoryPatch.generate_live_patch None (Some c) None context))
  = if bool_decide (ty = REMOVE) && String.eqb (Repository.name c) k
    then 1%nat else 0%nat.
Proof.
  unfold count_patches, patch_is. simpl.
  destruct ty; simpl; try reflexivity.
  destruct (String.eqb _ _); reflexivity.
Qed.

Lemma repository_patch_added_counts e context ty k :
  count_patches REPOSITORY ty k
    (emitted (RepositoryPatch.generate_live_patch (Some e) None None context))
  = if bool_decide (ty = ADD) && String.eqb (Repository.name e) k
    then 1%nat else 0%nat.
Proof.
  unfold RepositoryPatch.generate_live_patch.
  rewrite count_emitted_bind.
  assert (Hnested : forall o : result unit,
            match o with
            | Ok _ =>
                count_patches REPOSITORY ty k
                  (emitted (RepositoryPatch.generate_nested_patches e None
                              context))
            | Raise _ => 0%nat
            end = 0%nat).
  { intros [_ | _]; [| reflexivity]. apply count_patches_no_repository.
    apply generate_nested_patches_no_repository. }
  rewrite Hnested, Nat.add_0_r.
  unfold count_patches, patch_is. simpl.
  destruct ty; simpl; try reflexivity.
  destruct (String.eqb _ _); reflexivity.
Qed.

Lemma count_occ_repo_name_cons (c : Repository.t) rest k :
  count_occ String.string_dec (map Repository.name (c :: rest)) k
  = ((if String.eqb (Repository.name c) k then 1 else 0)
     + count_occ String.string_dec (map Repository.name rest) k)%nat.
Proof.
  simpl. destruct (String.string_dec (Repository.name c) k) as [-> | Hne].
  - rewrite String.eqb_refl. reflexivity.
  - destruct (String.eqb_spec (Repository.name c) k); [contradiction |].
    reflexivity.
Qed.

Section RepositoryList.
Variable expected_repos : list Repository.t.
Variable context : LivePatchContext.
Hypothesis all_names_distinct :
  NoDup (flat_map Repository.get_all_names expected_repos).

Lemma for_current_repos_spec current :
  forall by_all_names by_name,
    unmatched expected_repos by_all_names by_name ->
    let loop :=
      RepositoryPatch.for_current_repos current by_all_names by_name context in
    (forall k, count_patches REPOSITORY ADD k (emitted loop) = 0%nat)
    /\ (forall k, (count_patches REPOSITORY CHANGE k (emitted loop)
                   <= count_occ String.string_dec
                        (map Repository.name current) k)%nat)
    /\ (forall k, (count_patches REPOSITORY REMOVE k (emitted loop)
                   <= count_occ String.string_dec
                        (map Repository.name current) k)%nat)
    /\ (forall remaining,
          outcome loop = Ok remaining ->
          (forall n e, In (n, e) remaining -> In (n, e) by_name)
          /\ (forall n, In n (map Repository.name current) ->
                        ~ In n (dict_keys remaining))).
Proof.
  induction current as [| c rest IH]; intros A N Hinv loop; subst loop.
  - simpl. repeat split; try (intros; reflexivity || lia).
    intros n e Hin. injection H as <-. exact Hin.
  - destruct Hinv as (HndA & HndN & HN & HA).
    cbn [RepositoryPatch.for_current_repos].
    destruct (dict_get A (Repository.name c)) as [e0 |] eqn:Hget.
    + (* the current repository is matched *)
      set (head := RepositoryPatch.generate_live_patch (Some e0) (Some c) None
                     context).
      pose proof (fun ty k =>
                    repository_patch_matched_counts e0 c context ty k)
        as Hhead. fold head in Hhead.
      set (tail := emit_bind (emit_lift _) _).
      assert (Htail :
        (forall k, count_patches REPOSITORY ADD k (emitted tail) = 0%nat)
        /\ (forall k, (count_patches REPOSITORY CHANGE k (emitted tail)
                       <= count_occ String.string_dec
                            (map Repository.name rest) k)%nat)
        /\ (forall k, (count_patches REPOSITORY REMOVE k (emitted tail)
                       <= count_occ String.string_dec
                            (map Repository.name rest) k)%nat)
        /\ (forall remaining,
              outcome tail = Ok remaining ->
              (forall n e, In (n, e) remaining -> In (n, e) N)
              /\ (forall n, In n (map Repository.name (c :: rest)) ->
                            ~ In n (dict_keys remaining)))).
      { subst tail. rewrite emit_bind_lift.
        destruct (RepositoryPatch.pop_all_names _ A) as [A1 | ex] eqn:HpopA;
          [| repeat split; intros; try (reflexivity || apply Nat.le_0_l);
             discriminate].
        rewrite emit_bind_lift. unfold dict_pop.
        destruct (dict_contains N (Repository.name e0));
          [| repeat split; intros; try (reflexivity || apply Nat.le_0_l);
             discriminate].
        destruct (pop_all_names_spec _ _ _ HndA HpopA) as [HndA1 HA1].
        assert (Hinv1 : unmatched expected_repos A1
                          (dict_remove N (Repository.name e0))).
        { split; [exact HndA1 |]. split; [apply dict_remove_NoDup; exact HndN |].
          split.
          - intros n e Hin.
            pose proof (dict_remove_In _ _ _ _ Hin) as HinN.
            destruct (HN n e HinN) as [Hname HAn].
            split; [exact Hname |].
            destruct (dict_get A1 n) as [e1 |] eqn:HA1n.
            + destruct (HA1 n e1 HA1n) as [HAn' _]. congruence.
            + exfalso.
              (* [n] was popped, so it is a name of [e0], hence [e = e0] *)
              assert (Hn0 : In n (Repository.get_all_names e0)).
              { clear -HpopA HAn HA1n HndA.
                revert A HndA HpopA HAn.
                induction (Repository.get_all_names e0) as [| m names IHn];
                  intros A HndA HpopA HAn; simpl in HpopA.
                - injection HpopA as <-. congruence.
                - unfold dict_pop in HpopA.
                  destruct (dict_contains A m); [| discriminate].
                  simpl in HpopA.
                  destruct (String.eqb_spec m n) as [-> | Hne];
                    [left; reflexivity | right].
                  apply (IHn (dict_remove A m));
                    [apply dict_remove_NoDup; exact HndA | exact HpopA |].
                  rewrite dict_get_remove_ne by exact Hne. exact HAn. }
              destruct (HA _ _ HAn) as [HeE Hne].
              destruct (HA _ _ Hget) as [He0E _].
              assert (e = e0)
                by (eapply flat_map_names_unique; eauto).
              subst e0.
              apply (dict_remove_not_In N (Repository.name e) HndN).
              apply in_map_iff. exists (n, e).
              split; [simpl; congruence | exact Hin].
          - intros n e Hn. destruct (HA1 n e Hn) as [HAn _].
            apply HA. exact HAn. }
        destruct (IH A1 _ Hinv1) as (Hadd & Hchg & Hrem & Hout).
        split; [exact Hadd |]. split; [exact Hchg |]. split; [exact Hrem |].
        intros remaining Hok. destruct (Hout remaining Hok) as [Hsub Hgone].
        split.
        - intros n e Hin. eapply dict_remove_In. apply Hsub. exact Hin.
        - intros n [<- | Hin]; [| apply Hgone; exact Hin].
          intros Hn. apply in_map_iff in Hn.
          destruct Hn as ([n' e'] & Hn & Hin'). simpl in Hn. subst n'.
          destruct Hinv1 as (_ & _ & HN1 & _).
          destruct (HN1 _ _ (Hsub _ _ Hin')) as [_ HA1c].
          destruct (HA1 _ _ HA1c) as [_ Hnot]. apply Hnot.
          apply (HA _ _ Hget). }
      destruct Htail as (Hadd & Hchg & Hrem & Hout).
      assert (Hcount : forall ty k,
                (count_patches REPOSITORY ty k
                   (emitted (emit_bind head (fun _ => tail)))
                 <= (if bool_decide (ty = CHANGE)
                        && String.eqb (Repository.name c) k
                     then 1 else 0)
                    + count_patches REPOSITORY ty k (emitted tail))%nat).
      { intros ty k. rewrite count_emitted_bind. specialize (Hhead ty k).
        destruct (outcome head); lia. }
      split.
      { intros k. specialize (Hcount ADD k). rewrite Hadd in Hcount.
        simpl in Hcount. lia. }
      split.
      { intros k. specialize (Hcount CHANGE k). specialize (Hchg k).
        rewrite count_occ_repo_name_cons. simpl in Hcount. lia. }
      split.
      { intros k. specialize (Hcount REMOVE k). specialize (Hrem k).
        rewrite count_occ_repo_name_cons. simpl in Hcount. lia. }
      intros remaining Hok. rewrite outcome_bind in Hok.
      destruct (outcome head); [| discriminate]. apply Hout. exact Hok.
    + (* the current repository is unmatched *)
      assert (Hinv : unmatched expected_repos A N)
        by exact (conj HndA (conj HndN (conj HN HA))).
      destruct (IH A N Hinv) as (Hadd & Hchg & Hrem & Hout).
      set (head := RepositoryPatch.generate_live_patch None (Some c) None
                     context).
      assert (Hhead : head = (emitted head, Ok tt)) by reflexivity.
      rewrite (emit_bind_Ok _ _ _ _ Hhead). cbn [emitted outcome fst snd].
      pose proof (fun ty k => repository_patch_removed_counts c context ty k)
        as Hcount. fold head in Hcount.
      split.
      { intros k. rewrite count_patches_app, Hcount, Hadd. reflexivity. }
      split.
      { intros k. rewrite count_patches_app, Hcount, count_occ_repo_name_cons.
        specialize (Hchg k). simpl. lia. }
      split.
      { intros k. rewrite count_patches_app, Hcount, count_occ_repo_name_cons.
        specialize (Hrem k). simpl. lia. }
      intros remaining Hok. destruct (Hout remaining Hok) as [Hsub Hgone].
      split; [exact Hsub |].
      intros n [<- | Hin]; [| apply Hgone; exact Hin].
      intros Hn. apply in_map_iff in Hn.
      destruct Hn as ([n' e'] & Hn & Hin'). simpl in Hn. subst n'.
      destruct (HN _ _ (Hsub _ _ Hin')) as [_ HAc]. congruence.
Qed.
End RepositoryList.

Lemma for_remaining_repos_counts (remaining : dict Repository.t) context ty k :
  (ty <> ADD \/ forall n e, In (n, e) remaining -> Repository.name e <> k) ->
  count_patches REPOSITORY ty k
    (emitted (RepositoryPatch.for_remaining_repos remaining context)) = 0%nat.
Proof.
  intros Hcase. induction remaining as [| [n e] rest IH]; [reflexivity |].
  cbn [RepositoryPatch.for_remaining_repos].
  rewrite count_emitted_bind, repository_patch_added_counts.
  assert (Hhead : bool_decide (ty = ADD) && String.eqb (Repository.name e) k
                  = false).
  { destruct Hcase as [Hty | Hname].
    - destruct ty; try reflexivity. contradiction.
    - destruct (String.eqb_spec (Repository.name e) k) as [Heq | Hne];
        [| apply andb_false_r].
      exfalso. apply (Hname n e); [left; reflexivity | exact Heq]. }
  rewrite Hhead.
  assert (Hrest : count_patches REPOSITORY ty k
                    (emitted (RepositoryPatch.for_remaining_repos rest
                                context)) = 0%nat).
  { apply IH. destruct Hcase as [Hty | Hname]; [left; exact Hty | right].
    intros n' e' Hin. apply (Hname n' e'). right. exact Hin. }
  destruct (outcome _); [exact Hrest | reflexivity].
Qed.

Lemma pop_all_names_get_other names :
  forall by_all_names remaining n,
    RepositoryPatch.pop_all_names names by_all_names = Ok remaining ->
    ~ In n names ->
    dict_get remaining n = dict_get by_all_names n.
Proof.
  induction names as [| n0 names IH]; intros A A' n Hpop Hn; simpl in Hpop.
  - injection Hpop as <-. reflexivity.
  - unfold dict_pop in Hpop. destruct (dict_contains A n0); [| discriminate].
    simpl in Hpop, Hn. rewrite (IH _ _ n Hpop) by tauto.
    apply dict_get_remove_ne. tauto.
Qed.

Lemma for_current_repos_remove_bound context current :
  forall by_all_names by_name k,
    (count_patches REPOSITORY REMOVE k
       (emitted (RepositoryPatch.for_current_repos current by_all_names
                   by_name context))
     <= count_occ String.string_dec (map Repository.name current) k)%nat.
Proof.
  induction current as [| c rest IH]; intros A N k;
    [unfold emit_ret, count_patches; simpl; lia |].
  cbn [RepositoryPatch.for_current_repos]. rewrite count_occ_repo_name_cons.
  destruct (dict_get A (Repository.name c)) as [e0 |].
  - rewrite count_emitted_bind.
    pose proof (repository_patch_matched_counts e0 c context REMOVE k) as Hhead.
    simpl in Hhead.
    destruct (outcome _); [| lia].
    rewrite emit_bind_lift.
    destruct (RepositoryPatch.pop_all_names _ A) as [A1 |]; [| unfold count_patches in *; simpl; lia].
    rewrite emit_bind_lift.
    destruct (dict_pop N _) as [N1 |]; [| unfold count_patches in *; simpl; lia].
    specialize (IH A1 N1 k). lia.
  - rewrite count_emitted_bind, repository_patch_removed_counts.
    specialize (IH A N k). simpl.
    destruct (String.eqb _ _); lia.
Qed.

(** A current repository that is the only one to carry a name or an alias
    of its expected counterpart is not removed. *)
Lemma for_current_repos_no_remove expected_repos context current :
  NoDup (flat_map Repository.get_all_names expected_repos) ->
  forall by_all_names by_name k e,
    NoDup (dict_keys by_all_names) ->
    (forall n e', dict_get by_all_names n = Some e' ->
       In e' expected_repos /\ In n (Repository.get_all_names e')) ->
    dict_get by_all_names k = Some e ->
    NoDup (map Repository.name current) ->
    (forall c', In c' current ->
       In (Repository.name c') (Repository.get_all_names e) ->
       Repository.name c' = k) ->
    count_patches REPOSITORY REMOVE k
      (emitted (RepositoryPatch.for_current_repos current by_all_names by_name
                  context)) = 0%nat.
Proof.
  intros Huniq.
  induction current as [| c rest IH]; intros A N k e HndA HA Hk Hndc Honly;
    [reflexivity |].
  cbn [RepositoryPatch.for_current_repos]. cbn [map] in Hndc.
  apply NoDup_cons in Hndc. destruct Hndc as [Hc Hndr].
  rewrite list_elem_of_In in Hc.
  destruct (dict_get A (Repository.name c)) as [e0 |] eqn:Hget.
  - rewrite count_emitted_bind.
    pose proof (repository_patch_matched_counts e0 c context REMOVE k) as Hhead.
    simpl in Hhead.
    destruct (outcome _); [| lia].
    rewrite emit_bind_lift.
    destruct (RepositoryPatch.pop_all_names _ A) as [A1 |] eqn:Hpop;
      [| unfold count_patches in *; simpl; lia].
    rewrite emit_bind_lift.
    destruct (dict_pop N _) as [N1 |]; [| unfold count_patches in *; simpl; lia].
    assert (Htail : count_patches REPOSITORY REMOVE k
                      (emitted (RepositoryPatch.for_current_repos rest A1 N1
                                  context)) = 0%nat); [| lia].
    destruct (String.eqb_spec (Repository.name c) k) as [Heq | Hne].
    + pose proof (for_current_repos_remove_bound context rest A1 N1 k) as Hb.
      rewrite <- Heq in Hb at 2.
      rewrite (proj1 (count_occ_not_In String.string_dec _ _) Hc) in Hb. lia.
    + destruct (pop_all_names_spec _ _ _ HndA Hpop) as [HndA1 HA1].
      destruct (HA _ _ Hget) as [He0 Hc0]. destruct (HA _ _ Hk) as [He Hke].
      assert (Hnot : ~ In k (Repository.get_all_names e0)).
      { intros Hin.
        assert (e0 = e) by (eapply flat_map_names_unique; eauto). subst e0.
        apply Hne. apply Honly; [left; reflexivity | exact Hc0]. }
      apply (IH A1 N1 k e); auto.
      * intros n e' Hn. apply HA. apply (HA1 n e' Hn).
      * rewrite (pop_all_names_get_other _ _ _ k Hpop Hnot). exact Hk.
      * intros c' Hin. apply Honly. right. exact Hin.
  - rewrite count_emitted_bind, repository_patch_removed_counts.
    assert (Hne : Repository.name c <> k) by congruence.
    destruct (String.eqb_spec (Repository.name c) k); [contradiction |].
    simpl.
    assert (Htail : count_patches REPOSITORY REMOVE k
                      (emitted (RepositoryPatch.for_current_repos rest A N
                                  context)) = 0%nat).
    { apply (IH A N k e); auto. intros c' Hin. apply Honly. right. exact Hin. }
    exact Htail.
Qed.

Lemma repository_list_key_conservation
    (expected current : list Repository.t) (context : LivePatchContext)
    (k : string) :
  NoDup (flat_map Repository.get_all_names expected) ->
  NoDup (map Repository.name current) ->
  let ps :=
    emitted (RepositoryPatch.generate_live_patch_of_list expected current
               context) in
  (count_patches REPOSITORY CHANGE k ps <= 1)%nat
  /\ (In k (map Repository.name current) ->
      count_patches REPOSITORY ADD k ps = 0%nat)
  /\ ~ (0 < count_patches REPOSITORY ADD k ps
        /\ 0 < count_patches REPOSITORY REMOVE k ps)%nat
  /\ (forall e,
        In e expected -> In k (Repository.get_all_names e) ->
        (forall c', In c' current ->
           In (Repository.name c') (Repository.get_all_names e) ->
           Repository.name c' = k) ->
        count_patches REPOSITORY REMOVE k ps = 0%nat).
Proof.
  intros Hnda Hndc ps. subst ps.
  unfold RepositoryPatch.generate_live_patch_of_list.
  rewrite multi_associate_by_key_spec by exact Hnda.
  rewrite emit_bind_lift_Ok.
  rewrite associate_by_key_spec
    by (apply names_NoDup_of_all_names; exact Hnda).
  rewrite emit_bind_lift_Ok. cbn [app].
  set (A := flat_map _ expected).
  set (N := map _ expected).
  assert (HkA : dict_keys A = flat_map Repository.get_all_names expected)
    by apply flat_map_keys.
  assert (HkN : dict_keys N = map Repository.name expected)
    by apply associate_by_key_keys.
  assert (HndA : NoDup (dict_keys A)) by (rewrite HkA; exact Hnda).
  assert (Hinv : unmatched expected A N).
  { split; [exact HndA |]. split.
    { rewrite HkN. apply names_NoDup_of_all_names. exact Hnda. }
    split.
    - intros n e Hin. subst N. apply in_map_iff in Hin.
      destruct Hin as (e' & [= <- <-] & He'). split; [reflexivity |].
      apply dict_In_get; [exact HndA |]. subst A. apply in_flat_map.
      exists e'. split; [exact He' | left; reflexivity].
    - intros n e Hget. apply dict_get_Some_In in Hget. subst A.
      apply in_flat_map in Hget. destruct Hget as (e' & He' & Hin).
      apply in_map_iff in Hin. destruct Hin as (n' & [= <- <-] & Hn).
      split; assumption. }
  destruct (for_current_repos_spec expected context Hnda current A N Hinv)
    as (Hadd & Hchg & Hrem & Hout).
  set (loop := RepositoryPatch.for_current_repos current A N context) in *.
  assert (Hps : forall ty,
            count_patches REPOSITORY ty k
              (emitted (emit_bind loop
                          (fun remaining =>
                             RepositoryPatch.for_remaining_repos remaining
                               context)))
            = (count_patches REPOSITORY ty k (emitted loop)
               + match outcome loop with
                 | Ok remaining =>
                     count_patches REPOSITORY ty k
                       (emitted (RepositoryPatch.for_remaining_repos remaining
                                   context))
                 | Raise _ => 0
                 end)%nat)
    by (intros ty; apply count_emitted_bind).
  assert (Hchange : (count_patches REPOSITORY CHANGE k
                       (emitted (emit_bind loop
                          (fun remaining =>
                             RepositoryPatch.for_remaining_repos remaining
                               context))) <= 1)%nat).
  { rewrite Hps. specialize (Hchg k).
    pose proof (count_occ_names_le_1 _ k Hndc) as Hle.
    destruct (outcome loop) as [remaining |]; [| lia].
    rewrite for_remaining_repos_counts by (left; discriminate). lia. }
  assert (Hnoadd : In k (map Repository.name current) ->
            count_patches REPOSITORY ADD k
              (emitted (emit_bind loop
                          (fun remaining =>
                             RepositoryPatch.for_remaining_repos remaining
                               context))) = 0%nat).
  { intros Hk. rewrite Hps, Hadd.
    destruct (outcome loop) as [remaining |] eqn:Hok; [| reflexivity].
    destruct (Hout remaining eq_refl) as [Hsub Hgone].
    rewrite for_remaining_repos_counts; [reflexivity |].
    right. intros n e Hin Hname. apply (Hgone k Hk).
    destruct Hinv as (_ & _ & HN & _).
    destruct (HN n e (Hsub n e Hin)) as [Hn _].
    apply in_map_iff. exists (n, e). split; [simpl; congruence | exact Hin]. }
  split; [exact Hchange |]. split; [exact Hnoadd |]. split.
  - intros [Hpos_add Hpos_rem].
    assert (Hk : In k (map Repository.name current)).
    { apply (count_occ_In String.string_dec).
      rewrite Hps in Hpos_rem. specialize (Hrem k).
      destruct (outcome loop) as [remaining |]; [| lia].
      rewrite for_remaining_repos_counts in Hpos_rem by (left; discriminate).
      lia. }
    rewrite (Hnoadd Hk) in Hpos_add. lia.
  - intros e He Hke Honly. rewrite Hps.
    destruct Hinv as (_ & _ & _ & HA).
    assert (HAk : dict_get A k = Some e).
    { apply dict_In_get; [exact HndA |]. subst A. apply in_flat_map.
      exists e. split; [exact He |]. apply in_map_iff. exists k. auto. }
    subst loop.
    rewrite (for_current_repos_no_remove expected context current Hnda A N k e
               HndA HA HAk Hndc Honly).
    destruct (outcome _) as [remaining |]; [| reflexivity].
    rewrite for_remaining_repos_counts by (left; discriminate). reflexivity.
Qed.

(** C6.  In one pass over a list of environments, a key that is both in
    the expected and in the current list gets at most one [CHANGE] (one or
    a no-op) and neither an [ADD] nor a [REMOVE].  In one pass over a list
    of repositories, which are matched by name or alias, a key gets at most
    one [CHANGE], a key of the current list gets no [ADD], no key gets
    both an [ADD] and a [REMOVE], and a key of an expected repository gets
    no [REMOVE] as long as no other current repository goes by a name or an
    alias of that expected repository.  (Keys are pairwise distinct within
    each list; for the expected repositories so are all names and
    aliases.) *)
Theorem list_reconciliation_key_conservation :
  (forall (expected current : list Environment.t) (parent : Repository.t)
          (context : LivePatchContext) (k : string),
     NoDup (map Environment.name expected) ->
     NoDup (map Environment.name current) ->
     In k (map Environment.name expected) ->
     In k (map Environment.name current) ->
     let reconciliation :=
       EnvironmentPatch.generate_live_patch_of_list expected current
         (Some (MRepository parent)) context in
     outcome reconciliation = Ok tt
     /\ count_patches ENVIRONMENT ADD k (emitted reconciliation) = 0%nat
     /\ count_patches ENVIRONMENT REMOVE k (emitted reconciliation) = 0%nat
     /\ (count_patches ENVIRONMENT CHANGE k (emitted reconciliation) <= 1)%nat)
  /\ (forall (expected current : list Repository.t)
             (context : LivePatchContext) (k : string),
        NoDup (flat_map Repository.get_all_names expected) ->
        NoDup (map Repository.name current) ->
        let ps :=
          emitted (RepositoryPatch.generate_live_patch_of_list expected
                     current context) in
        (count_patches REPOSITORY CHANGE k ps <= 1)%nat
        /\ (In k (map Repository.name current) ->
            count_patches REPOSITORY ADD k ps = 0%nat)
        /\ ~ (0 < count_patches REPOSITORY ADD k ps
              /\ 0 < count_patches REPOSITORY REMOVE k ps)%nat
        /\ (forall e,
              In e expected -> In k (Repository.get_all_names e) ->
              (forall c', In c' current ->
                 In (Repository.name c') (Repository.get_all_names e) ->
                 Repository.name c' = k) ->
              count_patches REPOSITORY REMOVE k ps = 0%nat)).
Proof.
  split.
  - exact environment_list_key_conservation.
  - exact repository_list_key_conservation.
Qed.

Lemma list_reconciliation_key_conservation_witness :
  (let reconciliation :=
     EnvironmentPatch.generate_live_patch_of_list
       [sample_environment "production"] [sample_environment "production"]
       (Some (MRepository (Repository.named "web"))) sample_context in
   outcome reconciliation = Ok tt
   /\ count_patches ENVIRONMENT ADD "production" (emitted reconciliation)
      = 0%nat
   /\ count_patches ENVIRONMENT REMOVE "production" (emitted reconciliation)
      = 0%nat
   /\ (count_patches ENVIRONMENT CHANGE "production" (emitted reconciliation)
       <= 1)%nat)
  /\ (let ps :=
        emitted (RepositoryPatch.generate_live_patch_of_list
                   [Repository.named "web"]
                   [Repository.setattr (Repository.named "web") "has_wiki"
                      (VBool true)]
                   sample_context) in
      (count_patches REPOSITORY CHANGE "web" ps <= 1)%nat
      /\ count_patches REPOSITORY ADD "web" ps = 0%nat
      /\ count_patches REPOSITORY REMOVE "web" ps = 0%nat).
Proof.
  destruct list_reconciliation_key_conservation as [Henv Hrepo].
  split.
  - apply (Henv [sample_environment "production"]
             [sample_environment "production"] (Repository.named "web")
             sample_context "production").
    + apply NoDup_singleton.
    + apply NoDup_singleton.
    + left. reflexivity.
    + left. reflexivity.
  - assert (Hnda : NoDup (flat_map Repository.get_all_names
                            [Repository.named "web"]))
      by apply NoDup_singleton.
    assert (Hndc : NoDup (map Repository.name
                            [Repository.setattr (Repository.named "web")
                               "has_wiki" (VBool true)]))
      by apply NoDup_singleton.
    destruct (Hrepo [Repository.named "web"]
                [Repository.setattr (Repository.named "web") "has_wiki"
                   (VBool true)]
                sample_context "web" Hnda Hndc)
      as (Hchange & Hadd & _ & Hremove).
    split; [exact Hchange |]. split.
    + apply Hadd. left. reflexivity.
    + apply (Hremove (Repository.named "web")).
      * left. reflexivity.
      * left. reflexivity.
      * intros c' [<- | []] _. reflexivity.
Defined.

(** Matching by alias can take the expected repository away from the
    current repository of the same name: here ["old"] is an alias of the
    expected repository ["new"], both exist, and ["old"] comes first.  The
    expected repository is matched with ["old"], which is changed, and the
    current ["new"] is removed; nothing is added. *)
Example repository_alias_takes_the_match :
  let expected :=
    Repository.mk UNSET UNSET "new" UNSET UNSET UNSET UNSET UNSET UNSET UNSET
      UNSET UNSET UNSET UNSET UNSET UNSET UNSET UNSET UNSET UNSET UNSET UNSET
      UNSET UNSET UNSET UNSET UNSET UNSET UNSET UNSET UNSET UNSET UNSET UNSET
      None ["old"] UNSET UNSET [] [] [] [] in
  map (fun p => (LivePatch.patch_type p, model_key <$> patch_subject p))
    (emitted (RepositoryPatch.generate_live_patch_of_list [expected]
                [Repository.named "old"; Repository.named "new"]
                sample_context))
  = [(CHANGE, Some "old"); (REMOVE, Some "new")].
Proof. vm_compute. reflexivity. Qed.

(** C6, as it is stated, fails for repositories: ["new"] is a key of the
    expected and of the current list, both lists have pairwise distinct
    keys, and yet the pass removes ["new"] and changes nothing under that
    key, because the expected repository was matched by its alias with the
    current repository ["old"]. *)
Lemma repository_key_in_both_lists_removed :
  let expected :=
    [Repository.mk UNSET UNSET "new" UNSET UNSET UNSET UNSET UNSET UNSET UNSET
       UNSET UNSET UNSET UNSET UNSET UNSET UNSET UNSET UNSET UNSET UNSET UNSET
       UNSET UNSET UNSET UNSET UNSET UNSET UNSET UNSET UNSET UNSET UNSET UNSET
       None ["old"] UNSET UNSET [] [] [] []] in
  let current := [Repository.named "old"; Repository.named "new"] in
  let reconciliation :=
    RepositoryPatch.generate_live_patch_of_list expected current
      sample_context in
  NoDup (map Repository.name expected)
  /\ NoDup (map Repository.name current)
  /\ In "new" (map Repository.name expected)
  /\ In "new" (map Repository.name current)
  /\ outcome reconciliation = Ok tt
  /\ count_patches REPOSITORY REMOVE "new" (emitted reconciliation) = 1%nat
  /\ count_patches REPOSITORY CHANGE "new" (emitted reconciliation) = 0%nat.
Proof.
  cbv zeta. split; [| split; [| split; [| split]]].
  - apply (bool_decide_unpack _). vm_compute. exact I.
  - apply (bool_decide_unpack _). vm_compute. exact I.
  - left. reflexivity.
  - right. left. reflexivity.
  - vm_compute. repeat split.
Qed.

(** ** Unset fields in the mapping of a repository *)

Lemma dict_get_remove_None {V} (d : dict V) k f :
  dict_get d f = None -> dict_get (dict_remove d k) f = None.
Proof.
  induction d as [| [k0 v0] d IH]; simpl; [auto |].
  destruct (String.eqb k0 f) eqn:Hf; [discriminate |]. intros Hnone.
  destruct (String.eqb k0 k); [exact Hnone |].
  simpl. rewrite Hf. apply IH. exact Hnone.
Qed.

Lemma dict_pop_None {V} (d d' : dict V) k f :
  dict_pop d k = Ok d' -> dict_get d f = None -> dict_get d' f = None.
Proof.
  unfold dict_pop. destruct (dict_contains d k); [| discriminate].
  intros [= <-]. apply dict_get_remove_None.
Qed.

Lemma pop_security_properties_None props :
  forall mapping mapping' f,
    Repository.pop_security_properties props mapping = Ok mapping' ->
    dict_get mapping f = None -> dict_get mapping' f = None.
Proof.
  induction props as [| p props IH]; intros m m' f Hpop Hnone; simpl in Hpop.
  - injection Hpop as <-. exact Hnone.
  - rewrite dict_pop_guarded in Hpop. simpl in Hpop.
    apply (IH _ _ f Hpop). apply dict_get_remove_None. exact Hnone.
Qed.

Lemma nest_security_properties_None data props :
  forall mapping security_mapping mapping' security_mapping' f,
    Repository.nest_security_properties data props mapping security_mapping
    = Ok (mapping', security_mapping') ->
    dict_get mapping f = None -> dict_get mapping' f = None.
Proof.
  induction props as [| p props IH]; intros m sm m' sm' f Hnest Hnone;
    simpl in Hnest.
  - injection Hnest as <- _. exact Hnone.
  - rewrite dict_pop_guarded in Hnest. simpl in Hnest.
    apply (IH _ _ _ _ f Hnest). apply dict_get_remove_None. exact Hnone.
Qed.

Lemma nest_source_properties_None data props :
  forall mapping legacy mapping' legacy' f,
    Repository.nest_source_properties data props mapping legacy
    = Ok (mapping', legacy') ->
    dict_get mapping f = None -> dict_get mapping' f = None.
Proof.
  induction props as [| p props IH]; intros m l m' l' f Hnest Hnone;
    simpl in Hnest.
  - injection Hnest as <- _. exact Hnone.
  - destruct (data_contains data p); [| exact (IH _ _ _ _ f Hnest Hnone)].
    destruct (dict_pop m p) as [m1 |] eqn:Hpop; [| discriminate].
    simpl in Hnest. apply (IH _ _ _ _ f Hnest).
    exact (dict_pop_None _ _ _ _ Hpop Hnone).
Qed.

(** An unset or missing entry of [data] is no entry at the top of the
    mapping of a repository (the two nested objects have names of their
    own). *)
Lemma repository_mapping_unset org_id data provider mapping f :
  is_unset (data_get data f UNSET) = true ->
  f <> "security_and_analysis" -> f <> "gh_pages" ->
  Repository.get_mapping_to_provider org_id data provider = Ok mapping ->
  dict_get mapping f = None.
Proof.
  intros Hunset Hsec Hpages. unfold Repository.get_mapping_to_provider.
  cbv zeta.
  set (m0 := set_fields_mapping Repository.fields data).
  assert (H0 : dict_get m0 f = None).
  { subst m0. rewrite set_fields_mapping_get, Hunset.
    rewrite andb_false_r. reflexivity. }
  clearbody m0.
  match goal with
  | |- result_bind ?stage _ = _ -> _ =>
      destruct stage as [m1 |] eqn:Hstage; [| discriminate]
  end.
  assert (H1 : dict_get m1 f = None).
  { destruct (truthy _).
    - exact (pop_security_properties_None _ _ _ f Hstage H0).
    - destruct (Repository.nest_security_properties data _ m0 [])
        as [[m sm] |] eqn:Hnest; [| discriminate].
      simpl in Hstage.
      pose proof (nest_security_properties_None _ _ _ _ _ _ f Hnest H0) as Hm.
      destruct (Nat.ltb 0 (length sm)); injection Hstage as <-;
        [rewrite dict_get_set_ne by congruence |]; exact Hm. }
  clear Hstage H0. cbn [result_bind].
  match goal with
  | |- result_bind ?stage _ = _ -> _ =>
      destruct stage as [[m2 g2] |] eqn:Hstage; [| discriminate]
  end.
  assert (H2 : dict_get m2 f = None).
  { destruct (data_contains data "gh_pages_build_type").
    - destruct (dict_pop m1 "gh_pages_build_type") as [m |] eqn:Hpop;
        [| discriminate].
      simpl in Hstage. injection Hstage as <- _.
      exact (dict_pop_None _ _ _ _ Hpop H1).
    - injection Hstage as <- _. exact H1. }
  clear Hstage H1. cbn [result_bind].
  match goal with
  | |- result_bind ?stage _ = _ -> _ =>
      destruct stage as [[m3 g3] |] eqn:Hstage; [| discriminate]
  end.
  assert (H3 : dict_get m3 f = None).
  { destruct (_ || _).
    - destruct (Repository.nest_source_properties data _ m2 [])
        as [[m l] |] eqn:Hnest; [| discriminate].
      simpl in Hstage.
      pose proof (nest_source_properties_None _ _ _ _ _ _ f Hnest H2) as Hm.
      destruct (Nat.ltb 0 (length l)); injection Hstage as <- _; exact Hm.
    - injection Hstage as <- _. exact H2. }
  cbn [result_bind].
  destruct (Nat.ltb 0 (length g3)); intros [= <-];
    [rewrite dict_get_set_ne by congruence |]; exact H3.
Qed.

(** ** Reconciling an entity with itself *)

Lemma py_eq_refl (v : value) : py_eq v v = true.
Proof. destruct v; apply bool_decide_eq_true_2; reflexivity. Qed.

Lemma get_difference_from_self `{ModelObject T} (self : T) :
  get_difference_from self self = ∅.
Proof.
  unfold get_difference_from.
  assert (Hstep : forall acc k, diff_step self self acc k = acc).
  { intros acc k. unfold diff_step, py_ne. rewrite py_eq_refl. reflexivity. }
  induction (diff_keys self) as [| k keys IH]; simpl; [reflexivity |].
  rewrite Hstep. exact IH.
Qed.

Lemma for_current_environments_self parent context
    (environments : list Environment.t) :
  EnvironmentPatch.for_current_environments environments
    (map (fun e => (Environment.name e, e)) environments) parent context
  = ([], Ok []).
Proof.
  induction environments as [| x rest IH]; [reflexivity |].
  cbn [EnvironmentPatch.for_current_environments map dict_get].
  rewrite String.eqb_refl.
  rewrite environment_patch_matched, get_difference_from_self.
  rewrite map_size_empty. cbn [Nat.ltb Nat.leb].
  erewrite emit_bind_Ok by reflexivity.
  unfold dict_pop, dict_contains. cbn [dict_get dict_remove].
  rewrite String.eqb_refl, emit_bind_lift_Ok, IH. reflexivity.
Qed.

(** X1.  Reconciling a list of environments with itself, their names being
    pairwise distinct, ends normally and hands no patch to the handler. *)
Theorem environment_list_idempotent
    (environments : list Environment.t) (parent : Repository.t)
    (context : LivePatchContext) :
  NoDup (map Environment.name environments) ->
  EnvironmentPatch.generate_live_patch_of_list environments environments
    (Some (MRepository parent)) context
  = ([], Ok tt).
Proof.
  intros Hnd. unfold EnvironmentPatch.generate_live_patch_of_list.
  rewrite associate_by_key_spec by exact Hnd.
  rewrite emit_bind_lift_Ok. cbn [app].
  rewrite for_current_environments_self.
  erewrite emit_bind_Ok by reflexivity. reflexivity.
Qed.

Lemma environment_list_idempotent_witness :
  EnvironmentPatch.generate_live_patch_of_list
    [sample_environment "production"; sample_environment "staging"]
    [sample_environment "production"; sample_environment "staging"]
    (Some (MRepository (Repository.named "web"))) sample_context
  = ([], Ok tt).
Proof.
  apply (environment_list_idempotent
           [sample_environment "production"; sample_environment "staging"]).
  apply (bool_decide_unpack _). vm_compute. exact I.
Defined.

(** ** The change set of a repository *)

(** X2.  Without an organization-wide override of
    [web_commit_signoff_required] to [True], a repository compared with
    itself has an empty change set, and reconciling it with itself hands
    over no patch that is about a repository. *)
Theorem repository_self_change_set_empty
    (context : LivePatchContext) (repo : Repository.t)
    (parent_object : option Model) :
  (forall change,
     modified_org_settings context !! "web_commit_signoff_required"
     = Some change -> is_True (to_value change) = false) ->
  RepositoryPatch.modified_repo context repo
    (RepositoryPatch.override_current context repo) = ∅
  /\ Forall (fun p => mentions_repository p = false)
       (emitted (RepositoryPatch.generate_live_patch (Some repo) (Some repo)
                   parent_object context)).
Proof.
  intros Hover.
  assert (Hsame : RepositoryPatch.override_current context repo = repo).
  { unfold RepositoryPatch.override_current.
    destruct (modified_org_settings context !! "web_commit_signoff_required")
      as [change |] eqn:Hc; [| reflexivity].
    rewrite (Hover change eq_refl). reflexivity. }
  assert (Hempty : RepositoryPatch.modified_repo context repo repo = ∅).
  { unfold RepositoryPatch.modified_repo.
    rewrite get_difference_from_self.
    rewrite lookup_empty.
    rewrite !bool_decide_eq_false_2 by (intros [x Hx]; discriminate Hx).
    reflexivity. }
  rewrite Hsame. split; [exact Hempty |].
  unfold RepositoryPatch.generate_live_patch.
  rewrite Hsame, Hempty, map_size_empty. cbn [Nat.ltb Nat.leb].
  rewrite emit_bind_ret.
  apply generate_nested_patches_no_repository.
Qed.

Lemma repository_self_change_set_empty_witness :
  RepositoryPatch.modified_repo sample_context (Repository.named "web")
    (RepositoryPatch.override_current sample_context (Repository.named "web"))
  = ∅.
Proof.
  apply (repository_self_change_set_empty sample_context
           (Repository.named "web") None).
  intros change H. vm_compute in H. discriminate H.
Defined.

(** X3.  When the organization disables projects
    ([has_organization_projects] is [False] in the expected organization
    settings), the change set handed to a [CHANGE] patch of a repository
    never lists [has_projects], whatever the two repositories say. *)
Theorem repository_has_projects_suppressed
    (context : LivePatchContext) (expected current : Repository.t) :
  expected_org_settings context !! "has_organization_projects"
  = Some (VBool false) ->
  RepositoryPatch.modified_repo context expected current !! "has_projects"
  = None.
Proof.
  intros Horg. unfold RepositoryPatch.modified_repo, data_get.
  rewrite Horg. cbn [is_False]. rewrite andb_true_r.
  match goal with
  | |- (if bool_decide (is_Some (?m !! _)) then _ else _) !! _ = _ =>
      destruct (m !! "has_projects") as [ch |] eqn:Hm
  end.
  - rewrite bool_decide_eq_true_2 by (eexists; reflexivity).
    apply lookup_delete_eq.
  - rewrite bool_decide_eq_false_2 by (intros [x Hx]; discriminate Hx).
    exact Hm.
Qed.

Lemma repository_has_projects_suppressed_witness :
  RepositoryPatch.modified_repo
    {| org_id := "acme";
       expected_org_settings :=
         {[ "has_organization_projects" := VBool false ]};
       modified_org_settings := ∅ |}
    (Repository.setattr (Repository.named "web") "has_projects" (VBool true))
    (Repository.setattr (Repository.named "web") "has_projects" (VBool false))
  !! "has_projects" = None.
Proof.
  apply repository_has_projects_suppressed. reflexivity.
Defined.

(** X4.  Whenever the change set of a repository lists the source branch
    of GitHub Pages, it also lists the source path, as a change from the
    expected path to itself. *)
Theorem repository_source_branch_brings_path
    (context : LivePatchContext) (expected current : Repository.t) :
  is_Some (RepositoryPatch.modified_repo context expected current
             !! "gh_pages_source_branch") ->
  RepositoryPatch.modified_repo context expected current
    !! "gh_pages_source_path"
  = Some (mkChange (Repository.gh_pages_source_path expected)
            (Repository.gh_pages_source_path expected)).
Proof.
  unfold RepositoryPatch.modified_repo.
  set (d := get_difference_from expected current).
  destruct (bool_decide (is_Some (d !! "gh_pages_source_branch"))) eqn:Hb.
  - intros _.
    destruct (_ && _).
    + rewrite lookup_delete_ne by discriminate. apply lookup_insert_eq.
    + apply lookup_insert_eq.
  - apply bool_decide_eq_false in Hb.
    destruct (_ && _); intros Hs; exfalso; apply Hb.
    + rewrite lookup_delete_ne in Hs by discriminate. exact Hs.
    + exact Hs.
Qed.

Lemma repository_source_branch_brings_path_witness :
  let expected :=
    Repository.setattr
      (Repository.setattr (Repository.named "web") "gh_pages_build_type"
         (VStr "legacy"))
      "gh_pages_source_branch" (VStr "main") in
  let current :=
    Repository.setattr
      (Repository.setattr (Repository.named "web") "gh_pages_build_type"
         (VStr "legacy"))
      "gh_pages_source_branch" (VStr "gh-pages") in
  RepositoryPatch.modified_repo sample_context expected current
    !! "gh_pages_source_path"
  = Some (mkChange (Repository.gh_pages_source_path expected)
            (Repository.gh_pages_source_path expected)).
Proof.
  intros expected current.
  apply (repository_source_branch_brings_path sample_context expected current).
  vm_compute. eexists. reflexivity.
Defined.

(** ** The shape of the reconciliation of environments *)

Lemma filter_all {A} (f : A -> bool) (l : list A) :
  (forall x, In x l -> f x = true) -> List.filter f l = l.
Proof.
  induction l as [| x l IH]; intros Hall; [reflexivity |].
  simpl. rewrite (Hall x) by (left; reflexivity).
  f_equal. apply IH. intros y Hy. apply Hall. right. exact Hy.
Qed.

Lemma filter_filter_andb {A} (f g : A -> bool) (l : list A) :
  List.filter f (List.filter g l) = List.filter (fun x => g x && f x) l.
Proof.
  induction l as [| x l IH]; [reflexivity |].
  simpl. destruct (g x); simpl; [destruct (f x) |]; rewrite IH; reflexivity.
Qed.

Lemma filter_map_comm {A B} (f : B -> bool) (g : A -> B) (l : list A) :
  List.filter f (map g l) = map g (List.filter (fun x => f (g x)) l).
Proof.
  induction l as [| x l IH]; [reflexivity |].
  simpl. destruct (f (g x)); simpl; rewrite IH; reflexivity.
Qed.

Lemma dict_remove_filter {V} (d : dict V) (k : string) :
  NoDup (dict_keys d) ->
  dict_remove d k = List.filter (fun ne => negb (String.eqb (fst ne) k)) d.
Proof.
  induction d as [| [k' v] d IH]; intros Hnd; [reflexivity |].
  cbn [dict_keys map fst] in Hnd. apply NoDup_cons in Hnd as [Hk Hnd].
  cbn [dict_remove List.filter fst].
  destruct (String.eqb k' k) eqn:E; cbn [negb].
  - apply String.eqb_eq in E. subst k'.
    symmetry. apply filter_all. intros [n e] Hin. cbn [fst].
    apply negb_true_iff, String.eqb_neq. intros ->.
    apply Hk, list_elem_of_In. apply in_map_iff. exists (k, e). auto.
  - f_equal. apply IH. exact Hnd.
Qed.

Lemma for_current_environments_remaining parent context
    (current : list Environment.t) :
  forall by_name : dict Environment.t,
    NoDup (dict_keys by_name) ->
    exists ps,
      EnvironmentPatch.for_current_environments current by_name parent context
      = (ps,
         Ok (List.filter
               (fun ne => negb (name_in (fst ne)
                                  (map Environment.name current)))
               by_name))
      /\ Forall (fun p => LivePatch.patch_type p <> ADD) ps.
Proof.
  induction current as [| c rest IH]; intros by_name Hnd.
  - exists []. split; [| constructor].
    cbn [EnvironmentPatch.for_current_environments map name_in existsb negb].
    rewrite filter_all by reflexivity. reflexivity.
  - cbn [EnvironmentPatch.for_current_environments].
    destruct (dict_get by_name (Environment.name c)) as [e |] eqn:Hget.
    + rewrite environment_patch_matched.
      erewrite emit_bind_Ok by reflexivity.
      rewrite (dict_pop_Some _ _ _ Hget), emit_bind_lift_Ok.
      destruct (IH (dict_remove by_name (Environment.name c))
                  (dict_remove_NoDup _ _ Hnd)) as (ps & Hloop & Hps).
      rewrite Hloop. unfold emitted, outcome. cbn [fst snd].
      eexists. split.
      * f_equal. f_equal.
        rewrite dict_remove_filter by exact Hnd.
        rewrite filter_filter_andb. apply List.filter_ext.
        intros [n x]. cbn [fst map name_in existsb].
        rewrite negb_orb. reflexivity.
      * apply Forall_app. split; [| exact Hps].
        destruct (Nat.ltb 0 _); repeat constructor. discriminate.
    + destruct (IH by_name Hnd) as (ps & Hloop & Hps).
      set (step := if EnvironmentPatch.keeps_github_pages parent context c
                   then emit_ret tt
                   else EnvironmentPatch.generate_live_patch None (Some c)
                          (Some (MRepository parent)) context).
      assert (Hstep : exists out, step = (out, Ok tt)
                /\ Forall (fun p => LivePatch.patch_type p <> ADD) out).
      { subst step. destruct (EnvironmentPatch.keeps_github_pages _ _ _).
        - exists []. split; [reflexivity | constructor].
        - eexists. split; [reflexivity |]. repeat constructor. discriminate. }
      destruct Hstep as (out & -> & Hout).
      erewrite emit_bind_Ok by reflexivity.
      rewrite Hloop. unfold emitted, outcome. cbn [fst snd].
      eexists. split.
      * f_equal. f_equal. apply List.filter_ext_in.
        intros [n x] Hin. cbn [fst map name_in existsb].
        assert (Hne : String.eqb n (Environment.name c) = false).
        { apply String.eqb_neq. intros ->.
          apply dict_get_None in Hget. apply Hget.
          apply in_map_iff. exists (Environment.name c, x). auto. }
        rewrite Hne. reflexivity.
      * apply Forall_app. split; assumption.
Qed.

(** X5.  The reconciliation of two lists of environments, the expected
    names being pairwise distinct, ends normally, and its additions come
    last: after the patches of the current environments, none of which is
    an addition, there is one [ADD] patch for every expected environment
    whose name no current environment has, in the order of the expected
    list. *)
Theorem environment_additions_come_last
    (expected current : list Environment.t) (parent : Repository.t)
    (context : LivePatchContext) :
  NoDup (map Environment.name expected) ->
  exists ps,
    EnvironmentPatch.generate_live_patch_of_list expected current
      (Some (MRepository parent)) context
    = (ps ++ map (fun e => LivePatch.of_addition (MEnvironment e)
                             (Some (MRepository parent)))
               (List.filter
                  (fun e => negb (name_in (Environment.name e)
                                    (map Environment.name current)))
                  expected),
       Ok tt)
    /\ Forall (fun p => LivePatch.patch_type p <> ADD) ps.
Proof.
  intros Hnd. unfold EnvironmentPatch.generate_live_patch_of_list.
  rewrite associate_by_key_spec by exact Hnd.
  rewrite emit_bind_lift_Ok. cbn [app].
  destruct (for_current_environments_remaining parent context current
              (map (fun e => (Environment.name e, e)) expected))
    as (ps & Hloop & Hps).
  { rewrite associate_by_key_keys. exact Hnd. }
  exists ps. split; [| exact Hps].
  erewrite emit_bind_Ok by exact Hloop.
  rewrite for_remaining_environments_spec.
  unfold emitted, outcome. cbn [fst snd].
  rewrite filter_map_comm, map_map. reflexivity.
Qed.

Lemma environment_additions_come_last_witness :
  exists ps,
    EnvironmentPatch.generate_live_patch_of_list
      [sample_environment "production"; sample_environment "staging"]
      [sample_environment "staging"; sample_environment "review"]
      (Some (MRepository (Repository.named "web"))) sample_context
    = (ps ++ [LivePatch.of_addition
                (MEnvironment (sample_environment "production"))
                (Some (MRepository (Repository.named "web")))],
       Ok tt)
    /\ Forall (fun p => LivePatch.patch_type p <> ADD) ps.
Proof.
  apply (environment_additions_come_last
           [sample_environment "production"; sample_environment "staging"]
           [sample_environment "staging"; sample_environment "review"]
           (Repository.named "web") sample_context).
  apply (bool_decide_unpack _). vm_compute. exact I.
Defined.

(** ** The changes of matched environments *)

Lemma dict_set_In {V} (d : dict V) (k n : string) (v x : V) :
  In (n, x) (dict_set d k v) -> In (n, x) d \/ (n = k /\ x = v).
Proof.
  induction d as [| [k' v'] d IH]; cbn [dict_set].
  - intros [[= <- <-] | []]. right. split; reflexivity.
  - destruct (String.eqb k' k) eqn:E.
    + apply String.eqb_eq in E. subst k'.
      intros [[= <- <-] | Hin]; [right; split; reflexivity |].
      left. right. exact Hin.
    + intros [Heq | Hin]; [left; left; exact Heq |].
      destruct (IH Hin) as [H | H]; [left; right; exact H | right; exact H].
Qed.

Lemma associate_by_key_In {T} (key_func : T -> string) (input : list T) :
  forall acc d n x,
    associate_by_key key_func input acc = Ok d ->
    In (n, x) d ->
    In (n, x) acc \/ (In x input /\ key_func x = n).
Proof.
  induction input as [| item rest IH]; intros acc d n x.
  - intros [= <-] Hin. left. exact Hin.
  - cbn [associate_by_key].
    destruct (dict_contains acc (key_func item)); [discriminate |].
    intros Hd Hin.
    destruct (IH _ _ _ _ Hd Hin) as [Hacc | [Hrest Hkey]].
    + destruct (dict_set_In _ _ _ _ _ Hacc) as [H | [-> ->]].
      * left. exact H.
      * right. split; [left; reflexivity | reflexivity].
    + right. split; [right; exact Hrest | exact Hkey].
Qed.

Lemma for_current_environments_changes parent context
    (current : list Environment.t) :
  forall (by_name : dict Environment.t) (p : LivePatch.t),
    In p (emitted (EnvironmentPatch.for_current_environments current by_name
                     parent context)) ->
    LivePatch.patch_type p = CHANGE ->
    exists e c,
      In (Environment.name c, e) by_name /\ In c current
      /\ get_difference_from e c <> ∅
      /\ p = LivePatch.of_changes (MEnvironment e) (MEnvironment c)
               (get_difference_from e c) (Some (MRepository parent)) false.
Proof.
  induction current as [| c rest IH]; intros by_name p.
  - intros [].
  - cbn [EnvironmentPatch.for_current_environments].
    destruct (dict_get by_name (Environment.name c)) as [e |] eqn:Hget.
    + rewrite environment_patch_matched.
      erewrite emit_bind_Ok by reflexivity.
      rewrite (dict_pop_Some _ _ _ Hget), emit_bind_lift_Ok.
      unfold emitted at 1. cbn [fst]. intros Hin Hty.
      apply in_app_or in Hin as [Hin | Hin].
      * destruct (Nat.ltb 0 (size (get_difference_from e c))) eqn:Hsize;
          [| destruct Hin].
        destruct Hin as [<- | []].
        exists e, c. split; [apply dict_get_Some_In; exact Hget |].
        split; [left; reflexivity |]. split; [| reflexivity].
        intros Hempty. rewrite Hempty, map_size_empty in Hsize.
        discriminate Hsize.
      * destruct (IH _ _ Hin Hty) as (e' & c' & Hd & Hc & Hne & ->).
        exists e', c'. split; [eapply dict_remove_In; exact Hd |].
        split; [right; exact Hc |]. split; [exact Hne | reflexivity].
    + rewrite emitted_bind. intros Hin Hty.
      apply in_app_or in Hin as [Hin | Hin].
      * exfalso.
        destruct (EnvironmentPatch.keeps_github_pages parent context c);
          [destruct Hin |].
        destruct Hin as [<- | []]. discriminate Hty.
      * destruct (outcome _); [| destruct Hin].
        destruct (IH _ _ Hin Hty) as (e' & c' & Hd & Hc & Hne & ->).
        exists e', c'. split; [exact Hd |].
        split; [right; exact Hc |]. split; [exact Hne | reflexivity].
Qed.

(** X6.  Every [CHANGE] patch of the reconciliation of two lists of
    environments pairs an expected with a current environment of the same
    name and carries their difference, which is not empty. *)
Theorem environment_change_patches_sound
    (expected current : list Environment.t) (parent : Repository.t)
    (context : LivePatchContext) (p : LivePatch.t) :
  In p (emitted (EnvironmentPatch.generate_live_patch_of_list expected current
                   (Some (MRepository parent)) context)) ->
  LivePatch.patch_type p = CHANGE ->
  exists e c,
    In e expected /\ In c current
    /\ Environment.name e = Environment.name c
    /\ get_difference_from e c <> ∅
    /\ p = LivePatch.of_changes (MEnvironment e) (MEnvironment c)
             (get_difference_from e c) (Some (MRepository parent)) false.
Proof.
  unfold EnvironmentPatch.generate_live_patch_of_list.
  rewrite emit_bind_lift.
  destruct (associate_by_key Environment.name expected []) as [by_name |]
    eqn:Hassoc; [| intros []].
  rewrite emitted_bind. intros Hin Hty.
  apply in_app_or in Hin as [Hin | Hin].
  - destruct (for_current_environments_changes _ _ _ _ _ Hin Hty)
      as (e & c & Hd & Hc & Hne & ->).
    destruct (associate_by_key_In _ _ _ _ _ _ Hassoc Hd) as [[] | [He Hname]].
    exists e, c. repeat split; assumption.
  - exfalso. destruct (outcome _); [| destruct Hin].
    rewrite for_remaining_environments_spec in Hin.
    unfold emitted in Hin. cbn [fst] in Hin.
    apply in_map_iff in Hin as (ne & <- & _). discriminate Hty.
Qed.

Lemma environment_change_patches_sound_witness :
  let e := Environment.mk UNSET UNSET "production" (VInt 30) UNSET UNSET UNSET in
  let c := Environment.mk UNSET UNSET "production" (VInt 0) UNSET UNSET UNSET in
  let parent := Some (MRepository (Repository.named "web")) in
  exists e' c',
    In e' [e] /\ In c' [c]
    /\ Environment.name e' = Environment.name c'
    /\ get_difference_from e' c' <> ∅
    /\ LivePatch.of_changes (MEnvironment e) (MEnvironment c)
         (get_difference_from e c) parent false
       = LivePatch.of_changes (MEnvironment e') (MEnvironment c')
           (get_difference_from e' c') parent false.
Proof.
  intros e c parent.
  apply (environment_change_patches_sound [e] [c] (Repository.named "web")
           sample_context).
  - vm_compute. left. reflexivity.
  - reflexivity.
Defined.

Lemma for_current_environments_change_emitted parent context
    (current : list Environment.t) :
  forall (by_name : dict Environment.t) (e c : Environment.t),
    NoDup (map Environment.name current) ->
    In c current ->
    dict_get by_name (Environment.name c) = Some e ->
    get_difference_from e c <> ∅ ->
    In (LivePatch.of_changes (MEnvironment e) (MEnvironment c)
          (get_difference_from e c) (Some (MRepository parent)) false)
      (emitted (EnvironmentPatch.for_current_environments current by_name
                  parent context)).
Proof.
  induction current as [| c0 rest IH]; intros by_name e c Hnd Hin Hget Hne.
  - destruct Hin.
  - cbn [map] in Hnd. apply NoDup_cons in Hnd as [Hc0 Hnd].
    cbn [EnvironmentPatch.for_current_environments].
    destruct Hin as [-> | Hin].
    + rewrite Hget, environment_patch_matched.
      erewrite emit_bind_Ok by reflexivity.
      unfold emitted at 1. cbn [fst]. apply in_or_app. left.
      destruct (Nat.ltb 0 (size (get_difference_from e c))) eqn:Hsize;
        [left; reflexivity |].
      exfalso. apply Hne. apply map_size_empty_iff.
      apply Nat.ltb_ge in Hsize. lia.
    + assert (Hname : Environment.name c0 <> Environment.name c).
      { intros Heq. apply Hc0, list_elem_of_In. rewrite Heq.
        apply in_map. exact Hin. }
      destruct (dict_get by_name (Environment.name c0)) as [e0 |] eqn:Hget0.
      * rewrite environment_patch_matched.
        erewrite emit_bind_Ok by reflexivity.
        rewrite (dict_pop_Some _ _ _ Hget0), emit_bind_lift_Ok.
        unfold emitted at 1. cbn [fst]. apply in_or_app. right.
        apply IH; try assumption.
        rewrite dict_get_remove_ne by exact Hname. exact Hget.
      * rewrite emitted_bind. apply in_or_app. right.
        assert (Hout : outcome
                  (if EnvironmentPatch.keeps_github_pages parent context c0
                   then emit_ret tt
                   else EnvironmentPatch.generate_live_patch None (Some c0)
                          (Some (MRepository parent)) context) = Ok tt).
        { destruct (EnvironmentPatch.keeps_github_pages _ _ _); reflexivity. }
        rewrite Hout. apply IH; assumption.
Qed.

(** X7.  Conversely, when the names are pairwise distinct within each
    list, an expected and a current environment of the same name whose
    difference is not empty get their [CHANGE] patch. *)
Theorem environment_change_patches_complete
    (expected current : list Environment.t) (parent : Repository.t)
    (context : LivePatchContext) (e c : Environment.t) :
  NoDup (map Environment.name expected) ->
  NoDup (map Environment.name current) ->
  In e expected -> In c current ->
  Environment.name e = Environment.name c ->
  get_difference_from e c <> ∅ ->
  In (LivePatch.of_changes (MEnvironment e) (MEnvironment c)
        (get_difference_from e c) (Some (MRepository parent)) false)
    (emitted (EnvironmentPatch.generate_live_patch_of_list expected current
                (Some (MRepository parent)) context)).
Proof.
  intros Hnde Hndc He Hc Hname Hne.
  unfold EnvironmentPatch.generate_live_patch_of_list.
  rewrite associate_by_key_spec by exact Hnde.
  rewrite emit_bind_lift_Ok. cbn [app].
  rewrite emitted_bind. apply in_or_app. left.
  apply for_current_environments_change_emitted; try assumption.
  apply dict_In_get.
  - rewrite associate_by_key_keys. exact Hnde.
  - rewrite <- Hname. apply in_map_iff. exists e. auto.
Qed.

Lemma environment_change_patches_complete_witness :
  let e := Environment.mk UNSET UNSET "production" (VInt 30) UNSET UNSET UNSET in
  let c := Environment.mk UNSET UNSET "production" (VInt 0) UNSET UNSET UNSET in
  let parent := Some (MRepository (Repository.named "web")) in
  In (LivePatch.of_changes (MEnvironment e) (MEnvironment c)
        (get_difference_from e c) parent false)
    (emitted (EnvironmentPatch.generate_live_patch_of_list
                [sample_environment "staging"; e] [c]
                parent sample_context)).
Proof.
  intros e c parent.
  apply (environment_change_patches_complete
           [sample_environment "staging"; e] [c] (Repository.named "web")
           sample_context e c).
  - apply (bool_decide_unpack _). vm_compute. exact I.
  - apply NoDup_singleton.
  - right. left. reflexivity.
  - left. reflexivity.
  - reflexivity.
  - intros H. vm_compute in H. discriminate H.
Defined.

(** ** The provider mapping of an environment *)

Lemma environment_mapping_has_policy data (x : Bender.t) :
  dict_contains
    (if dict_contains (set_fields_mapping Environment.fields data) "reviewers"
     then dict_set (set_fields_mapping Environment.fields data) "reviewers" x
     else set_fields_mapping Environment.fields data)
    "deployment_branch_policy"
  = negb (is_unset (data_get data "deployment_branch_policy" UNSET)).
Proof.
  unfold dict_contains.
  assert (Hget : dict_get (set_fields_mapping Environment.fields data)
                   "deployment_branch_policy"
                 = if negb (is_unset (data_get data "deployment_branch_policy"
                                        UNSET))
                   then Some (Bender.S "deployment_branch_policy") else None).
  { rewrite set_fields_mapping_get. reflexivity. }
  destruct (dict_get (set_fields_mapping Environment.fields data) "reviewers");
    [rewrite dict_get_set_ne by discriminate |];
    rewrite Hget; destruct (negb _); reflexivity.
Qed.

Lemma environment_mapping_returns
    (org_id : string) (data : gmap string value) (provider : GitHubProvider) :
  is_unset (data_get data "deployment_branch_policy" UNSET)
  || in_str_list (data_get data "deployment_branch_policy" UNSET)
       ["all"; "protected"; "selected"] = true ->
  exists mapping,
    Environment.get_mapping_to_provider org_id data provider = Ok mapping.
Proof.
  unfold Environment.get_mapping_to_provider. cbv zeta.
  rewrite environment_mapping_has_policy.
  set (policy := data_get data "deployment_branch_policy" UNSET).
  destruct (is_unset policy); cbn [negb orb]; [eexists; reflexivity |].
  unfold in_str_list. cbn [existsb].
  destruct (py_eq policy (VStr "all")); cbn [orb result_bind];
    [eexists; reflexivity |].
  destruct (py_eq policy (VStr "protected")); cbn [orb result_bind];
    [eexists; reflexivity |].
  destruct (py_eq policy (VStr "selected")); cbn [orb result_bind];
    [eexists; reflexivity | discriminate].
Qed.

(** X8.  [Environment.get_mapping_to_provider] returns a mapping when the
    data leaves the deployment branch policy unset or sets it to one of
    ["all"], ["protected"], ["selected"]; for every other value, the
    explicit [None] included, it raises [RuntimeError]. *)
Theorem environment_mapping_outcome
    (org_id : string) (data : gmap string value) (provider : GitHubProvider) :
  let policy := data_get data "deployment_branch_policy" UNSET in
  if is_unset policy || in_str_list policy ["all"; "protected"; "selected"]
  then exists mapping,
         Environment.get_mapping_to_provider org_id data provider = Ok mapping
  else exists msg,
         Environment.get_mapping_to_provider org_id data provider
         = Raise (RuntimeError msg).
Proof.
  intros policy.
  destruct (is_unset policy || in_str_list policy _) eqn:Hpolicy.
  - apply environment_mapping_returns. exact Hpolicy.
  - apply orb_false_iff in Hpolicy as [Hset Hother].
    unfold in_str_list in Hother. cbn [existsb] in Hother.
    apply orb_false_iff in Hother as [Hall Hother].
    apply orb_false_iff in Hother as [Hprotected Hother].
    apply orb_false_iff in Hother as [Hselected _].
    unfold Environment.get_mapping_to_provider. cbv zeta.
    rewrite environment_mapping_has_policy. fold policy.
    rewrite Hset, Hall, Hprotected, Hselected. cbn [negb result_bind].
    eexists. reflexivity.
Qed.

(** The mapping of an explicit [None]: [validate] has nothing to say about
    such an environment, and its mapping raises. *)
Example environment_mapping_rejects_None :
  let self :=
    Environment.mk UNSET UNSET "production" UNSET UNSET VNone UNSET in
  Environment.validate self = ([], Ok tt)
  /\ Environment.get_mapping_to_provider "acme"
       {[ "deployment_branch_policy" := VNone ]} sample_provider
     = Raise (RuntimeError "unexpected deployment_branch_policy").
Proof. split; vm_compute; reflexivity. Qed.

(** X9.  The policy survives the way to the provider and back: for each
    of the three policies, the bender that [get_mapping_to_provider] files
    under [deployment_branch_policy] bends to a payload that
    [transform_policy] of [get_mapping_from_provider] reads as the same
    policy. *)
Theorem environment_policy_round_trip
    (org_id : string) (data : gmap string value) (provider : GitHubProvider)
    (policy : string) :
  In policy ["all"; "protected"; "selected"] ->
  data !! "deployment_branch_policy" = Some (VStr policy) ->
  exists mapping bender payload,
    Environment.get_mapping_to_provider org_id data provider = Ok mapping
    /\ dict_get mapping "deployment_branch_policy" = Some bender
    /\ bend bender data = Ok payload
    /\ EnvironmentProviderData.transform_policy payload
       = EnvironmentProviderData.Policy policy.
Proof.
  intros Hin Hdata.
  assert (Hget : data_get data "deployment_branch_policy" UNSET = VStr policy).
  { unfold data_get. rewrite Hdata. reflexivity. }
  unfold Environment.get_mapping_to_provider. cbv zeta.
  rewrite environment_mapping_has_policy, Hget. cbn [is_unset negb].
  destruct Hin as [<- | [<- | [<- | []]]]; cbn [py_eq];
    repeat (rewrite bool_decide_eq_true_2 by reflexivity
            || rewrite bool_decide_eq_false_2 by discriminate);
    cbn [result_bind];
    do 3 eexists; (split; [reflexivity |]);
    (split; [apply dict_get_set_eq |]); split; reflexivity.
Qed.

Lemma environment_policy_round_trip_witness :
  exists mapping bender payload,
    Environment.get_mapping_to_provider "acme"
      {[ "deployment_branch_policy" := VStr "protected" ]} sample_provider
    = Ok mapping
    /\ dict_get mapping "deployment_branch_policy" = Some bender
    /\ bend bender {[ "deployment_branch_policy" := VStr "protected" ]}
       = Ok payload
    /\ EnvironmentProviderData.transform_policy payload
       = EnvironmentProviderData.Policy "protected".
Proof.
  apply (environment_policy_round_trip "acme"
           {[ "deployment_branch_policy" := VStr "protected" ]}
           sample_provider "protected").
  - simpl. tauto.
  - reflexivity.
Defined.

(** ** What a clean validation of an environment guarantees *)

Lemma clean_bind {A B} (m : Emit Failure A) (f : A -> Emit Failure B) (b : B) :
  outcome (emit_bind m f) = Ok b ->
  count_failures ERROR (emitted (emit_bind m f)) = 0%nat ->
  exists a,
    outcome m = Ok a
    /\ count_failures ERROR (emitted m) = 0%nat
    /\ outcome (f a) = Ok b
    /\ count_failures ERROR (emitted (f a)) = 0%nat.
Proof.
  rewrite outcome_bind, emitted_bind.
  destruct (outcome m) as [a | e]; [| discriminate].
  intros Hout Hcount. exists a. cbv beta iota in Hcount.
  unfold count_failures in *. rewrite List.filter_app, List.length_app in Hcount.
  apply Nat.eq_add_0 in Hcount as [Hm Hf].
  split; [reflexivity |]. split; [exact Hm |]. split; [exact Hout | exact Hf].
Qed.

Lemma clean_lift {A} (r : result A) (a : A) :
  outcome (emit_lift r : Emit Failure A) = Ok a -> r = Ok a.
Proof. intros H. exact H. Qed.

Lemma error_is_counted (msg : string) :
  count_failures ERROR (emitted (add_failure ERROR msg)) <> 0%nat.
Proof. vm_compute. discriminate. Qed.

(** X10.  When [Environment.validate] ends normally without a finding of
    type [ERROR], the wait timer is unset or lies between 0 and 43200, and
    a deployment branch policy that is set and valid is one of the three
    policies; the mapping to the provider of data with that policy then
    does not raise, unless the policy is the explicit [None]. *)
Theorem environment_validation_sound (self : Environment.t) :
  outcome (Environment.validate self) = Ok tt ->
  count_failures ERROR (emitted (Environment.validate self)) = 0%nat ->
  (Environment.wait_timer self = UNSET
   \/ exists n, as_int (Environment.wait_timer self) = Ok n
                /\ 0 <= n <= 43200)
  /\ (is_set_and_valid (Environment.deployment_branch_policy self) = true ->
      in_str_list (Environment.deployment_branch_policy self)
        ["all"; "protected"; "selected"] = true)
  /\ (forall org_id data provider,
        data_get data "deployment_branch_policy" UNSET
        = Environment.deployment_branch_policy self ->
        Environment.deployment_branch_policy self <> VNone ->
        exists mapping,
          Environment.get_mapping_to_provider org_id data provider
          = Ok mapping).
Proof.
  intros Hout Hcount. unfold Environment.validate in Hout, Hcount.
  destruct (clean_bind _ _ _ Hout Hcount) as ([] & Hout1 & Hcount1 & Hout2 & Hcount2).
  clear Hout Hcount.
  assert (Hpolicy :
            is_set_and_valid (Environment.deployment_branch_policy self) = true ->
            in_str_list (Environment.deployment_branch_policy self)
              ["all"; "protected"; "selected"] = true).
  { intros Hvalid. rewrite Hvalid in Hout2, Hcount2.
    destruct (clean_bind _ _ _ Hout2 Hcount2) as ([] & Hout3 & Hcount3 & _).
    destruct (clean_bind _ _ _ Hout3 Hcount3) as (known & Hk & _ & _ & Hcount4).
    apply clean_lift in Hk.
    destruct known; [| exfalso; exact (error_is_counted _ Hcount4)].
    unfold in_str_set in Hk.
    destruct (Environment.deployment_branch_policy self);
      try discriminate Hk; injection Hk as Hk; exact Hk. }
  split; [| split; [exact Hpolicy |]].
  - destruct (is_unset (Environment.wait_timer self)) eqn:Hu.
    + left. destruct (Environment.wait_timer self); try discriminate Hu.
      reflexivity.
    + right. cbn [negb] in Hout1, Hcount1.
      destruct (clean_bind _ _ _ Hout1 Hcount1) as (n & Hn & _ & _ & Hcount3).
      apply clean_lift in Hn. exists n. split; [exact Hn |].
      destruct (negb ((0 <=? n) && (n <=? 43200))) eqn:Hrange;
        [exfalso; exact (error_is_counted _ Hcount3) |].
      apply negb_false_iff, andb_true_iff in Hrange. lia.
  - intros org_id data provider Hdata Hnone.
    apply environment_mapping_returns. rewrite Hdata.
    destruct (is_unset (Environment.deployment_branch_policy self)) eqn:Hu;
      [reflexivity |].
    apply Hpolicy. unfold is_set_and_valid. rewrite Hu.
    destruct (Environment.deployment_branch_policy self);
      try reflexivity. contradiction.
Qed.

Lemma environment_validation_sound_witness :
  let self :=
    Environment.mk UNSET UNSET "production" (VInt 30) UNSET (VStr "selected")
      (VList ["main"]) in
  (Environment.wait_timer self = UNSET
   \/ exists n, as_int (Environment.wait_timer self) = Ok n
                /\ 0 <= n <= 43200)
  /\ (is_set_and_valid (Environment.deployment_branch_policy self) = true ->
      in_str_list (Environment.deployment_branch_policy self)
        ["all"; "protected"; "selected"] = true)
  /\ (forall org_id data provider,
        data_get data "deployment_branch_policy" UNSET
        = Environment.deployment_branch_policy self ->
        Environment.deployment_branch_policy self <> VNone ->
        exists mapping,
          Environment.get_mapping_to_provider org_id data provider
          = Ok mapping).
Proof.
  intros self. apply (environment_validation_sound self); reflexivity.
Defined.

(** ** The provider mapping of a repository *)

Lemma dict_pop_Ok {V} (d d' : dict V) (k : string) :
  dict_pop d k = Ok d' -> d' = dict_remove d k /\ dict_contains d k = true.
Proof.
  unfold dict_pop. destruct (dict_contains d k); [| discriminate].
  intros [= <-]. split; reflexivity.
Qed.

Lemma dict_get_remove_eq {V} (d : dict V) (k : string) :
  NoDup (dict_keys d) -> dict_get (dict_remove d k) k = None.
Proof.
  intros Hnd. apply dict_get_None. apply dict_remove_not_In. exact Hnd.
Qed.

Lemma dict_set_keys {V} (d : dict V) (k : string) (v : V) :
  dict_keys (dict_set d k v)
  = if dict_contains d k then dict_keys d else dict_keys d ++ [k].
Proof.
  unfold dict_contains.
  induction d as [| [k' v'] d IH]; [reflexivity |].
  cbn [dict_set dict_get]. destruct (String.eqb k' k) eqn:E; [reflexivity |].
  cbn [dict_keys map fst]. fold (dict_keys (dict_set d k v)).
  rewrite IH. destruct (dict_get d k); reflexivity.
Qed.

Lemma dict_set_NoDup {V} (d : dict V) (k : string) (v : V) :
  NoDup (dict_keys d) -> NoDup (dict_keys (dict_set d k v)).
Proof.
  intros Hnd. rewrite dict_set_keys.
  destruct (dict_contains d k) eqn:Hc; [exact Hnd |].
  apply NoDup_app. split; [exact Hnd |]. split; [| apply NoDup_singleton].
  intros x Hx Hk. apply list_elem_of_In in Hx.
  apply list_elem_of_In in Hk. destruct Hk as [<- | []].
  unfold dict_contains in Hc.
  destruct (dict_get d k) eqn:Hget; [discriminate |].
  apply dict_get_None in Hget. contradiction.
Qed.

Lemma filter_names_NoDup {A} (f : A -> string) (p : A -> bool) (l : list A) :
  NoDup (map f l) -> NoDup (map f (List.filter p l)).
Proof.
  induction l as [| x l IH]; intros Hnd; [constructor |].
  cbn [map] in Hnd. apply NoDup_cons in Hnd as [Hx Hnd].
  cbn [List.filter]. destruct (p x); [| apply IH; exact Hnd].
  cbn [map]. apply NoDup_cons. split; [| apply IH; exact Hnd].
  intros Hin. apply Hx. apply list_elem_of_In in Hin. apply list_elem_of_In.
  apply in_map_iff in Hin as (y & Hy & Hin). apply in_map_iff.
  exists y. split; [exact Hy |]. apply filter_In in Hin. tauto.
Qed.

Lemma set_fields_mapping_NoDup fields data :
  NoDup (map Field.name fields) ->
  NoDup (dict_keys (set_fields_mapping fields data)).
Proof.
  intros Hnd. unfold set_fields_mapping, dict_keys, provider_fields.
  rewrite map_map. cbn [fst].
  apply filter_names_NoDup, filter_names_NoDup. exact Hnd.
Qed.

Lemma repository_fields_NoDup : NoDup (map Field.name Repository.fields).
Proof. apply (bool_decide_unpack _). vm_compute. exact I. Qed.

Lemma pop_security_properties_NoDup props :
  forall mapping mapping',
    NoDup (dict_keys mapping) ->
    Repository.pop_security_properties props mapping = Ok mapping' ->
    NoDup (dict_keys mapping')
    /\ forall k, In k props -> dict_get mapping' k = None.
Proof.
  induction props as [| p props IH]; intros m m' Hnd; cbn.
  - intros [= <-]. split; [exact Hnd | intros k []].
  - rewrite dict_pop_guarded. cbn [result_bind]. intros Hpop.
    destruct (IH _ _ (dict_remove_NoDup _ p Hnd) Hpop) as [Hnd' Hnone].
    split; [exact Hnd' |]. intros k [<- | Hk]; [| apply Hnone; exact Hk].
    apply (pop_security_properties_None _ _ _ _ Hpop).
    apply dict_get_remove_eq. exact Hnd.
Qed.

Lemma nest_security_properties_NoDup data props :
  forall mapping security_mapping mapping' security_mapping',
    NoDup (dict_keys mapping) ->
    Repository.nest_security_properties data props mapping security_mapping
    = Ok (mapping', security_mapping') ->
    NoDup (dict_keys mapping').
Proof.
  induction props as [| p props IH]; intros m sm m' sm' Hnd; cbn.
  - intros [= <- _]. exact Hnd.
  - rewrite dict_pop_guarded. cbn [result_bind]. intros Hnest.
    exact (IH _ _ _ _ (dict_remove_NoDup _ p Hnd) Hnest).
Qed.

(** The first part of [get_mapping_to_provider] keeps the keys of the
    mapping pairwise distinct. *)
Lemma security_stage_NoDup data mapping mapping' :
  NoDup (dict_keys mapping) ->
  (if truthy (data_get data "private" (VBool false))
   then Repository.pop_security_properties Repository._security_properties
          mapping
   else
     (let? r := Repository.nest_security_properties data
                  Repository._security_properties mapping [] in
      let '(mapping, security_mapping) := r in
      if Nat.ltb 0 (length security_mapping)
      then Ok (dict_set mapping "security_and_analysis"
                 (Bender.Obj security_mapping))
      else Ok mapping)%result) = Ok mapping' ->
  NoDup (dict_keys mapping').
Proof.
  intros Hnd. destruct (truthy _).
  - intros Hpop. exact (proj1 (pop_security_properties_NoDup _ _ _ Hnd Hpop)).
  - destruct (Repository.nest_security_properties data _ mapping [])
      as [[m sm] |] eqn:Hnest; [| discriminate].
    cbn [result_bind].
    pose proof (nest_security_properties_NoDup _ _ _ _ _ _ Hnd Hnest) as Hm.
    destruct (Nat.ltb 0 (length sm)); intros [= <-];
      [apply dict_set_NoDup |]; exact Hm.
Qed.

Lemma repository_mapping_contains data k :
  In k ["gh_pages_build_type"; "gh_pages_source_branch";
        "gh_pages_source_path"] ->
  dict_get (set_fields_mapping Repository.fields data) k
  = if is_unset (data_get data k UNSET) then None else Some (Bender.S k).
Proof.
  intros Hk. rewrite set_fields_mapping_get.
  destruct Hk as [<- | [<- | [<- | []]]];
    destruct (is_unset _); reflexivity.
Qed.

Lemma nest_source_properties_outcome data props :
  forall mapping legacy,
    NoDup props ->
    (forall k, In k props ->
       dict_contains mapping k = negb (is_unset (data_get data k UNSET))) ->
    (exists mapping' legacy',
       Repository.nest_source_properties data props mapping legacy
       = Ok (mapping', legacy'))
    \/ (exists k, In k props /\ data !! k = Some UNSET
          /\ Repository.nest_source_properties data props mapping legacy
             = Raise (KeyError k)).
Proof.
  induction props as [| p props IH]; intros m l Hnd Hm.
  - left. do 2 eexists. reflexivity.
  - apply NoDup_cons in Hnd as [Hp Hnd].
    cbn [Repository.nest_source_properties].
    unfold data_contains.
    destruct (data !! p) as [v |] eqn:Hdata.
    + assert (Hg : data_get data p UNSET = v)
        by (unfold data_get; rewrite Hdata; reflexivity).
      unfold dict_pop. rewrite (Hm p) by (left; reflexivity).
      rewrite Hg.
      destruct (is_unset v) eqn:Hu; cbn [negb result_bind].
      * right. exists p. split; [left; reflexivity |].
        destruct v; try discriminate Hu. split; [exact Hdata | reflexivity].
      * destruct (IH (dict_remove m p)
                    (dict_set l (last_segment "_" p) (Bender.S p)) Hnd)
          as [Hok | (k & Hk & Hdk & Hraise)].
        -- intros k Hk. unfold dict_contains.
           rewrite dict_get_remove_ne.
           ++ apply (Hm k). right. exact Hk.
           ++ intros <-. apply Hp, list_elem_of_In. exact Hk.
        -- left. exact Hok.
        -- right. exists k. split; [right; exact Hk |]. split; assumption.
    + destruct (IH m l Hnd) as [Hok | (k & Hk & Hdk & Hraise)].
      * intros k Hk. apply Hm. right. exact Hk.
      * left. exact Hok.
      * right. exists k. split; [right; exact Hk |]. split; assumption.
Qed.

(** X11.  [Repository.get_mapping_to_provider] either returns a mapping
    or raises [KeyError] for one of the three GitHub Pages fields, and it
    raises only when the data binds that field to the unset sentinel. *)
Theorem repository_mapping_outcome
    (org_id : string) (data : gmap string value) (provider : GitHubProvider) :
  (exists mapping,
     Repository.get_mapping_to_provider org_id data provider = Ok mapping)
  \/ (exists k,
        In k ["gh_pages_build_type"; "gh_pages_source_branch";
              "gh_pages_source_path"]
        /\ data !! k = Some UNSET
        /\ Repository.get_mapping_to_provider org_id data provider
           = Raise (KeyError k)).
Proof.
  unfold Repository.get_mapping_to_provider. cbv zeta.
  set (m0 := set_fields_mapping Repository.fields data).
  destruct (security_stage_spec data m0) as (m1 & Hm1 & Hget1).
  rewrite Hm1. cbn [result_bind].
  assert (H1 : forall k,
            In k ["gh_pages_build_type"; "gh_pages_source_branch";
                  "gh_pages_source_path"] ->
            dict_contains m1 k = negb (is_unset (data_get data k UNSET))).
  { intros k Hk. unfold dict_contains. rewrite Hget1.
    - subst m0. rewrite (repository_mapping_contains _ _ Hk).
      destruct (is_unset _); reflexivity.
    - destruct Hk as [<- | [<- | [<- | []]]]; vm_compute; intuition congruence.
    - destruct Hk as [<- | [<- | [<- | []]]]; discriminate. }
  clear Hm1 Hget1. clearbody m0.
  match goal with
  | |- (exists mapping, result_bind ?stage _ = _) \/ _ => set (stage2 := stage)
  end.
  assert (Hstage2 :
    (exists m2 g2,
       stage2 = Ok (m2, g2)
       /\ forall k, In k ["gh_pages_source_branch"; "gh_pages_source_path"] ->
            dict_contains m2 k = negb (is_unset (data_get data k UNSET)))
    \/ (data !! "gh_pages_build_type" = Some UNSET
        /\ stage2 = Raise (KeyError "gh_pages_build_type"))).
  { subst stage2. unfold data_contains.
    destruct (data !! "gh_pages_build_type") as [v |] eqn:Hdata.
    - assert (Hg : data_get data "gh_pages_build_type" UNSET = v)
        by (unfold data_get; rewrite Hdata; reflexivity).
      unfold dict_pop. rewrite (H1 "gh_pages_build_type") by (left; reflexivity).
      rewrite Hg.
      destruct (is_unset v) eqn:Hu; cbn [negb result_bind].
      + right. destruct v; try discriminate Hu. split; reflexivity.
      + left. do 2 eexists. split; [reflexivity |].
        intros k Hk. unfold dict_contains. rewrite dict_get_remove_ne.
        * apply H1. right. exact Hk.
        * destruct Hk as [<- | [<- | []]]; discriminate.
    - left. do 2 eexists. split; [reflexivity |].
      intros k Hk. apply H1. right. exact Hk. }
  clearbody stage2.
  destruct Hstage2 as [(m2 & g2 & -> & H2) | [Hdata ->]].
  - cbn [result_bind].
    destruct (is_None _ || py_eq _ _).
    + destruct (nest_source_properties_outcome data
                  ["gh_pages_source_branch"; "gh_pages_source_path"] m2 [])
        as [(m3 & l3 & ->) | (k & Hk & Hdk & ->)].
      * apply (bool_decide_unpack _). vm_compute. exact I.
      * exact H2.
      * left. cbn [result_bind].
        destruct (Nat.ltb 0 (length l3)); cbn [result_bind];
          destruct (Nat.ltb 0 (length _)); eexists; reflexivity.
      * right. exists k. split; [right; exact Hk |]. split; [exact Hdk |].
        reflexivity.
    + left. cbn [result_bind].
      destruct (Nat.ltb 0 (length g2)); eexists; reflexivity.
  - right. exists "gh_pages_build_type". split; [left; reflexivity |].
    split; [exact Hdata | reflexivity].
Qed.

(** The stages of [get_mapping_to_provider] of a run that returns: the
    mapping after the security properties, after the build type, after
    the source properties, and what is put under [gh_pages]. *)
Lemma repository_mapping_stages org_id data provider mapping :
  Repository.get_mapping_to_provider org_id data provider = Ok mapping ->
  exists m1 m2 g2 m3 g3,
    (if truthy (data_get data "private" (VBool false))
     then Repository.pop_security_properties Repository._security_properties
            (set_fields_mapping Repository.fields data)
     else
       (let? r := Repository.nest_security_properties data
                    Repository._security_properties
                    (set_fields_mapping Repository.fields data) [] in
        let '(mapping, security_mapping) := r in
        if Nat.ltb 0 (length security_mapping)
        then Ok (dict_set mapping "security_and_analysis"
                   (Bender.Obj security_mapping))
        else Ok mapping)%result) = Ok m1
    /\ (if data_contains data "gh_pages_build_type"
        then dict_contains m1 "gh_pages_build_type" = true
             /\ m2 = dict_remove m1 "gh_pages_build_type"
             /\ g2 = [("build_type", Bender.S "gh_pages_build_type")]
        else m2 = m1 /\ g2 = [])
    /\ (if is_None (data_get data "gh_pages_build_type" VNone)
           || py_eq (data_get data "gh_pages_build_type" VNone) (VStr "legacy")
        then exists legacy,
               Repository.nest_source_properties data
                 ["gh_pages_source_branch"; "gh_pages_source_path"] m2 []
               = Ok (m3, legacy)
               /\ g3 = if Nat.ltb 0 (length legacy)
                       then dict_set g2 "source" (Bender.Obj legacy)
                       else g2
        else m3 = m2 /\ g3 = g2)
    /\ mapping = if Nat.ltb 0 (length g3)
                 then dict_set m3 "gh_pages" (Bender.Obj g3)
                 else m3.
Proof.
  unfold Repository.get_mapping_to_provider. cbv zeta.
  match goal with
  | |- result_bind ?stage _ = _ -> _ =>
      destruct stage as [m1 |] eqn:Hstage1; [| discriminate]
  end.
  cbn [result_bind].
  match goal with
  | |- result_bind ?stage _ = _ -> _ =>
      destruct stage as [[m2 g2] |] eqn:Hstage2; [| discriminate]
  end.
  cbn [result_bind].
  match goal with
  | |- result_bind ?stage _ = _ -> _ =>
      destruct stage as [[m3 g3] |] eqn:Hstage3; [| discriminate]
  end.
  cbn [result_bind]. intros Hmapping.
  exists m1, m2, g2, m3, g3. split; [reflexivity |]. split; [| split].
  - destruct (data_contains data "gh_pages_build_type").
    + destruct (dict_pop m1 "gh_pages_build_type") as [m |] eqn:Hpop;
        [| discriminate].
      cbn [result_bind] in Hstage2. injection Hstage2 as <- <-.
      apply dict_pop_Ok in Hpop as [-> Hc]. repeat split. exact Hc.
    + injection Hstage2 as <- <-. split; reflexivity.
  - destruct (is_None _ || py_eq _ _).
    + destruct (Repository.nest_source_properties data _ m2 [])
        as [[m l] |] eqn:Hnest; [| discriminate].
      cbn [result_bind] in Hstage3. exists l.
      destruct (Nat.ltb 0 (length l)); injection Hstage3 as <- <-;
        split; reflexivity.
    + injection Hstage3 as <- <-. split; reflexivity.
  - destruct (Nat.ltb 0 (length g3)); injection Hmapping as <-; reflexivity.
Qed.

Lemma nest_source_properties_other data props :
  forall mapping legacy mapping' legacy' k,
    Repository.nest_source_properties data props mapping legacy
    = Ok (mapping', legacy') ->
    ~ In k props -> dict_get mapping' k = dict_get mapping k.
Proof.
  induction props as [| p props IH]; intros m l m' l' k Hnest Hk;
    cbn [Repository.nest_source_properties] in Hnest.
  - injection Hnest as <- _. reflexivity.
  - destruct (data_contains data p).
    + destruct (dict_pop m p) as [m1 |] eqn:Hpop; [| discriminate].
      cbn [result_bind] in Hnest. apply dict_pop_Ok in Hpop as [-> _].
      rewrite (IH _ _ _ _ k Hnest) by (intros H; apply Hk; right; exact H).
      apply dict_get_remove_ne. intros <-. apply Hk. left. reflexivity.
    + apply (IH _ _ _ _ k Hnest). intros H. apply Hk. right. exact H.
Qed.

(** An entry that is not one of GitHub Pages is, in the mapping returned,
    what it was after the security properties had been dealt with. *)
Lemma repository_mapping_after_security org_id data provider mapping k :
  Repository.get_mapping_to_provider org_id data provider = Ok mapping ->
  ~ In k ["gh_pages"; "gh_pages_build_type"; "gh_pages_source_branch";
          "gh_pages_source_path"] ->
  exists m1,
    (if truthy (data_get data "private" (VBool false))
     then Repository.pop_security_properties Repository._security_properties
            (set_fields_mapping Repository.fields data)
     else
       (let? r := Repository.nest_security_properties data
                    Repository._security_properties
                    (set_fields_mapping Repository.fields data) [] in
        let '(mapping, security_mapping) := r in
        if Nat.ltb 0 (length security_mapping)
        then Ok (dict_set mapping "security_and_analysis"
                   (Bender.Obj security_mapping))
        else Ok mapping)%result) = Ok m1
    /\ dict_get mapping k = dict_get m1 k.
Proof.
  intros Hmap Hk.
  destruct (repository_mapping_stages _ _ _ _ Hmap)
    as (m1 & m2 & g2 & m3 & g3 & H1 & H2 & H3 & ->).
  exists m1. split; [exact H1 |].
  assert (E2 : dict_get m2 k = dict_get m1 k).
  { destruct (data_contains data "gh_pages_build_type").
    - destruct H2 as (_ & -> & _). apply dict_get_remove_ne.
      intros <-. apply Hk. simpl. tauto.
    - destruct H2 as [-> _]. reflexivity. }
  assert (E3 : dict_get m3 k = dict_get m2 k).
  { destruct (is_None _ || py_eq _ _).
    - destruct H3 as (l & Hnest & _).
      apply (nest_source_properties_other _ _ _ _ _ _ k Hnest).
      intros Hin. apply Hk. simpl in *. tauto.
    - destruct H3 as [-> _]. reflexivity. }
  rewrite <- E2, <- E3.
  destruct (Nat.ltb 0 (length g3)); [| reflexivity].
  apply dict_get_set_ne. intros <-. apply Hk. simpl. tauto.
Qed.

(** X12.  For a private repository (the data's [private] is truthy), a
    mapping returned by [get_mapping_to_provider] holds none of the
    security properties and no [security_and_analysis] object. *)
Theorem repository_mapping_private_drops_security
    (org_id : string) (data : gmap string value) (provider : GitHubProvider)
    (mapping : dict Bender.t) (k : string) :
  truthy (data_get data "private" (VBool false)) = true ->
  Repository.get_mapping_to_provider org_id data provider = Ok mapping ->
  In k ("security_and_analysis" :: Repository._security_properties) ->
  dict_get mapping k = None.
Proof.
  intros Hprivate Hmap Hk.
  destruct (repository_mapping_after_security _ _ _ _ k Hmap)
    as (m1 & Hstage & ->).
  { intros Hin. simpl in Hk, Hin.
    repeat (destruct Hk as [<- | Hk]; [intuition discriminate |]).
    exact Hk. }
  rewrite Hprivate in Hstage.
  destruct Hk as [<- | Hk].
  - apply (pop_security_properties_None _ _ _ _ Hstage).
    rewrite set_fields_mapping_get. reflexivity.
  - refine (proj2 (pop_security_properties_NoDup _ _ _ _ Hstage) k Hk).
    apply set_fields_mapping_NoDup, repository_fields_NoDup.
Qed.

Lemma repository_mapping_private_drops_security_witness :
  dict_get
    [("private", Bender.S "private")]
    "secret_scanning" = None.
Proof.
  apply (repository_mapping_private_drops_security "acme"
           (list_to_map [("private", VBool true);
                         ("secret_scanning", VStr "enabled")])
           sample_provider).
  - reflexivity.
  - vm_compute. reflexivity.
  - simpl. tauto.
Defined.

(** X13.  Under the legacy build of GitHub Pages (the data's build type
    is ["legacy"], [None] or missing), a source property that the data
    holds leaves the top of the mapping returned and is found under
    [gh_pages.source], filed under the last segment of its name. *)
Theorem repository_mapping_legacy_nests_source
    (org_id : string) (data : gmap string value) (provider : GitHubProvider)
    (mapping : dict Bender.t) (source_prop : string) :
  is_None (data_get data "gh_pages_build_type" VNone)
  || py_eq (data_get data "gh_pages_build_type" VNone) (VStr "legacy") = true ->
  In source_prop Repository._gh_pages_properties ->
  data_contains data source_prop = true ->
  Repository.get_mapping_to_provider org_id data provider = Ok mapping ->
  dict_get mapping source_prop = None
  /\ exists gh_pages source,
       dict_get mapping "gh_pages" = Some (Bender.Obj gh_pages)
       /\ dict_get gh_pages "source" = Some (Bender.Obj source)
       /\ dict_get source (last_segment "_" source_prop)
          = Some (Bender.S source_prop).
Proof.
  intros Hlegacy Hprop Hdata Hmap.
  destruct (repository_mapping_stages _ _ _ _ Hmap)
    as (m1 & m2 & g2 & m3 & g3 & H1 & H2 & H3 & ->).
  rewrite Hlegacy in H3. destruct H3 as (legacy & Hnest & ->).
  assert (Hnd2 : NoDup (dict_keys m2)).
  { assert (Hnd1 : NoDup (dict_keys m1)).
    { apply (security_stage_NoDup data _ _
               (set_fields_mapping_NoDup _ data repository_fields_NoDup) H1). }
    destruct (data_contains data "gh_pages_build_type").
    - destruct H2 as (_ & -> & _). apply dict_remove_NoDup. exact Hnd1.
    - destruct H2 as [-> _]. exact Hnd1. }
  assert (Hsource :
            dict_get m3 source_prop = None
            /\ dict_get legacy (last_segment "_" source_prop)
               = Some (Bender.S source_prop)).
  { clear H1 H2 Hmap Hlegacy.
    cbn [Repository.nest_source_properties] in Hnest.
    destruct (data_contains data "gh_pages_source_branch") eqn:Hb;
      [destruct (dict_pop m2 "gh_pages_source_branch") as [mb |] eqn:Hpb;
         [| discriminate];
       apply dict_pop_Ok in Hpb as [-> _] |];
      cbn [result_bind] in Hnest;
      (destruct (data_contains data "gh_pages_source_path") eqn:Hp;
       [match type of Hnest with
        | context [dict_pop ?m "gh_pages_source_path"] =>
            destruct (dict_pop m "gh_pages_source_path") as [mp |] eqn:Hpp;
              [| discriminate];
            apply dict_pop_Ok in Hpp as [-> _]
        end |]);
      cbn [result_bind] in Hnest; injection Hnest as <- <-;
      destruct Hprop as [<- | [<- | []]]; try congruence;
      (split; [| reflexivity]).
    - apply dict_get_remove_None, dict_get_remove_eq. exact Hnd2.
    - apply dict_get_remove_eq, dict_remove_NoDup. exact Hnd2.
    - apply dict_get_remove_eq. exact Hnd2.
    - apply dict_get_remove_eq. exact Hnd2. }
  destruct Hsource as [Hgone Hfiled].
  assert (Hlen : Nat.ltb 0 (length legacy) = true).
  { destruct legacy; [discriminate Hfiled | reflexivity]. }
  rewrite Hlen.
  assert (Hlen3 : Nat.ltb 0 (length (dict_set g2 "source" (Bender.Obj legacy)))
                  = true).
  { destruct g2 as [| [k v] g2]; [reflexivity |].
    cbn [dict_set]. destruct (String.eqb k "source"); reflexivity. }
  rewrite Hlen3. split.
  - rewrite dict_get_set_ne; [exact Hgone |].
    destruct Hprop as [<- | [<- | []]]; discriminate.
  - exists (dict_set g2 "source" (Bender.Obj legacy)), legacy.
    split; [apply dict_get_set_eq |]. split; [apply dict_get_set_eq |].
    exact Hfiled.
Qed.

Lemma repository_mapping_legacy_nests_source_witness :
  let data : gmap string value :=
    list_to_map [("gh_pages_build_type", VStr "legacy");
                 ("gh_pages_source_branch", VStr "main")] in
  let mapping :=
    [("gh_pages",
      Bender.Obj
        [("build_type", Bender.S "gh_pages_build_type");
         ("source",
          Bender.Obj [("branch", Bender.S "gh_pages_source_branch")])])] in
  dict_get mapping "gh_pages_source_branch" = None
  /\ exists gh_pages source,
       dict_get mapping "gh_pages" = Some (Bender.Obj gh_pages)
       /\ dict_get gh_pages "source" = Some (Bender.Obj source)
       /\ dict_get source (last_segment "_" "gh_pages_source_branch")
          = Some (Bender.S "gh_pages_source_branch").
Proof.
  intros data mapping.
  apply (repository_mapping_legacy_nests_source "acme" data sample_provider
           mapping "gh_pages_source_branch").
  - reflexivity.
  - simpl. tauto.
  - reflexivity.
  - vm_compute. reflexivity.
Defined.

(** ** The status of the Dependabot security updates *)

Lemma nest_security_properties_dependabot data mapping mapping' security :
  data_contains data "dependabot_security_updates_enabled" = true ->
  Repository.nest_security_properties data Repository._security_properties
    mapping [] = Ok (mapping', security) ->
  dict_get security "dependabot_security_updates"
  = Some (Bender.Obj
            [("status",
              Bender.IfEq "dependabot_security_updates_enabled" (VBool true)
                (Bender.K (VStr "enabled")) (Bender.K (VStr "disabled")))]).
Proof.
  intros Hdata. unfold Repository._security_properties.
  cbn [Repository.nest_security_properties].
  repeat (rewrite dict_pop_guarded; cbn [result_bind]). rewrite Hdata.
  destruct (data_contains data "secret_scanning"),
    (data_contains data "secret_scanning_push_protection");
    intros H; injection H as _ <-; reflexivity.
Qed.

(** X14.  The flag of the Dependabot security updates survives the way to
    the provider and back: for a repository that is not private,
    [get_mapping_to_provider] files a status under
    [security_and_analysis.dependabot_security_updates] that bends to
    ["enabled"] or ["disabled"], and [status_to_bool] of
    [get_mapping_from_provider] reads it as the boolean the data held
    (as [True] exactly when the data's value equals [True]). *)
Theorem repository_dependabot_status_round_trip
    (org_id : string) (data : gmap string value) (provider : GitHubProvider)
    (mapping : dict Bender.t) (v : value) :
  truthy (data_get data "private" (VBool false)) = false ->
  data !! "dependabot_security_updates_enabled" = Some v ->
  Repository.get_mapping_to_provider org_id data provider = Ok mapping ->
  exists security bender status,
    dict_get mapping "security_and_analysis" = Some (Bender.Obj security)
    /\ dict_get security "dependabot_security_updates"
       = Some (Bender.Obj [("status", bender)])
    /\ bend bender data = Ok (JVal status)
    /\ RepositoryProviderData.status_to_bool status
       = VBool (py_eq v (VBool true)).
Proof.
  intros Hprivate Hdata Hmap.
  destruct (repository_mapping_after_security _ _ _ _
              "security_and_analysis" Hmap) as (m1 & Hstage & ->).
  { simpl. intuition discriminate. }
  rewrite Hprivate in Hstage.
  destruct (Repository.nest_security_properties data _ _ [])
    as [[m security] |] eqn:Hnest; [| discriminate].
  cbn [result_bind] in Hstage.
  assert (Hc : data_contains data "dependabot_security_updates_enabled" = true)
    by (unfold data_contains; rewrite Hdata; reflexivity).
  pose proof (nest_security_properties_dependabot _ _ _ _ Hc Hnest) as Hsec.
  assert (Hlen : Nat.ltb 0 (length security) = true).
  { destruct security; [discriminate Hsec | reflexivity]. }
  rewrite Hlen in Hstage. injection Hstage as <-.
  exists security. eexists. exists (VStr (if py_eq v (VBool true)
                                          then "enabled" else "disabled")).
  split; [apply dict_get_set_eq |]. split; [exact Hsec |]. split.
  - cbn [bend]. rewrite Hdata. destruct (py_eq v (VBool true)); reflexivity.
  - destruct (py_eq v (VBool true)); reflexivity.
Qed.

Lemma repository_dependabot_status_round_trip_witness :
  let data : gmap string value :=
    {[ "dependabot_security_updates_enabled" := VBool true ]} in
  exists security bender status,
    dict_get
      [("security_and_analysis",
        Bender.Obj
          [("dependabot_security_updates",
            Bender.Obj
              [("status",
                Bender.IfEq "dependabot_security_updates_enabled"
                  (VBool true) (Bender.K (VStr "enabled"))
                  (Bender.K (VStr "disabled")))])])]
      "security_and_analysis" = Some (Bender.Obj security)
    /\ dict_get security "dependabot_security_updates"
       = Some (Bender.Obj [("status", bender)])
    /\ bend bender data = Ok (JVal status)
    /\ RepositoryProviderData.status_to_bool status = VBool true.
Proof.
  intros data.
  apply (repository_dependabot_status_round_trip "acme" data sample_provider
           _ (VBool true)).
  - reflexivity.
  - reflexivity.
  - vm_compute. reflexivity.
Defined.

(** ** Organization settings *)

(** X15.  While discussions are switched off for the organization, the
    source repository of the discussions takes no part in the difference
    of the settings. *)
Theorem organization_discussion_source_ignored
    (self other : OrganizationSettings.t) :
  OrganizationSettings.has_discussions self = VBool false ->
  (forall field, Field.name field = "discussion_source_repository" ->
     include_field_for_diff_computation self field = false)
  /\ get_difference_from self other !! "discussion_source_repository" = None.
Proof.
  intros Hoff.
  assert (Hexcluded :
            forall field, Field.name field = "discussion_source_repository" ->
              include_field_for_diff_computation self field = false).
  { intros field Hname. cbn.
    unfold OrganizationSettings.include_field_for_diff_computation.
    rewrite Hoff, Hname. reflexivity. }
  split; [exact Hexcluded |].
  apply get_difference_from_excluded. exact Hexcluded.
Qed.

Lemma organization_discussion_source_ignored_witness :
  let unset :=
    OrganizationSettings.mk UNSET UNSET UNSET UNSET UNSET UNSET UNSET UNSET
      UNSET UNSET UNSET UNSET UNSET UNSET UNSET UNSET UNSET UNSET UNSET UNSET
      UNSET UNSET UNSET UNSET UNSET UNSET UNSET UNSET UNSET UNSET UNSET UNSET
      UNSET UNSET in
  let self :=
    OrganizationSettings.mk UNSET UNSET UNSET UNSET UNSET UNSET UNSET UNSET
      UNSET (VBool false) (VStr "acme/discussions") UNSET UNSET UNSET UNSET
      UNSET UNSET UNSET UNSET UNSET UNSET UNSET UNSET UNSET UNSET UNSET UNSET
      UNSET UNSET UNSET UNSET UNSET UNSET UNSET in
  get_difference_from self unset !! "discussion_source_repository" = None.
Proof.
  intros unset self.
  apply (organization_discussion_source_ignored self unset). reflexivity.
Defined.

(** X16.  When [OrganizationSettings.validate] ends normally without a
    finding of type [ERROR], the settings are consistent: discussions
    come with a valid source repository, Dependabot security updates come
    with Dependabot alerts, neither comes with a disabled dependency graph,
    the two permissions that are set and valid hold one of their allowed
    values, a description that is present has at most 160 characters, and
    a source repository that is present contains a slash. *)
Theorem organization_validation_sound
    (custom : OrganizationSettings.t -> string -> Emit Failure unit)
    (is_set_and_present : value -> bool)
    (self : OrganizationSettings.t) :
  let validation :=
    OrganizationSettings.validate custom is_set_and_present self in
  outcome validation = Ok tt ->
  count_failures ERROR (emitted validation) = 0%nat ->
  (is_True (OrganizationSettings.has_discussions self) = true ->
   is_set_and_valid (OrganizationSettings.discussion_source_repository self)
   = true)
  /\ (is_True
        (OrganizationSettings.dependabot_security_updates_enabled_for_new_repositories
           self) = true ->
      is_True
        (OrganizationSettings.dependabot_alerts_enabled_for_new_repositories
           self) = true)
  /\ (is_True
        (OrganizationSettings.dependabot_alerts_enabled_for_new_repositories
           self) = true ->
      is_False
        (OrganizationSettings.dependency_graph_enabled_for_new_repositories
           self) = false)
  /\ (is_set_and_valid (OrganizationSettings.default_workflow_permissions self)
      = true ->
      in_str_list (OrganizationSettings.default_workflow_permissions self)
        ["read"; "write"] = true)
  /\ (is_set_and_valid
        (OrganizationSettings.default_repository_permission self) = true ->
      in_str_list (OrganizationSettings.default_repository_permission self)
        ["none"; "read"; "write"; "admin"] = true)
  /\ (is_set_and_present (OrganizationSettings.description self) = true ->
      exists n, py_len (OrganizationSettings.description self) = Ok n
                /\ (n <= 160)%nat)
  /\ (is_set_and_present
        (OrganizationSettings.discussion_source_repository self) = true ->
      py_contains "/" (OrganizationSettings.discussion_source_repository self)
      = Ok true).
Proof.
  intros validation Hout Hcount. subst validation.
  unfold OrganizationSettings.validate in Hout, Hcount. cbv zeta in Hout, Hcount.
  destruct (clean_bind _ _ _ Hout Hcount) as ([] & _ & _ & Hout1 & Hcount1).
  clear Hout Hcount.
  destruct (clean_bind _ _ _ Hout1 Hcount1)
    as ([] & Hdo & Hdc & Hout2 & Hcount2).
  clear Hout1 Hcount1.
  destruct (clean_bind _ _ _ Hout2 Hcount2)
    as ([] & _ & Hgc & Hout3 & Hcount3).
  clear Hout2 Hcount2.
  destruct (clean_bind _ _ _ Hout3 Hcount3)
    as ([] & _ & Hac & Hout4 & Hcount4).
  clear Hout3 Hcount3.
  destruct (clean_bind _ _ _ Hout4 Hcount4)
    as ([] & _ & Hsc & Hout5 & Hcount5).
  clear Hout4 Hcount4.
  destruct (clean_bind _ _ _ Hout5 Hcount5)
    as ([] & Hoo & Hoc & Hout6 & Hcount6).
  clear Hout5 Hcount5.
  destruct (clean_bind _ _ _ Hout6 Hcount6)
    as ([] & Hwo & Hwc & Hout7 & Hcount7).
  clear Hout6 Hcount6.
  repeat split.
  - intros Hd. rewrite Hd in Hsc. cbn [andb] in Hsc.
    destruct (is_set_and_valid _); [reflexivity |].
    exfalso. exact (error_is_counted _ Hsc).
  - intros Hs. rewrite Hs in Hac. cbn [andb] in Hac.
    destruct (is_True _); [reflexivity |].
    exfalso. exact (error_is_counted _ Hac).
  - intros Ha. rewrite Ha in Hgc. cbn [orb andb] in Hgc.
    destruct (is_False _); [| reflexivity].
    exfalso. exact (error_is_counted _ Hgc).
  - intros Hv. rewrite Hv in Hwo, Hwc.
    destruct (clean_bind _ _ _ Hwo Hwc) as (known & Hk & _ & _ & Hc).
    apply clean_lift in Hk.
    destruct known; [| exfalso; exact (error_is_counted _ Hc)].
    unfold in_str_set in Hk.
    destruct (OrganizationSettings.default_workflow_permissions self);
      try discriminate Hk; injection Hk as Hk; exact Hk.
  - intros Hv. rewrite Hv in Hout7, Hcount7.
    destruct (clean_bind _ _ _ Hout7 Hcount7) as (known & Hk & _ & _ & Hc).
    apply clean_lift in Hk.
    destruct known; [| exfalso; exact (error_is_counted _ Hc)].
    unfold in_str_set in Hk.
    destruct (OrganizationSettings.default_repository_permission self);
      try discriminate Hk; injection Hk as Hk; exact Hk.
  - intros Hp. rewrite Hp in Hdo, Hdc.
    destruct (clean_bind _ _ _ Hdo Hdc) as (too_long & Hk & _ & _ & Hc).
    apply clean_lift in Hk.
    destruct (py_len (OrganizationSettings.description self)) as [n |];
      [| discriminate Hk].
    injection Hk as Hk. exists n. split; [reflexivity |].
    destruct too_long; [exfalso; exact (error_is_counted _ Hc) |].
    apply Nat.ltb_ge in Hk. exact Hk.
  - intros Hp. rewrite Hp in Hoo, Hoc.
    destruct (clean_bind _ _ _ Hoo Hoc) as (no_owner & Hk & _ & _ & Hc).
    apply clean_lift in Hk.
    destruct (py_contains "/"
                (OrganizationSettings.discussion_source_repository self))
      as [found |]; [| discriminate Hk].
    injection Hk as Hk.
    destruct no_owner; [exfalso; exact (error_is_counted _ Hc) |].
    destruct found; [reflexivity | discriminate Hk].
Qed.

Lemma organization_validation_sound_witness :
  let self :=
    OrganizationSettings.mk UNSET UNSET (VStr "Acme Corporation") UNSET UNSET
      UNSET UNSET UNSET UNSET (VBool true) (VStr "acme/discussions") UNSET
      UNSET UNSET (VStr "read") UNSET UNSET (VBool true) (VBool true)
      (VBool true) UNSET UNSET UNSET UNSET UNSET UNSET UNSET UNSET UNSET UNSET
      UNSET UNSET (VStr "write") UNSET in
  is_set_and_valid (OrganizationSettings.discussion_source_repository self)
  = true
  /\ py_contains "/" (OrganizationSettings.discussion_source_repository self)
     = Ok true.
Proof.
  intros self.
  destruct (organization_validation_sound (fun _ _ => emit_ret tt)
              is_set_and_valid self)
    as (Hsource & _ & _ & _ & _ & _ & Hslash).
  - reflexivity.
  - reflexivity.
  - split; [apply Hsource | apply Hslash]; reflexivity.
Defined.

(** The description is measured in characters: one of 81 characters
    that take 162 bytes is accepted. *)
Example organization_description_counts_characters :
  let self :=
    OrganizationSettings.mk UNSET UNSET
      (VStr ("ééééééééééééééééééééééééééé"
             +:+ "ééééééééééééééééééééééééééé"
             +:+ "ééééééééééééééééééééééééééé"))
      UNSET UNSET UNSET UNSET UNSET UNSET UNSET UNSET UNSET UNSET UNSET UNSET
      UNSET UNSET UNSET UNSET UNSET UNSET UNSET UNSET UNSET UNSET UNSET UNSET
      UNSET UNSET UNSET UNSET UNSET UNSET UNSET in
  py_len (OrganizationSettings.description self) = Ok 81%nat
  /\ OrganizationSettings.validate (fun _ _ => emit_ret tt) is_set_and_valid
       self
     = ([], Ok tt).
Proof. vm_compute. split; reflexivity. Qed.

(** X17.  [OrganizationSettings.validate] adds findings of type [ERROR]
    only: what it hands over consists of the findings of the custom
    validation followed by errors. *)
Theorem organization_findings_are_errors
    (custom : OrganizationSettings.t -> string -> Emit Failure unit)
    (is_set_and_present : value -> bool)
    (self : OrganizationSettings.t) :
  exists own,
    emitted (OrganizationSettings.validate custom is_set_and_present self)
    = emitted (custom self "validate-org-settings.py") ++ own
    /\ Forall (fun finding => fst finding = ERROR) own.
Proof.
  unfold OrganizationSettings.validate. cbv zeta.
  rewrite emitted_bind. eexists. split; [reflexivity |].
  destruct (outcome (custom self "validate-org-settings.py"));
    [| constructor].
  repeat (apply Forall_emitted_bind; [| intros ? _]);
    repeat match goal with
           | |- Forall _ (emitted (if ?c then _ else _)) => destruct c
           | |- Forall _ (emitted (emit_bind _ _)) =>
               apply Forall_emitted_bind; [| intros ? _]
           end;
    repeat constructor.
Qed.

(** ** The payload of the organization settings *)

Lemma bend_selectors data (keys : list string) :
  (forall k, In k keys -> is_Some (data !! k)) ->
  bend (Bender.Obj (map (fun k => (k, Bender.S k)) keys)) data
  = Ok (JObj (map (fun k => (k, JVal (data_get data k UNSET))) keys)).
Proof.
  induction keys as [| k keys IH]; intros Hkeys; [reflexivity |].
  assert (IH' := IH (fun k' Hk' => Hkeys k' (or_intror Hk'))). clear IH.
  destruct (Hkeys k (or_introl eq_refl)) as [v Hv].
  cbn [bend map] in IH' |- *. rewrite Hv.
  match type of IH' with
  | match ?entries with _ => _ end = _ =>
      destruct entries as [js |] eqn:Hentries; [| discriminate IH']
  end.
  injection IH' as ->.
  replace (data_get data k UNSET) with v
    by (unfold data_get; rewrite Hv; reflexivity).
  reflexivity.
Qed.

(** X18.  [OrganizationSettings._to_provider_data] never raises, and its
    payload has an entry exactly for what the data sets: each entry is the
    data's value of that key, which is not the unset sentinel, and neither
    of the read-only fields [plan] and [two_factor_requirement] is sent. *)
Theorem organization_payload_holds_set_fields
    (org_id : string) (data : gmap string value) :
  exists entries,
    OrganizationSettings._to_provider_data org_id data = Ok (JObj entries)
    /\ forall k j,
         In (k, j) entries ->
         exists v, j = JVal v /\ data !! k = Some v /\ v <> UNSET
                   /\ k <> "plan" /\ k <> "two_factor_requirement".
Proof.
  unfold OrganizationSettings._to_provider_data, bend_mapping. cbv zeta.
  set (sent := List.filter
                 (fun f => negb (is_unset (data_get data (Field.name f) UNSET)))
                 (provider_fields OrganizationSettings.fields)).
  assert (Hmapping : set_fields_mapping OrganizationSettings.fields data
                     = map (fun k => (k, Bender.S k)) (map Field.name sent)).
  { unfold set_fields_mapping. rewrite map_map. reflexivity. }
  assert (Hsent : forall k, In k (map Field.name sent) ->
            exists v, data !! k = Some v /\ v <> UNSET
                      /\ k <> "plan" /\ k <> "two_factor_requirement").
  { intros k Hk. apply in_map_iff in Hk as (f & <- & Hf).
    apply filter_In in Hf as [Hf Hset].
    unfold data_get in Hset.
    destruct (data !! Field.name f) as [v |]; [| discriminate Hset].
    exists v. split; [reflexivity |].
    split; [intros ->; discriminate Hset |].
    apply (in_map Field.name) in Hf.
    split; intros Heq; rewrite Heq in Hf; vm_compute in Hf;
      intuition discriminate. }
  rewrite Hmapping, bend_selectors.
  - eexists. split; [reflexivity |].
    intros k j Hin. apply in_map_iff in Hin as (k' & [= <- <-] & Hk).
    destruct (Hsent _ Hk) as (v & Hv & Hset & Hplan & Htwo).
    exists v. unfold data_get. rewrite Hv. auto.
  - intros k Hk. destruct (Hsent _ Hk) as (v & Hv & _). eexists. exact Hv.
Qed.

(** ** The validation of a repository *)

Lemma In_emitted_bind_left {O A B} (m : Emit O A) (f : A -> Emit O B) (x : O) :
  In x (emitted m) -> In x (emitted (emit_bind m f)).
Proof. intros Hin. rewrite emitted_bind. apply in_or_app. left. exact Hin. Qed.

Lemma In_emitted_bind_right {O A B} (m : Emit O A) (f : A -> Emit O B) (x : O)
    (b : B) :
  outcome (emit_bind m f) = Ok b ->
  (forall a, outcome m = Ok a -> outcome (f a) = Ok b -> In x (emitted (f a))) ->
  In x (emitted (emit_bind m f)).
Proof.
  rewrite outcome_bind, emitted_bind.
  destruct (outcome m) as [a | e]; [| discriminate].
  intros Hout Hin. apply in_or_app. right. exact (Hin a eq_refl Hout).
Qed.

Lemma validate_each_includes {X} (validate : X -> Emit Failure unit)
    (xs : list X) (x : X) (finding : Failure) :
  outcome (RepositoryValidation.validate_each validate xs) = Ok tt ->
  In x xs -> In finding (emitted (validate x)) ->
  In finding (emitted (RepositoryValidation.validate_each validate xs)).
Proof.
  induction xs as [| y xs IH]; intros Hout Hx Hf; [destruct Hx |].
  cbn [RepositoryValidation.validate_each] in Hout |- *.
  destruct Hx as [-> | Hx].
  - apply In_emitted_bind_left. exact Hf.
  - apply (In_emitted_bind_right _ _ _ tt Hout).
    intros [] _ Hrest. apply IH; assumption.
Qed.

(** X19.  When [Repository.validate] ends normally, what it hands over
    includes every finding of the validation of each environment of the
    repository. *)
Theorem repository_validation_includes_environments
    (nested_validate : Nested.t -> Repository.t -> Emit Failure unit)
    (is_set_and_present : value -> bool)
    (self : Repository.t) (parent_object : GitHubOrganization)
    (env : Environment.t) (finding : Failure) :
  outcome (RepositoryValidation.validate nested_validate is_set_and_present
             self parent_object) = Ok tt ->
  In env (Repository.environments self) ->
  In finding (emitted (Environment.validate env)) ->
  In finding
    (emitted (RepositoryValidation.validate nested_validate is_set_and_present
                self parent_object)).
Proof.
  intros Hout Henv Hfinding.
  unfold RepositoryValidation.validate in Hout |- *. cbv zeta in Hout |- *.
  do 14 (apply (In_emitted_bind_right _ _ _ tt Hout);
         clear Hout; intros [] _ Hout).
  apply (validate_each_includes _ _ env); assumption.
Qed.

Lemma repository_validation_includes_environments_witness :
  let env :=
    Environment.mk UNSET UNSET "production" (VInt (-1)) UNSET UNSET UNSET in
  let self := Repository.set_environments (Repository.named "web") [env] in
  let organization :=
    {| github_id := "acme";
       settings :=
         OrganizationSettings.mk UNSET UNSET UNSET UNSET UNSET UNSET UNSET
           UNSET UNSET UNSET UNSET UNSET UNSET UNSET UNSET UNSET UNSET UNSET
           UNSET UNSET UNSET UNSET UNSET UNSET UNSET UNSET UNSET UNSET UNSET
           UNSET UNSET UNSET UNSET UNSET |} in
  In (ERROR, "has 'wait_timer' outside of supported range (0, 43200).")
    (emitted (RepositoryValidation.validate (fun _ _ => emit_ret tt)
                is_set_and_valid self organization)).
Proof.
  intros env self organization.
  apply (repository_validation_includes_environments (fun _ _ => emit_ret tt)
           is_set_and_valid self organization env).
  - reflexivity.
  - left. reflexivity.
  - left. reflexivity.
Defined.

(** X20.  When [Repository.validate] ends normally for a repository
    without a ["github-pages"] environment, it warns about the missing
    environment if the repository hosts the organization site, and also if
    it is another repository whose GitHub Pages build type is ["legacy"] or
    ["workflow"]. *)
Theorem repository_validation_warns_missing_pages_environment
    (nested_validate : Nested.t -> Repository.t -> Emit Failure unit)
    (is_set_and_present : value -> bool)
    (self : Repository.t) (parent_object : GitHubOrganization) :
  let validation :=
    RepositoryValidation.validate nested_validate is_set_and_present self
      parent_object in
  let hosts_site :=
    String.eqb (lower (Repository.name self))
      (lower (github_id parent_object +:+ ".github.io")) in
  outcome validation = Ok tt ->
  RepositoryValidation.no_github_pages_environment self = true ->
  (hosts_site = true ->
   In (WARNING, RepositoryValidation.site_without_environment)
     (emitted validation))
  /\ (hosts_site = false ->
      Repository.gh_pages_build_type self = VStr "legacy"
      \/ Repository.gh_pages_build_type self = VStr "workflow" ->
      In (WARNING, RepositoryValidation.pages_without_environment)
        (emitted validation)).
Proof.
  intros validation hosts_site Hout Hnone. subst validation hosts_site.
  unfold RepositoryValidation.validate in Hout |- *. cbv zeta in Hout |- *.
  split.
  - intros Hsite.
    do 10 (apply (In_emitted_bind_right _ _ _ tt Hout);
           clear Hout; intros [] _ Hout).
    apply In_emitted_bind_left. rewrite Hsite, Hnone.
    rewrite emitted_bind.
    apply in_or_app. right.
    destruct (py_eq _ _); left; reflexivity.
  - intros Hsite Hbuild.
    do 10 (apply (In_emitted_bind_right _ _ _ tt Hout);
           clear Hout; intros [] _ Hout).
    apply In_emitted_bind_left. rewrite Hsite, Hnone.
    destruct Hbuild as [-> | ->]; vm_compute; left; reflexivity.
Qed.

Lemma repository_validation_warns_missing_pages_environment_witness :
  let organization :=
    {| github_id := "acme";
       settings :=
         OrganizationSettings.mk UNSET UNSET UNSET UNSET UNSET UNSET UNSET
           UNSET UNSET UNSET UNSET UNSET UNSET UNSET UNSET UNSET UNSET UNSET
           UNSET UNSET UNSET UNSET UNSET UNSET UNSET UNSET UNSET UNSET UNSET
           UNSET UNSET UNSET UNSET UNSET |} in
  In (WARNING, RepositoryValidation.site_without_environment)
    (emitted (RepositoryValidation.validate (fun _ _ => emit_ret tt)
                is_set_and_valid (Repository.named "Acme.github.io")
                organization))
  /\ In (WARNING, RepositoryValidation.pages_without_environment)
       (emitted (RepositoryValidation.validate (fun _ _ => emit_ret tt)
                   is_set_and_valid
                   (Repository.setattr (Repository.named "web")
                      "gh_pages_build_type" (VStr "workflow"))
                   organization)).
Proof.
  intros organization. split.
  - apply (repository_validation_warns_missing_pages_environment
             (fun _ _ => emit_ret tt) is_set_and_valid
             (Repository.named "Acme.github.io") organization);
      reflexivity.
  - apply (repository_validation_warns_missing_pages_environment
             (fun _ _ => emit_ret tt) is_set_and_valid
             (Repository.setattr (Repository.named "web")
                "gh_pages_build_type" (VStr "workflow")) organization);
      try reflexivity.
    right. reflexivity.
Defined.

Lemma no_error_guard (c : bool) (msg : string) :
  count_failures ERROR
    (emitted (if c then add_failure ERROR msg else emit_ret tt)) = 0%nat ->
  c = false.
Proof.
  destruct c; [| reflexivity].
  intros H. exfalso. exact (error_is_counted _ H).
Qed.

Lemma validate_each_clean {X} (validate : X -> Emit Failure unit)
    (xs : list X) :
  outcome (RepositoryValidation.validate_each validate xs) = Ok tt ->
  count_failures ERROR
    (emitted (RepositoryValidation.validate_each validate xs)) = 0%nat ->
  forall x, In x xs ->
    outcome (validate x) = Ok tt
    /\ count_failures ERROR (emitted (validate x)) = 0%nat.
Proof.
  induction xs as [| y xs IH]; intros Hout Hcount x Hx; [destruct Hx |].
  cbn [RepositoryValidation.validate_each] in Hout, Hcount.
  destruct (clean_bind _ _ _ Hout Hcount) as ([] & Hy & Hyc & Hrest & Hrestc).
  destruct Hx as [<- | Hx]; [split; assumption |].
  apply IH; assumption.
Qed.

(** X21.  When [Repository.validate] ends normally without a finding of
    type [ERROR], the repository is consistent with its organization: a
    description that is present has at most 350 characters; the repository
    does not switch off discussions while being their source; a private
    repository does not allow forking against the organization; it does
    not switch off the sign-off that the organization requires; secret
    scanning is not disabled under an enabled push protection, unless the
    repository is archived; the site repository does not disable GitHub
    Pages, and a build type of another repository that is set and valid
    is one of the three build types; and the validation of each of its
    environments ends normally without an error. *)
Theorem repository_validation_sound
    (nested_validate : Nested.t -> Repository.t -> Emit Failure unit)
    (is_set_and_present : value -> bool)
    (self : Repository.t) (parent_object : GitHubOrganization) :
  let validation :=
    RepositoryValidation.validate nested_validate is_set_and_present self
      parent_object in
  let org_settings := settings parent_object in
  outcome validation = Ok tt ->
  count_failures ERROR (emitted validation) = 0%nat ->
  (is_set_and_present (Repository.description self) = true ->
   exists n, py_len (Repository.description self) = Ok n /\ (n <= 350)%nat)
  /\ is_False (Repository.has_discussions self)
     && (is_True (OrganizationSettings.has_discussions org_settings)
         && py_eq (OrganizationSettings.discussion_source_repository
                     org_settings)
              (VStr (github_id parent_object +:+ "/"
                     +:+ Repository.name self))) = false
  /\ is_True (Repository.private self)
     && is_False
          (OrganizationSettings.members_can_fork_private_repositories
             org_settings)
     && is_True (Repository.allow_forking self) = false
  /\ is_False (Repository.web_commit_signoff_required self)
     && is_True (OrganizationSettings.web_commit_signoff_required org_settings)
     = false
  /\ py_eq (Repository.secret_scanning self) (VStr "disabled")
     && py_eq (Repository.secret_scanning_push_protection self)
          (VStr "enabled")
     && is_False (Repository.archived self) = false
  /\ (if String.eqb (lower (Repository.name self))
           (lower (github_id parent_object +:+ ".github.io"))
      then py_eq (Repository.gh_pages_build_type self) (VStr "disabled")
           = false
      else is_set_and_valid (Repository.gh_pages_build_type self) = true ->
           in_str_list (Repository.gh_pages_build_type self)
             ["disabled"; "legacy"; "workflow"] = true)
  /\ (forall env, In env (Repository.environments self) ->
        outcome (Environment.validate env) = Ok tt
        /\ count_failures ERROR (emitted (Environment.validate env)) = 0%nat).
Proof.
  intros validation org_settings Hout Hcount. subst validation org_settings.
  unfold RepositoryValidation.validate in Hout, Hcount.
  cbv zeta in Hout, Hcount.
  destruct (clean_bind _ _ _ Hout Hcount) as ([] & Hdo & Hdc & Ho & Hc).
  clear Hout Hcount.
  destruct (clean_bind _ _ _ Ho Hc) as ([] & _ & _ & Ho1 & Hc1). clear Ho Hc.
  destruct (clean_bind _ _ _ Ho1 Hc1) as ([] & _ & _ & Ho & Hc). clear Ho1 Hc1.
  destruct (clean_bind _ _ _ Ho Hc) as ([] & _ & Hdisc & Ho1 & Hc1).
  clear Ho Hc.
  destruct (clean_bind _ _ _ Ho1 Hc1) as ([] & _ & _ & Ho & Hc). clear Ho1 Hc1.
  destruct (clean_bind _ _ _ Ho Hc) as ([] & _ & Hfork & Ho1 & Hc1).
  clear Ho Hc.
  destruct (clean_bind _ _ _ Ho1 Hc1) as ([] & _ & Hsign & Ho & Hc).
  clear Ho1 Hc1.
  destruct (clean_bind _ _ _ Ho Hc) as ([] & _ & Hscan & Ho1 & Hc1).
  clear Ho Hc.
  destruct (clean_bind _ _ _ Ho1 Hc1) as ([] & _ & _ & Ho & Hc). clear Ho1 Hc1.
  destruct (clean_bind _ _ _ Ho Hc) as ([] & _ & _ & Ho1 & Hc1). clear Ho Hc.
  destruct (clean_bind _ _ _ Ho1 Hc1) as ([] & Hpo & Hpc & Ho & Hc).
  clear Ho1 Hc1.
  destruct (clean_bind _ _ _ Ho Hc) as ([] & _ & _ & Ho1 & Hc1). clear Ho Hc.
  destruct (clean_bind _ _ _ Ho1 Hc1) as ([] & _ & _ & Ho & Hc). clear Ho1 Hc1.
  destruct (clean_bind _ _ _ Ho Hc) as ([] & _ & _ & Ho1 & Hc1). clear Ho Hc.
  split; [| split; [| split; [| split; [| split; [| split]]]]].
  - intros Hp. rewrite Hp in Hdo, Hdc.
    destruct (clean_bind _ _ _ Hdo Hdc) as (too_long & Hk & _ & _ & Hc).
    apply clean_lift in Hk.
    destruct (py_len (Repository.description self)) as [n |];
      [| discriminate Hk].
    injection Hk as Hk. exists n. split; [reflexivity |].
    destruct too_long; [exfalso; exact (error_is_counted _ Hc) |].
    apply Nat.ltb_ge in Hk. exact Hk.
  - exact (no_error_guard _ _ Hdisc).
  - exact (no_error_guard _ _ Hfork).
  - exact (no_error_guard _ _ Hsign).
  - exact (no_error_guard _ _ Hscan).
  - destruct (String.eqb _ _).
    + destruct (clean_bind _ _ _ Hpo Hpc) as ([] & _ & Hc & _).
      exact (no_error_guard _ _ Hc).
    + intros Hvalid. rewrite Hvalid in Hpo, Hpc.
      destruct (clean_bind _ _ _ Hpo Hpc) as ([] & Hko & Hkc & _).
      destruct (clean_bind _ _ _ Hko Hkc) as (known & Hk & _ & _ & Hc).
      apply clean_lift in Hk.
      destruct known; [| exfalso; exact (error_is_counted _ Hc)].
      unfold in_str_set in Hk.
      destruct (Repository.gh_pages_build_type self);
        try discriminate Hk; injection Hk as Hk; exact Hk.
  - exact (validate_each_clean _ _ Ho1 Hc1).
Qed.

Lemma repository_validation_sound_witness :
  let organization :=
    {| github_id := "acme";
       settings :=
         OrganizationSettings.mk UNSET UNSET UNSET UNSET UNSET UNSET UNSET
           UNSET UNSET UNSET UNSET UNSET UNSET UNSET UNSET UNSET
           (VBool true) UNSET UNSET UNSET UNSET UNSET UNSET UNSET UNSET UNSET
           UNSET UNSET UNSET UNSET UNSET UNSET UNSET UNSET |} in
  let self :=
    Repository.set_environments
      (Repository.setattr (Repository.named "web")
         "web_commit_signoff_required" (VBool true))
      [sample_environment "production"] in
  is_False (Repository.web_commit_signoff_required self)
  && is_True
       (OrganizationSettings.web_commit_signoff_required
          (settings organization)) = false
  /\ (forall env, In env (Repository.environments self) ->
        outcome (Environment.validate env) = Ok tt
        /\ count_failures ERROR (emitted (Environment.validate env)) = 0%nat).
Proof.
  intros organization self.
  destruct (repository_validation_sound (fun _ _ => emit_ret tt)
              is_set_and_valid self organization)
    as (_ & _ & _ & Hsign & _ & _ & Henvs).
  - reflexivity.
  - reflexivity.
  - split; [exact Hsign | exact Henvs].
Defined.

(** The description of a repository is measured in characters as well:
    176 characters that take 352 bytes are accepted. *)
Example repository_description_counts_characters :
  let organization :=
    {| github_id := "acme";
       settings :=
         OrganizationSettings.mk UNSET UNSET UNSET UNSET UNSET UNSET UNSET
           UNSET UNSET UNSET UNSET UNSET UNSET UNSET UNSET UNSET UNSET UNSET
           UNSET UNSET UNSET UNSET UNSET UNSET UNSET UNSET UNSET UNSET UNSET
           UNSET UNSET UNSET UNSET UNSET |} in
  let self :=
    Repository.setattr (Repository.named "web") "description"
      (VStr ("éééééééééééééééééééééééééééééééééééééééééééé"
             +:+ "éééééééééééééééééééééééééééééééééééééééééééé"
             +:+ "éééééééééééééééééééééééééééééééééééééééééééé"
             +:+ "éééééééééééééééééééééééééééééééééééééééééééé")) in
  let validation :=
    RepositoryValidation.validate (fun _ _ => emit_ret tt) is_set_and_valid
      self organization in
  py_len (Repository.description self) = Ok 176%nat
  /\ outcome validation = Ok tt
  /\ count_failures ERROR (emitted validation) = 0%nat.
Proof. vm_compute. repeat split. Qed.

(** ** The validation of the organization workflow settings *)

(** X22.  For organization workflow settings whose [enabled_repositories]
    is a string other than ["selected"] and whose [selected_repositories]
    is a list that is not empty, [validate], provided the validation of
    the base class ends normally, ends normally with the warning that the
    selection is ignored, and the selection is no field of the difference
    computation. *)
Theorem org_workflow_selection_ignored
    (WorkflowSettings : Type)
    (super_validate : WorkflowSettings -> Emit Failure unit)
    (super_include : WorkflowSettings -> Field.t -> bool)
    (self : OrganizationWorkflowSettings.t WorkflowSettings)
    (enabled : string) (r : string) (rs : list string) (field : Field.t) :
  OrganizationWorkflowSettings.enabled_repositories self = VStr enabled ->
  enabled <> "selected" ->
  OrganizationWorkflowSettings.selected_repositories self = VList (r :: rs) ->
  outcome (super_validate (OrganizationWorkflowSettings.base self)) = Ok tt ->
  Field.name field = "selected_repositories" ->
  outcome (OrganizationWorkflowSettingsValidation.validate super_validate self)
  = Ok tt
  /\ In (WARNING, OrganizationWorkflowSettingsValidation.selection_ignored)
       (emitted (OrganizationWorkflowSettingsValidation.validate
                   super_validate self))
  /\ OrganizationWorkflowSettings.include_field_for_diff_computation
       super_include self field = false.
Proof.
  intros Henabled Hne Hselected Hsuper Hname.
  assert (Hpy : py_eq (VStr enabled) (VStr "selected") = false).
  { apply bool_decide_eq_false_2. intros [= ->]. contradiction. }
  unfold OrganizationWorkflowSettingsValidation.validate. cbv zeta.
  rewrite Henabled, Hselected.
  change (is_set_and_valid (VStr enabled)) with true. cbv iota.
  unfold py_ne. rewrite Hpy.
  change (in_str_set (VStr enabled) ["all"; "none"; "selected"])
    with (Ok (in_str_list (VStr enabled) ["all"; "none"; "selected"])).
  split; [| split].
  - rewrite outcome_bind, Hsuper.
    destruct (in_str_list _ _); reflexivity.
  - rewrite emitted_bind, Hsuper. apply in_or_app. right.
    destruct (in_str_list _ _); [left | right; left]; reflexivity.
  - unfold OrganizationWorkflowSettings.include_field_for_diff_computation.
    rewrite Henabled, Hname, Hpy.
    destruct (py_eq (VStr enabled) (VStr "none")); reflexivity.
Qed.

Lemma org_workflow_selection_ignored_witness :
  let self :=
    OrganizationWorkflowSettings.mk unit tt (VStr "all") (VList ["web"]) in
  outcome (OrganizationWorkflowSettingsValidation.validate
             (fun _ => emit_ret tt) self) = Ok tt
  /\ In (WARNING, OrganizationWorkflowSettingsValidation.selection_ignored)
       (emitted (OrganizationWorkflowSettingsValidation.validate
                   (fun _ => emit_ret tt) self))
  /\ OrganizationWorkflowSettings.include_field_for_diff_computation
       (fun _ _ => true) self (Field.plain "selected_repositories") = false.
Proof.
  intros self.
  apply (org_workflow_selection_ignored unit (fun _ => emit_ret tt)
           (fun _ _ => true) self "all" "web" []).
  - reflexivity.
  - discriminate.
  - reflexivity.
  - reflexivity.
  - reflexivity.
Defined.

(** ** The branch protection rules of an archived repository *)

Lemma nested_patch_subjects (Q : Nested.t -> Prop)
    (expected current : option Nested.t) (parent : option Model) :
  (forall n, expected = Some n -> Q n) ->
  (forall n, current = Some n -> Q n) ->
  Forall (fun p => exists n, patch_subject p = Some (MNested n) /\ Q n)
    (emitted (NestedPatch.generate_live_patch expected current parent)).
Proof.
  intros He Hc. unfold NestedPatch.generate_live_patch.
  destruct current as [c |], expected as [e |].
  - destruct (Nat.ltb 0 _); repeat constructor.
    exists c. split; [reflexivity | apply Hc; reflexivity].
  - repeat constructor. exists c. split; [reflexivity | apply Hc; reflexivity].
  - repeat constructor. exists e. split; [reflexivity | apply He; reflexivity].
  - constructor.
Qed.

Lemma nested_for_current_subjects (Q : Nested.t -> Prop)
    (parent : option Model) (current : list Nested.t) :
  forall by_key : dict Nested.t,
    (forall k n, In (k, n) by_key -> Q n) ->
    (forall c, In c current -> Q c) ->
    Forall (fun p => exists n, patch_subject p = Some (MNested n) /\ Q n)
      (emitted (NestedPatch.for_current current by_key parent))
    /\ forall remaining,
         outcome (NestedPatch.for_current current by_key parent)
         = Ok remaining ->
         forall k n, In (k, n) remaining -> Q n.
Proof.
  induction current as [| c rest IH]; intros by_key Hkey Hcur.
  - split; [constructor |]. intros remaining [= <-]. exact Hkey.
  - cbn [NestedPatch.for_current].
    assert (Hrest : forall c', In c' rest -> Q c')
      by (intros c' Hc'; apply Hcur; right; exact Hc').
    destruct (dict_get by_key (Nested.key c)) as [e |] eqn:Hget.
    + assert (Hstep : outcome (NestedPatch.generate_live_patch (Some e)
                                 (Some c) parent) = Ok tt).
      { unfold NestedPatch.generate_live_patch.
        destruct (Nat.ltb 0 _); reflexivity. }
      assert (Hremoved : forall k n,
                In (k, n) (dict_remove by_key (Nested.key c)) -> Q n).
      { intros k n Hin. apply (Hkey k). eapply dict_remove_In. exact Hin. }
      destruct (IH _ Hremoved Hrest) as [Hall Hout].
      rewrite (dict_pop_Some _ _ _ Hget), emit_bind_lift_Ok. split.
      * apply Forall_emitted_bind; [| intros _ _; exact Hall].
        apply nested_patch_subjects.
        -- intros n [= <-]. apply (Hkey (Nested.key c)).
           apply dict_get_Some_In. exact Hget.
        -- intros n [= <-]. apply Hcur. left. reflexivity.
      * intros remaining. rewrite outcome_bind, Hstep. apply Hout.
    + assert (Hstep : outcome (NestedPatch.generate_live_patch None (Some c)
                                 parent) = Ok tt) by reflexivity.
      destruct (IH _ Hkey Hrest) as [Hall Hout]. split.
      * apply Forall_emitted_bind; [| intros _ _; exact Hall].
        apply nested_patch_subjects.
        -- intros n [=].
        -- intros n [= <-]. apply Hcur. left. reflexivity.
      * intros remaining. rewrite outcome_bind, Hstep. apply Hout.
Qed.

(** Every patch of the reconciliation of two lists of nested entities is
    about an entity of one of the two lists. *)
Lemma nested_list_subjects (expected current : list Nested.t)
    (parent : option Model) :
  Forall (fun p => exists n, patch_subject p = Some (MNested n)
                             /\ (In n expected \/ In n current))
    (emitted (NestedPatch.generate_live_patch_of_list expected current parent)).
Proof.
  unfold NestedPatch.generate_live_patch_of_list.
  apply Forall_emitted_bind; [constructor |]. intros by_key Hassoc.
  apply clean_lift in Hassoc.
  destruct (nested_for_current_subjects
              (fun n => In n expected \/ In n current) parent current by_key)
    as [Hall Hout].
  { intros k n Hin. left.
    destruct (associate_by_key_In _ _ _ _ _ _ Hassoc Hin) as [[] | [Hn _]].
    exact Hn. }
  { intros c Hc. right. exact Hc. }
  apply Forall_emitted_bind; [exact Hall |]. intros remaining Hrem.
  rewrite nested_for_remaining_spec. unfold emitted. cbn [fst].
  apply Forall_forall. intros p Hp. apply list_elem_of_In in Hp.
  apply in_map_iff in Hp as ([k n] & <- & Hin).
  exists n. split; [reflexivity |]. exact (Hout remaining Hrem k n Hin).
Qed.

Lemma environment_patch_subjects expected current parent context :
  Forall (fun p => exists e, patch_subject p = Some (MEnvironment e))
    (emitted (EnvironmentPatch.generate_live_patch expected current parent
                context)).
Proof.
  unfold EnvironmentPatch.generate_live_patch.
  destruct current as [c |], expected as [e |];
    try destruct (Nat.ltb 0 _); repeat constructor; eexists; reflexivity.
Qed.

(** Every patch of the reconciliation of two lists of environments is
    about an environment. *)
Lemma environment_list_subjects expected current parent context :
  Forall (fun p => exists e, patch_subject p = Some (MEnvironment e))
    (emitted (EnvironmentPatch.generate_live_patch_of_list expected current
                parent context)).
Proof.
  unfold EnvironmentPatch.generate_live_patch_of_list.
  apply Forall_emitted_bind; [constructor |]. intros by_name _.
  destruct parent as [[parent | |] |]; try constructor.
  apply Forall_emitted_bind.
  - clear expected. revert by_name.
    induction current as [| c rest IH]; intros by_name;
      cbn [EnvironmentPatch.for_current_environments]; [constructor |].
    destruct (dict_get by_name (Environment.name c)) as [e |].
    + apply Forall_emitted_bind; [apply environment_patch_subjects |].
      intros _ _.
      apply Forall_emitted_bind; [constructor |]. intros remaining _.
      apply IH.
    + apply Forall_emitted_bind; [| intros _ _; apply IH].
      destruct (EnvironmentPatch.keeps_github_pages parent context c);
        [constructor | apply environment_patch_subjects].
  - intros remaining _. rewrite for_remaining_environments_spec.
    unfold emitted. cbn [fst].
    apply Forall_forall. intros p Hp. apply list_elem_of_In in Hp.
    apply in_map_iff in Hp as ([k e] & <- & _). eexists. reflexivity.
Qed.

Lemma override_current_entities context current :
  entities_besides_rules (RepositoryPatch.override_current context current)
  = entities_besides_rules current.
Proof.
  unfold RepositoryPatch.override_current.
  destruct (modified_org_settings context !! "web_commit_signoff_required")
    as [change |]; [| reflexivity].
  destruct (is_True (to_value change)); reflexivity.
Qed.

Lemma generate_nested_patches_subjects expected current context p n :
  is_False (Repository.archived expected) = false ->
  In p (emitted (RepositoryPatch.generate_nested_patches expected current
                   context)) ->
  patch_subject p = Some (MNested n) ->
  In n (entities_besides_rules expected)
  \/ exists c, current = Some c /\ In n (entities_besides_rules c).
Proof.
  intros Harchived. unfold RepositoryPatch.generate_nested_patches.
  cbv zeta. rewrite Harchived.
  set (parent := Some (MRepository _)).
  unfold entities_besides_rules.
  rewrite emitted_bind. intros Hin Hsubject.
  apply in_app_or in Hin as [Hin | Hin].
  { destruct (Repository.workflows expected) as [ew |] eqn:Hew;
      [| destruct Hin].
    destruct current as [c |]; [| destruct Hin].
    pose proof (nested_patch_subjects
                  (fun n => Some ew = Some n \/ Repository.workflows c = Some n)
                  (Some ew) (Repository.workflows c) parent
                  (fun n H => or_introl H) (fun n H => or_intror H)) as Hall.
    rewrite Forall_forall in Hall.
    destruct (Hall p (proj2 (list_elem_of_In _ _) Hin)) as (n' & Hs & Hn').
    rewrite Hsubject in Hs. injection Hs as <-.
    destruct Hn' as [[= <-] | Hcw].
    - left. apply in_or_app. right. apply in_or_app. right. left. reflexivity.
    - right. exists c. split; [reflexivity |].
      rewrite Hcw. apply in_or_app. right. apply in_or_app. right.
      left. reflexivity. }
  destruct (outcome _); [| destruct Hin].
  rewrite emitted_bind in Hin. apply in_app_or in Hin as [Hin | Hin].
  { pose proof (nested_list_subjects (Repository.webhooks expected)
                  (match current with
                   | Some c => Repository.webhooks c
                   | None => []
                   end) parent) as Hall.
    rewrite Forall_forall in Hall.
    destruct (Hall p (proj2 (list_elem_of_In _ _) Hin)) as (n' & Hs & Hn').
    rewrite Hsubject in Hs. injection Hs as <-.
    destruct Hn' as [He | Hc].
    - left. apply in_or_app. left. exact He.
    - destruct current as [c |]; [| destruct Hc].
      right. exists c. split; [reflexivity |]. apply in_or_app. left. exact Hc. }
  destruct (outcome _); [| destruct Hin].
  rewrite emitted_bind in Hin. apply in_app_or in Hin as [Hin | Hin].
  { pose proof (nested_list_subjects (Repository.secrets expected)
                  (match current with
                   | Some c => Repository.secrets c
                   | None => []
                   end) parent) as Hall.
    rewrite Forall_forall in Hall.
    destruct (Hall p (proj2 (list_elem_of_In _ _) Hin)) as (n' & Hs & Hn').
    rewrite Hsubject in Hs. injection Hs as <-.
    destruct Hn' as [He | Hc].
    - left. apply in_or_app. right. apply in_or_app. left. exact He.
    - destruct current as [c |]; [| destruct Hc].
      right. exists c. split; [reflexivity |].
      apply in_or_app. right. apply in_or_app. left. exact Hc. }
  destruct (outcome _); [| destruct Hin].
  rewrite emitted_bind in Hin. apply in_app_or in Hin as [Hin | Hin].
  { exfalso.
    match type of Hin with
    | In _ (emitted (EnvironmentPatch.generate_live_patch_of_list ?e ?c ?q ?x))
      => pose proof (environment_list_subjects e c q x) as Hall
    end.
    rewrite Forall_forall in Hall.
    destruct (Hall p (proj2 (list_elem_of_In _ _) Hin)) as (e & Hs).
    rewrite Hsubject in Hs. discriminate Hs. }
  destruct (outcome _); destruct Hin.
Qed.

(** X23.  Unless the expected repository says [archived = False], the
    branch protection rules are not reconciled: every patch about a
    nested entity that the reconciliation of the repository hands over is
    about a webhook, a secret or the workflow settings of the expected or
    of the current repository. *)
Theorem repository_archived_skips_rules
    (expected : Repository.t) (current : option Repository.t)
    (parent_object : option Model) (context : LivePatchContext)
    (p : LivePatch.t) (n : Nested.t) :
  is_False (Repository.archived expected) = false ->
  In p (emitted (RepositoryPatch.generate_live_patch (Some expected) current
                   parent_object context)) ->
  patch_subject p = Some (MNested n) ->
  In n (entities_besides_rules expected)
  \/ exists c, current = Some c /\ In n (entities_besides_rules c).
Proof.
  intros Harchived. unfold RepositoryPatch.generate_live_patch.
  destruct current as [c |]; cbv zeta; rewrite emitted_bind;
    intros Hin Hsubject; apply in_app_or in Hin as [Hin | Hin].
  - exfalso. destruct (Nat.ltb 0 _); [| destruct Hin].
    destruct Hin as [<- | []]. discriminate Hsubject.
  - destruct (outcome _); [| destruct Hin].
    destruct (generate_nested_patches_subjects _ _ _ _ _ Harchived Hin
                Hsubject) as [He | (c' & [= <-] & Hc)].
    + left. exact He.
    + right. exists c. split; [reflexivity |].
      rewrite override_current_entities in Hc. exact Hc.
  - exfalso. destruct Hin as [<- | []]. discriminate Hsubject.
  - destruct (outcome _); [| destruct Hin].
    destruct (generate_nested_patches_subjects _ _ _ _ _ Harchived Hin
                Hsubject) as [He | (c' & [=] & _)].
    left. exact He.
Qed.

Lemma repository_archived_skips_rules_witness :
  let hook := Nested.mk WEBHOOK "https://ci.example.org" [] in
  let rule := Nested.mk BRANCH_PROTECTION_RULE "main" [] in
  let expected :=
    Repository.mk UNSET UNSET "web" UNSET UNSET UNSET UNSET UNSET UNSET UNSET
      UNSET UNSET UNSET UNSET UNSET UNSET UNSET UNSET UNSET UNSET UNSET UNSET
      UNSET UNSET (VBool true) UNSET UNSET UNSET UNSET UNSET UNSET UNSET UNSET
      UNSET None [] UNSET UNSET [hook] [] [rule] [] in
  In hook (entities_besides_rules expected)
  \/ exists c, Some (Repository.named "web") = Some c
               /\ In hook (entities_besides_rules c).
Proof.
  intros hook rule expected.
  apply (repository_archived_skips_rules expected
           (Some (Repository.named "web")) None sample_context
           (LivePatch.of_addition (MNested hook)
              (Some (MRepository (Repository.named "web"))))
           hook).
  - reflexivity.
  - vm_compute. right. left. reflexivity.
  - reflexivity.
Defined.

(** The run of the witness above: the webhook is added, the rule of the
    archived repository is passed over. *)
Example repository_archived_skips_rules_run :
  let hook := Nested.mk WEBHOOK "https://ci.example.org" [] in
  let rule := Nested.mk BRANCH_PROTECTION_RULE "main" [] in
  let expected :=
    Repository.mk UNSET UNSET "web" UNSET UNSET UNSET UNSET UNSET UNSET UNSET
      UNSET UNSET UNSET UNSET UNSET UNSET UNSET UNSET UNSET UNSET UNSET UNSET
      UNSET UNSET (VBool true) UNSET UNSET UNSET UNSET UNSET UNSET UNSET UNSET
      UNSET None [] UNSET UNSET [hook] [] [rule] [] in
  map (fun p => (LivePatch.patch_type p, model_key <$> patch_subject p))
    (emitted (RepositoryPatch.generate_live_patch (Some expected)
                (Some (Repository.named "web")) None sample_context))
  = [(CHANGE, Some "web"); (ADD, Some "https://ci.example.org")].
Proof. vm_compute. reflexivity. Qed.

(** ** Applying the patches of a reconciliation *)

Lemma for_current_environments_shapes parent context
    (current : list Environment.t) :
  forall (by_name : dict Environment.t) (p : LivePatch.t),
    In p (emitted (EnvironmentPatch.for_current_environments current by_name
                     parent context)) ->
    (exists c, In c current
       /\ p = LivePatch.of_deletion (MEnvironment c)
                (Some (MRepository parent)))
    \/ (exists e c,
          In (Environment.name c, e) by_name /\ In c current
          /\ p = LivePatch.of_changes (MEnvironment e) (MEnvironment c)
                   (get_difference_from e c) (Some (MRepository parent))
                   false).
Proof.
  induction current as [| c rest IH]; intros by_name p.
  - intros [].
  - cbn [EnvironmentPatch.for_current_environments].
    destruct (dict_get by_name (Environment.name c)) as [e |] eqn:Hget.
    + rewrite environment_patch_matched.
      erewrite emit_bind_Ok by reflexivity.
      rewrite (dict_pop_Some _ _ _ Hget), emit_bind_lift_Ok.
      unfold emitted at 1. cbn [fst]. intros Hin.
      apply in_app_or in Hin as [Hin | Hin].
      * destruct (Nat.ltb 0 (size (get_difference_from e c)));
          [| destruct Hin].
        destruct Hin as [<- | []]. right.
        exists e, c. split; [apply dict_get_Some_In; exact Hget |].
        split; [left; reflexivity | reflexivity].
      * destruct (IH _ _ Hin) as [(c' & Hc & ->) | (e' & c' & Hd & Hc & ->)].
        -- left. exists c'. split; [right; exact Hc | reflexivity].
        -- right. exists e', c'. split; [eapply dict_remove_In; exact Hd |].
           split; [right; exact Hc | reflexivity].
    + rewrite emitted_bind. intros Hin.
      apply in_app_or in Hin as [Hin | Hin].
      * destruct (EnvironmentPatch.keeps_github_pages parent context c);
          [destruct Hin |].
        destruct Hin as [<- | []]. left.
        exists c. split; [left; reflexivity | reflexivity].
      * destruct (outcome _); [| destruct Hin].
        destruct (IH _ _ Hin) as [(c' & Hc & ->) | (e' & c' & Hd & Hc & ->)].
        -- left. exists c'. split; [right; exact Hc | reflexivity].
        -- right. exists e', c'. split; [exact Hd |].
           split; [right; exact Hc | reflexivity].
Qed.

Lemma for_current_environments_remaining_In parent context
    (current : list Environment.t) :
  forall (by_name remaining : dict Environment.t) n e,
    outcome (EnvironmentPatch.for_current_environments current by_name parent
               context) = Ok remaining ->
    In (n, e) remaining -> In (n, e) by_name.
Proof.
  induction current as [| c rest IH]; intros by_name remaining n e.
  - intros [= <-] Hin. exact Hin.
  - cbn [EnvironmentPatch.for_current_environments].
    destruct (dict_get by_name (Environment.name c)) as [e0 |] eqn:Hget.
    + rewrite environment_patch_matched.
      erewrite emit_bind_Ok by reflexivity.
      rewrite (dict_pop_Some _ _ _ Hget), emit_bind_lift_Ok.
      unfold outcome at 1. cbn [snd]. intros Hout Hin.
      eapply dict_remove_In. exact (IH _ _ _ _ Hout Hin).
    + rewrite outcome_bind.
      destruct (outcome _); [| discriminate]. apply IH.
Qed.

(** Every patch of the reconciliation of two lists of environments is the
    addition of an expected environment, the deletion of a current one, or
    the change of a current one into an expected one, and has the
    repository as its parent. *)
Lemma environment_list_shapes
    (expected current : list Environment.t) (parent : Repository.t)
    (context : LivePatchContext) (p : LivePatch.t) :
  In p (emitted (EnvironmentPatch.generate_live_patch_of_list expected current
                   (Some (MRepository parent)) context)) ->
  (exists e, In e expected
     /\ p = LivePatch.of_addition (MEnvironment e) (Some (MRepository parent)))
  \/ (exists c, In c current
        /\ p = LivePatch.of_deletion (MEnvironment c)
                 (Some (MRepository parent)))
  \/ (exists e c, In e expected /\ In c current
        /\ p = LivePatch.of_changes (MEnvironment e) (MEnvironment c)
                 (get_difference_from e c) (Some (MRepository parent)) false).
Proof.
  unfold EnvironmentPatch.generate_live_patch_of_list.
  rewrite emit_bind_lift.
  destruct (associate_by_key Environment.name expected []) as [by_name |]
    eqn:Hassoc; [| intros []].
  rewrite emitted_bind. intros Hin.
  apply in_app_or in Hin as [Hin | Hin].
  - right.
    destruct (for_current_environments_shapes _ _ _ _ _ Hin)
      as [(c & Hc & ->) | (e & c & Hd & Hc & ->)].
    + left. exists c. split; [exact Hc | reflexivity].
    + right.
      destruct (associate_by_key_In _ _ _ _ _ _ Hassoc Hd) as [[] | [He _]].
      exists e, c. split; [exact He |]. split; [exact Hc | reflexivity].
  - left.
    destruct (outcome _) as [remaining |] eqn:Hout; [| destruct Hin].
    rewrite for_remaining_environments_spec in Hin.
    unfold emitted in Hin. cbn [fst] in Hin.
    apply in_map_iff in Hin as ([n e] & <- & Hrem).
    pose proof (for_current_environments_remaining_In _ _ _ _ _ _ _ Hout Hrem)
      as Hd.
    destruct (associate_by_key_In _ _ _ _ _ _ Hassoc Hd) as [[] | [He _]].
    exists e. split; [exact He | reflexivity].
Qed.

(** X24.  Every patch that the reconciliation of the environments of a
    repository hands over passes the assertions of
    [Environment.apply_live_patch], which then asks the provider, for the
    repository that is the parent, to add an expected environment, to
    delete a current one, or to update a current one with the changes of
    the patch; nothing is asked before the payload has been computed. *)
Theorem environment_patches_apply
    (to_provider_data : Environment.t -> string -> GitHubProvider -> result json)
    (changes_to_provider :
       string -> gmap string Change -> GitHubProvider -> result json)
    (expected current : list Environment.t) (parent : Repository.t)
    (context : LivePatchContext) (p : LivePatch.t)
    (org_id : string) (provider : GitHubProvider) :
  In p (emitted (EnvironmentPatch.generate_live_patch_of_list expected current
                   (Some (MRepository parent)) context)) ->
  let applied :=
    EnvironmentApply.apply_live_patch to_provider_data changes_to_provider p
      org_id provider in
  (exists e, In e expected
     /\ applied
        = (do data <- emit_lift (to_provider_data e org_id provider);
           emit (add_repo_environment org_id (Repository.name parent)
                   (Environment.name e) data))%emit)
  \/ (exists c, In c current
        /\ applied
           = emit (delete_repo_environment org_id (Repository.name parent)
                     (Environment.name c)))
  \/ (exists e c, In e expected /\ In c current
        /\ applied
           = (do data <- emit_lift
                           (changes_to_provider org_id
                              (get_difference_from e c) provider);
              emit (update_repo_environment org_id (Repository.name parent)
                      (Environment.name c) data))%emit).
Proof.
  intros Hin applied. subst applied.
  destruct (environment_list_shapes _ _ _ _ _ Hin)
    as [(e & He & ->) | [(c & Hc & ->) | (e & c & He & Hc & ->)]].
  - left. exists e. split; [exact He | reflexivity].
  - right. left. exists c. split; [exact Hc | reflexivity].
  - right. right. exists e, c. split; [exact He |].
    split; [exact Hc | reflexivity].
Qed.

Lemma environment_patches_apply_witness :
  emitted
    (EnvironmentApply.apply_live_patch (fun _ _ _ => Ok (JObj []))
       (fun _ _ _ => Ok (JObj []))
       (LivePatch.of_deletion (MEnvironment (sample_environment "staging"))
          (Some (MRepository (Repository.named "web"))))
       "acme" sample_provider)
  = [delete_repo_environment "acme" "web" "staging"].
Proof.
  destruct (environment_patches_apply (fun _ _ _ => Ok (JObj []))
              (fun _ _ _ => Ok (JObj []))
              [] [sample_environment "staging"] (Repository.named "web")
              sample_context
              (LivePatch.of_deletion
                 (MEnvironment (sample_environment "staging"))
                 (Some (MRepository (Repository.named "web"))))
              "acme" sample_provider)
    as [(e & [] & _) | [(c & Hc & Happlied) | (e & c & [] & _)]].
  - vm_compute. left. reflexivity.
  - rewrite Happlied. destruct Hc as [<- | []]. reflexivity.
Defined.

Lemma associate_keys_In {T} (item : T) (keys : list string) :
  forall acc d n x,
    associate_keys item keys acc = Ok d ->
    In (n, x) d -> In (n, x) acc \/ (x = item /\ In n keys).
Proof.
  induction keys as [| k keys IH]; intros acc d n x.
  - intros [= <-] Hin. left. exact Hin.
  - cbn [associate_keys].
    destruct (dict_contains acc k); [discriminate |]. intros Hd Hin.
    destruct (IH _ _ _ _ Hd Hin) as [Hacc | [-> Hk]].
    + destruct (dict_set_In _ _ _ _ _ Hacc) as [H | [-> ->]].
      * left. exact H.
      * right. split; [reflexivity | left; reflexivity].
    + right. split; [reflexivity | right; exact Hk].
Qed.

Lemma multi_associate_by_key_In {T} (key_func : T -> list string)
    (input : list T) :
  forall acc d n x,
    multi_associate_by_key key_func input acc = Ok d ->
    In (n, x) d ->
    In (n, x) acc \/ (In x input /\ In n (key_func x)).
Proof.
  induction input as [| item rest IH]; intros acc d n x.
  - intros [= <-] Hin. left. exact Hin.
  - cbn [multi_associate_by_key].
    destruct (associate_keys item (key_func item) acc) as [acc' |] eqn:Hkeys;
      [| discriminate].
    intros Hd Hin.
    destruct (IH _ _ _ _ Hd Hin) as [Hacc | [Hrest Hkey]].
    + destruct (associate_keys_In _ _ _ _ _ _ Hkeys Hacc) as [H | [-> Hk]].
      * left. exact H.
      * right. split; [left; reflexivity | exact Hk].
    + right. split; [right; exact Hrest | exact Hkey].
Qed.

Lemma pop_all_names_In names :
  forall (by_all_names remaining : dict Repository.t) n e,
    RepositoryPatch.pop_all_names names by_all_names = Ok remaining ->
    In (n, e) remaining -> In (n, e) by_all_names.
Proof.
  induction names as [| k names IH]; intros d d' n e.
  - intros [= <-] Hin. exact Hin.
  - cbn [RepositoryPatch.pop_all_names].
    destruct (dict_pop d k) as [d1 |] eqn:Hpop; [| discriminate].
    cbn [result_bind]. intros Hrest Hin.
    apply dict_pop_Ok in Hpop as [-> _].
    eapply dict_remove_In. exact (IH _ _ _ _ Hrest Hin).
Qed.

Lemma repository_addition_patch expected parent context p :
  In p (emitted (RepositoryPatch.generate_live_patch (Some expected) None
                   parent context)) ->
  mentions_repository p = true ->
  p = LivePatch.of_addition (MRepository expected) parent.
Proof.
  unfold RepositoryPatch.generate_live_patch.
  rewrite emitted_bind. intros Hin Hrepo.
  apply in_app_or in Hin as [Hin | Hin].
  - destruct Hin as [<- | []]. reflexivity.
  - exfalso. destruct (outcome _); [| destruct Hin].
    pose proof (generate_nested_patches_no_repository expected None context)
      as Hall.
    rewrite Forall_forall in Hall.
    rewrite (Hall p (proj2 (list_elem_of_In _ _) Hin)) in Hrepo.
    discriminate Hrepo.
Qed.

Lemma for_current_repos_shapes expected_repos context
    (current : list Repository.t) :
  forall (by_all_names by_name : dict Repository.t),
    (forall n e, In (n, e) by_all_names ->
       In e expected_repos /\ In n (Repository.get_all_names e)) ->
    (forall p,
       In p (emitted (RepositoryPatch.for_current_repos current by_all_names
                        by_name context)) ->
       mentions_repository p = true ->
       (exists c, In c current
          /\ p = LivePatch.of_deletion (MRepository c) None)
       \/ (exists e c,
             In e expected_repos /\ In c current
             /\ In (Repository.name c) (Repository.get_all_names e)
             /\ p = LivePatch.of_changes (MRepository e)
                      (MRepository
                         (RepositoryPatch.override_current context c))
                      (RepositoryPatch.modified_repo context e
                         (RepositoryPatch.override_current context c))
                      None false))
    /\ (forall remaining n e,
          outcome (RepositoryPatch.for_current_repos current by_all_names
                     by_name context) = Ok remaining ->
          In (n, e) remaining -> In (n, e) by_name).
Proof.
  induction current as [| c rest IH]; intros by_all by_name Hall.
  - split; [intros p [] |]. intros remaining n e [= <-] Hin. exact Hin.
  - cbn [RepositoryPatch.for_current_repos].
    destruct (dict_get by_all (Repository.name c)) as [e |] eqn:Hget.
    + destruct (Hall _ _ (dict_get_Some_In _ _ _ Hget)) as [He Hname].
      split.
      * intros p. rewrite emitted_bind. intros Hin Hrepo.
        apply in_app_or in Hin as [Hin | Hin].
        -- right. exists e, c. split; [exact He |].
           split; [left; reflexivity |]. split; [exact Hname |].
           exact (repository_change_patch _ _ _ _ _ Hin Hrepo).
        -- match type of Hin with
           | In _ (match ?o with _ => _ end) =>
               destruct o; [| destruct Hin]
           end.
           rewrite emit_bind_lift in Hin.
           destruct (RepositoryPatch.pop_all_names _ by_all)
             as [by_all' |] eqn:Hpop; [| destruct Hin].
           rewrite emit_bind_lift in Hin.
           destruct (dict_pop by_name (Repository.name e))
             as [by_name' |] eqn:Hpop'; [| destruct Hin].
           destruct (IH by_all' by_name') as [Hshapes _].
           { intros n' e' Hin'. apply Hall.
             exact (pop_all_names_In _ _ _ _ _ Hpop Hin'). }
           destruct (Hshapes p Hin Hrepo)
             as [(c' & Hc & ->) | (e' & c' & He' & Hc & Hn & ->)].
           ++ left. exists c'. split; [right; exact Hc | reflexivity].
           ++ right. exists e', c'. split; [exact He' |].
              split; [right; exact Hc |]. split; [exact Hn | reflexivity].
      * intros remaining n e'. rewrite outcome_bind.
        destruct (outcome _); [| discriminate].
        rewrite emit_bind_lift.
        destruct (RepositoryPatch.pop_all_names _ by_all)
          as [by_all' |] eqn:Hpop; [| discriminate].
        rewrite emit_bind_lift.
        destruct (dict_pop by_name (Repository.name e))
          as [by_name' |] eqn:Hpop'; [| discriminate].
        destruct (IH by_all' by_name') as [_ Hrem].
        { intros n' e'' Hin'. apply Hall.
          exact (pop_all_names_In _ _ _ _ _ Hpop Hin'). }
        intros Hout Hin. apply dict_pop_Ok in Hpop' as [-> _].
        eapply dict_remove_In. exact (Hrem _ _ _ Hout Hin).
    + destruct (IH by_all by_name Hall) as [Hshapes Hrem]. split.
      * intros p. rewrite emitted_bind. intros Hin Hrepo.
        apply in_app_or in Hin as [Hin | Hin].
        -- left. exists c. split; [left; reflexivity |].
           change (LivePatch.of_deletion (MRepository c) None = p \/ False)
             in Hin.
           destruct Hin as [<- | []]. reflexivity.
        -- match type of Hin with
           | In _ (match ?o with _ => _ end) =>
               destruct o; [| destruct Hin]
           end.
           destruct (Hshapes p Hin Hrepo)
             as [(c' & Hc & ->) | (e' & c' & He' & Hc & Hn & ->)].
           ++ left. exists c'. split; [right; exact Hc | reflexivity].
           ++ right. exists e', c'. split; [exact He' |].
              split; [right; exact Hc |]. split; [exact Hn | reflexivity].
      * intros remaining n e. rewrite outcome_bind.
        destruct (outcome _); [| discriminate]. apply Hrem.
Qed.

Lemma for_remaining_repos_shapes context (remaining : dict Repository.t) p :
  In p (emitted (RepositoryPatch.for_remaining_repos remaining context)) ->
  mentions_repository p = true ->
  exists n e, In (n, e) remaining
              /\ p = LivePatch.of_addition (MRepository e) None.
Proof.
  induction remaining as [| [n e] rest IH];
    cbn [RepositoryPatch.for_remaining_repos]; [intros [] |].
  rewrite emitted_bind. intros Hin Hrepo.
  apply in_app_or in Hin as [Hin | Hin].
  - exists n, e. split; [left; reflexivity |].
    exact (repository_addition_patch _ _ _ _ Hin Hrepo).
  - destruct (outcome _); [| destruct Hin].
    destruct (IH Hin Hrepo) as (n' & e' & Hin' & ->).
    exists n', e'. split; [right; exact Hin' | reflexivity].
Qed.

(** Every patch about a repository that the reconciliation of two lists
    of repositories hands over is the addition of an expected repository,
    the deletion of a current one, or the change of a current one, after
    the organization-wide override, into the expected repository that has
    its name as name or alias. *)
Lemma repository_list_shapes
    (expected current : list Repository.t) (context : LivePatchContext)
    (p : LivePatch.t) :
  In p (emitted (RepositoryPatch.generate_live_patch_of_list expected current
                   context)) ->
  mentions_repository p = true ->
  (exists e, In e expected
     /\ p = LivePatch.of_addition (MRepository e) None)
  \/ (exists c, In c current
        /\ p = LivePatch.of_deletion (MRepository c) None)
  \/ (exists e c,
        In e expected /\ In c current
        /\ In (Repository.name c) (Repository.get_all_names e)
        /\ p = LivePatch.of_changes (MRepository e)
                 (MRepository (RepositoryPatch.override_current context c))
                 (RepositoryPatch.modified_repo context e
                    (RepositoryPatch.override_current context c))
                 None false).
Proof.
  unfold RepositoryPatch.generate_live_patch_of_list.
  rewrite emit_bind_lift.
  destruct (multi_associate_by_key Repository.get_all_names expected [])
    as [by_all |] eqn:Hall; [| intros []].
  rewrite emit_bind_lift.
  destruct (associate_by_key Repository.name expected []) as [by_name |]
    eqn:Hname; [| intros []].
  destruct (for_current_repos_shapes expected context current by_all by_name)
    as [Hshapes Hrem].
  { intros n e Hin.
    destruct (multi_associate_by_key_In _ _ _ _ _ _ Hall Hin) as [[] | H].
    exact H. }
  rewrite emitted_bind. intros Hin Hrepo.
  apply in_app_or in Hin as [Hin | Hin].
  - right. exact (Hshapes p Hin Hrepo).
  - left. destruct (outcome _) as [remaining |] eqn:Hout; [| destruct Hin].
    destruct (for_remaining_repos_shapes _ _ _ Hin Hrepo)
      as (n & e & Hin' & ->).
    pose proof (Hrem _ _ _ eq_refl Hin') as Hd.
    destruct (associate_by_key_In _ _ _ _ _ _ Hname Hd) as [[] | [He _]].
    exists e. split; [exact He | reflexivity].
Qed.

(** X25.  Every patch about a repository that the reconciliation of two
    lists of repositories hands over passes the assertions of
    [Repository.apply_live_patch], which then asks the provider to add an
    expected repository, to delete a repository of the current list, or
    to update a repository of the current list, addressed by its current
    name, with the changes towards the expected repository that has this
    name as its name or as an alias. *)
Theorem repository_patches_apply
    (to_provider_data : Repository.t -> string -> GitHubProvider -> result json)
    (changes_to_provider :
       string -> gmap string Change -> GitHubProvider -> result json)
    (expected current : list Repository.t) (context : LivePatchContext)
    (p : LivePatch.t) (org_id : string) (provider : GitHubProvider) :
  In p (emitted (RepositoryPatch.generate_live_patch_of_list expected current
                   context)) ->
  mentions_repository p = true ->
  let applied :=
    RepositoryApply.apply_live_patch to_provider_data changes_to_provider p
      org_id provider in
  (exists e, In e expected
     /\ applied
        = (do data <- emit_lift (to_provider_data e org_id provider);
           emit (add_repo org_id data (Repository.template_repository e)
                   (Repository.post_process_template_content e)
                   (Repository.auto_init e)))%emit)
  \/ (exists c, In c current
        /\ applied = emit (delete_repo org_id (Repository.name c)))
  \/ (exists e c,
        In e expected /\ In c current
        /\ In (Repository.name c) (Repository.get_all_names e)
        /\ applied
           = (do data <- emit_lift
                           (changes_to_provider org_id
                              (RepositoryPatch.modified_repo context e
                                 (RepositoryPatch.override_current context c))
                              provider);
              emit (update_repo org_id (Repository.name c) data))%emit).
Proof.
  intros Hin Hrepo applied. subst applied.
  destruct (repository_list_shapes _ _ _ _ Hin Hrepo)
    as [(e & He & ->) | [(c & Hc & ->) | (e & c & He & Hc & Hn & ->)]].
  - left. exists e. split; [exact He | reflexivity].
  - right. left. exists c. split; [exact Hc | reflexivity].
  - right. right. exists e, c. split; [exact He |]. split; [exact Hc |].
    split; [exact Hn |].
    unfold RepositoryApply.apply_live_patch. cbn.
    rewrite override_current_name. reflexivity.
Qed.

Lemma repository_patches_apply_witness :
  emitted
    (RepositoryApply.apply_live_patch (fun _ _ _ => Ok (JObj []))
       (fun _ _ _ => Ok (JObj []))
       (LivePatch.of_deletion (MRepository (Repository.named "old")) None)
       "acme" sample_provider)
  = [delete_repo "acme" "old"].
Proof.
  destruct (repository_patches_apply (fun _ _ _ => Ok (JObj []))
              (fun _ _ _ => Ok (JObj []))
              [] [Repository.named "old"] sample_context
              (LivePatch.of_deletion (MRepository (Repository.named "old"))
                 None)
              "acme" sample_provider)
    as [(e & [] & _) | [(c & Hc & Happlied) | (e & c & [] & _)]].
  - vm_compute. left. reflexivity.
  - reflexivity.
  - rewrite Happlied. destruct Hc as [<- | []]. reflexivity.
Defined.

(** ** The import operation *)

Lemma append_length (s1 s2 : string) :
  String.length (s1 +:+ s2) = (String.length s1 + String.length s2)%nat.
Proof. induction s1 as [| c s1 IH]; simpl; [reflexivity | rewrite IH; reflexivity]. Qed.

Lemma backup_file_differs (org_file_name : string) :
  org_file_name +:+ ".bak" <> org_file_name.
Proof.
  intros H. apply (f_equal String.length) in H.
  rewrite append_length in H. simpl in H. lia.
Qed.

(** X26.  [ImportOperation.execute] never loses an existing definition:
    whatever the user answers and however the import ends, the contents
    that the definition file had are afterwards found in that file or in
    its backup; no file but these two is touched; and the exit code is 0
    only if the definition file holds what was rendered from the
    provider. *)
Theorem import_keeps_existing_definition
    (Credentials : Type) (get_credentials : result Credentials)
    (load_and_render : Credentials -> bool -> result string)
    (self : ImportOperation.t) (org_file_name answer : string)
    (files : gmap string string) :
  let ended := ImportOperation.execute Credentials get_credentials
               load_and_render self org_file_name answer files in
  (forall contents,
     files !! org_file_name = Some contents ->
     fst ended !! org_file_name = Some contents
     \/ fst ended !! (org_file_name +:+ ".bak") = Some contents)
  /\ (forall path,
        path <> org_file_name -> path <> org_file_name +:+ ".bak" ->
        fst ended !! path = files !! path)
  /\ (snd ended = Ok 0 ->
      exists credentials output,
        get_credentials = Ok credentials
        /\ load_and_render credentials (ImportOperation.no_web_ui self)
           = Ok output
        /\ fst ended !! org_file_name = Some output).
Proof.
  intros ended. subst ended. unfold ImportOperation.execute. cbv zeta.
  destruct (if _ && _ then _ else false).
  { split; [| split].
    - intros contents H. left. exact H.
    - reflexivity.
    - discriminate. }
  set (backed_up := match files !! org_file_name with
                    | Some contents =>
                        <[org_file_name +:+ ".bak" := contents]> files
                    | None => files
                    end).
  assert (Hbackup : forall contents,
            files !! org_file_name = Some contents ->
            backed_up !! org_file_name = Some contents
            /\ backed_up !! (org_file_name +:+ ".bak") = Some contents).
  { intros contents H. subst backed_up. rewrite H. split.
    - rewrite lookup_insert_ne by apply backup_file_differs. exact H.
    - apply lookup_insert_eq. }
  assert (Hother : forall path,
            path <> org_file_name +:+ ".bak" ->
            backed_up !! path = files !! path).
  { intros path Hne. subst backed_up.
    destruct (files !! org_file_name); [| reflexivity].
    apply lookup_insert_ne. congruence. }
  clearbody backed_up.
  destruct get_credentials as [credentials | e].
  - destruct (load_and_render credentials (ImportOperation.no_web_ui self))
      as [output | e] eqn:Hload; cbn [fst snd]; (split; [| split]).
    + intros contents H. right.
      rewrite lookup_insert_ne
        by (intros Heq; exact (backup_file_differs _ (eq_sym Heq))).
      apply Hbackup. exact H.
    + intros path Hne Hne'. rewrite lookup_insert_ne by congruence.
      apply Hother. exact Hne'.
    + intros _. exists credentials, output.
      split; [reflexivity |]. split; [exact Hload |]. apply lookup_insert_eq.
    + intros contents H. left. apply Hbackup. exact H.
    + intros path _ Hne'. apply Hother. exact Hne'.
    + discriminate.
  - destruct e; cbn [fst snd]; (split; [| split]);
      try discriminate;
      try (intros contents H; left; apply Hbackup; exact H);
      try (intros path _ Hne'; apply Hother; exact Hne').
Qed.

Lemma import_keeps_existing_definition_witness :
  let ended :=
    ImportOperation.execute unit (Ok tt) (fun _ _ => Ok "{ new }")
      (ImportOperation.mk true false) "orgs/acme.jsonnet" ""
      {[ "orgs/acme.jsonnet" := "{ old }" ]} in
  fst ended !! "orgs/acme.jsonnet" = Some "{ old }"
  \/ fst ended !! ("orgs/acme.jsonnet" +:+ ".bak") = Some "{ old }".
Proof.
  intros ended.
  apply (import_keeps_existing_definition unit (Ok tt)
           (fun _ _ => Ok "{ new }") (ImportOperation.mk true false)
           "orgs/acme.jsonnet" "" {[ "orgs/acme.jsonnet" := "{ old }" ]}).
  reflexivity.
Defined.

(** ** The statuses of the validation of a pull request *)

(** X27.  For a pull request that is at hand, [validate_pull_request],
    once it has the REST API of the installation, first asks for the
    [pending] status, and every status it asks for is for the head commit
    of the pull request and the configured context.  If that request
    raises, nothing follows.  Otherwise the validation runs: when it
    returns, [success] is asked for if it returned 0 and [error] if not;
    [failure] is asked for exactly when a [RuntimeError] came out of the
    validation or out of the request for [success] or [error]; after any
    other exception nothing more is asked for. *)
Theorem pull_request_status_protocol
    (RestApi PullRequest : Type) (head_sha : PullRequest -> string)
    (get_rest_api_for_installation : result RestApi)
    (get_pull_request : RestApi -> Z -> result (option PullRequest))
    (_execute_validation : PullRequest -> RestApi -> result Z)
    (commit_status_response :
       RestApi -> ValidatePullRequest.CommitStatus -> result unit)
    (_get_webhook_context : string)
    (rest_api : RestApi) (pull_request : PullRequest) :
  get_rest_api_for_installation = Ok rest_api ->
  let statuses :=
    emitted (ValidatePullRequest.validate_pull_request RestApi PullRequest
               head_sha get_rest_api_for_installation get_pull_request
               _execute_validation commit_status_response
               _get_webhook_context (inl pull_request)) in
  exists pending final,
    statuses = pending :: final
    /\ ValidatePullRequest.state pending = "pending"
    /\ Forall (fun status =>
                 ValidatePullRequest.sha status = head_sha pull_request
                 /\ ValidatePullRequest.context status = _get_webhook_context)
         statuses
    /\ match commit_status_response rest_api pending with
       | Raise _ => final = []
       | Ok _ =>
           match _execute_validation pull_request rest_api with
           | Ok plan_result =>
               exists concluding after,
                 final = concluding :: after
                 /\ ValidatePullRequest.state concluding
                    = (if plan_result =? 0 then "success" else "error")
                 /\ map ValidatePullRequest.state after
                    = match commit_status_response rest_api concluding with
                      | Raise (RuntimeError _) => ["failure"]
                      | _ => []
                      end
           | Raise (RuntimeError _) =>
               map ValidatePullRequest.state final = ["failure"]
           | Raise _ => final = []
           end
       end.
Proof.
  intros -> statuses. subst statuses.
  cbv [ValidatePullRequest.validate_pull_request
         ValidatePullRequest._create_pending_status
         ValidatePullRequest._create_failure_status
         ValidatePullRequest._update_final_status
         ValidatePullRequest.create_commit_status
         except_RuntimeError emit_bind emit_lift emit_ret emit emitted
         outcome app fst snd].
  set (pending := ValidatePullRequest.Build_CommitStatus
                    (head_sha pull_request) "pending" _ _).
  set (failure := ValidatePullRequest.Build_CommitStatus
                    (head_sha pull_request) "failure" _ _).
  exists pending.
  destruct (commit_status_response rest_api pending) as [[] | e].
  2: { exists []. repeat split. repeat constructor. }
  destruct (_execute_validation pull_request rest_api) as [plan_result | e].
  - set (concluding := ValidatePullRequest.Build_CommitStatus
                         (head_sha pull_request)
                         (if plan_result =? 0 then _ else _) _ _).
    destruct (commit_status_response rest_api concluding) as [[] | e]
      eqn:Hconcluding.
    + exists [concluding]. split; [reflexivity |]. split; [reflexivity |].
      split; [repeat constructor |]. exists concluding, [].
      split; [reflexivity |]. split; [reflexivity |].
      rewrite Hconcluding. reflexivity.
    + destruct e;
        try (destruct (commit_status_response rest_api failure) as [[] | e']);
        (eexists; split; [reflexivity |]; split; [reflexivity |];
         split; [repeat constructor |]; exists concluding; eexists;
         split; [reflexivity |]; split; [reflexivity |];
         rewrite Hconcluding; reflexivity).
  - destruct e;
      try (destruct (commit_status_response rest_api failure) as [[] | e']);
      (eexists; split; [reflexivity |]; split; [reflexivity |];
       split; [repeat constructor |]; reflexivity).
Qed.

Lemma pull_request_status_protocol_witness :
  map ValidatePullRequest.state
    (emitted (ValidatePullRequest.validate_pull_request unit string
                (fun head => head) (Ok tt) (fun _ _ => Ok None)
                (fun _ _ => Ok 0)
                (fun _ status =>
                   if String.eqb (ValidatePullRequest.state status) "success"
                   then Raise (RuntimeError "502 Bad Gateway")
                   else Ok tt)
                "otterdog" (inl "4f2a9c1")))
  = ["pending"; "success"; "failure"].
Proof.
  destruct (pull_request_status_protocol unit string (fun head => head)
              (Ok tt) (fun _ _ => Ok None) (fun _ _ => Ok 0)
              (fun _ status =>
                 if String.eqb (ValidatePullRequest.state status) "success"
                 then Raise (RuntimeError "502 Bad Gateway")
                 else Ok tt)
              "otterdog" tt "4f2a9c1" eq_refl)
    as (pending & final & -> & Hpending & _ & Hfinal).
  cbn [map]. rewrite Hpending in *.
  change (String.eqb "pending" "success") with false in Hfinal.
  cbv beta iota in Hfinal.
  destruct Hfinal as (concluding & after & -> & Hstate & Hafter).
  change (0 =? 0) with true in Hstate. cbv iota in Hstate.
  cbn [map]. rewrite Hstate in *.
  change (String.eqb "success" "success") with true in Hafter.
  cbv iota in Hafter. rewrite Hafter. reflexivity.
Defined.

(** ** The validate operation and the validation of the settings *)

Lemma ok_bind {O A B} (m : Emit O A) (f : A -> Emit O B) (b : B) :
  outcome (emit_bind m f) = Ok b ->
  exists a,
    outcome m = Ok a /\ outcome (f a) = Ok b
    /\ emitted (emit_bind m f) = emitted m ++ emitted (f a).
Proof.
  rewrite outcome_bind, emitted_bind.
  destruct (outcome m) as [a | e]; [| discriminate].
  intros Hout. exists a. repeat split. exact Hout.
Qed.

Lemma dependabot_findings_app (a b : list Failure) :
  ValidateOperation.dependabot_findings (a ++ b)
  = (ValidateOperation.dependabot_findings a
     + ValidateOperation.dependabot_findings b)%nat.
Proof.
  unfold ValidateOperation.dependabot_findings.
  rewrite List.filter_app, List.length_app. reflexivity.
Qed.

Lemma dependabot_findings_other (msg : string) (findings : list Failure) :
  Forall (fun finding => snd finding = msg) findings ->
  String.eqb msg OrganizationSettings.dependabot_needs_dependency_graph
  = false ->
  String.eqb msg OrganizationSettings.security_updates_need_alerts = false ->
  ValidateOperation.dependabot_findings findings = 0%nat.
Proof.
  intros Hall H1 H2. unfold ValidateOperation.dependabot_findings.
  induction Hall as [| finding findings Hmsg _ IH]; [reflexivity |].
  cbn [List.filter]. rewrite Hmsg, H1, H2. exact IH.
Qed.

Lemma guard_findings (c : bool) (ty : FailureType) (msg : string) :
  Forall (fun finding : Failure => snd finding = msg)
    (emitted (if c then add_failure ty msg else emit_ret tt)).
Proof. destruct c; repeat constructor. Qed.

Lemma lifted_guard_findings {A} (r : result A) (c : A -> bool)
    (ty : FailureType) (msg : string) :
  Forall (fun finding : Failure => snd finding = msg)
    (emitted (emit_bind (emit_lift r)
                (fun a => if c a then add_failure ty msg else emit_ret tt))).
Proof.
  apply Forall_emitted_bind; [constructor |]. intros a _.
  apply guard_findings.
Qed.

Lemma guarded_lifted_findings {A} (b : bool) (r : result A) (c : A -> bool)
    (ty : FailureType) (msg : string) :
  Forall (fun finding : Failure => snd finding = msg)
    (emitted
       (if b
        then emit_bind (emit_lift r)
               (fun a => if c a then add_failure ty msg else emit_ret tt)
        else emit_ret tt)).
Proof. destruct b; [apply lifted_guard_findings | constructor]. Qed.

(** X28.  The validate operation and the validation of the settings
    agree on Dependabot: on settings that hold the same three flags, and
    without custom findings, the number of errors that
    [ValidateOperation] counts for a configuration without webhooks is the
    number of findings with one of the two Dependabot messages that
    [OrganizationSettings.validate], ending normally, hands over. *)
Theorem validate_operation_agrees_on_dependabot
    (custom : OrganizationSettings.t -> string -> Emit Failure unit)
    (is_set_and_present : value -> bool)
    (self : OrganizationSettings.t) (settings : gmap string value) :
  OrganizationSettings.dependabot_alerts_enabled_for_new_repositories self
  = data_get settings "dependabot_alerts_enabled_for_new_repositories" VNone ->
  OrganizationSettings.dependabot_security_updates_enabled_for_new_repositories
    self
  = data_get settings
      "dependabot_security_updates_enabled_for_new_repositories" VNone ->
  OrganizationSettings.dependency_graph_enabled_for_new_repositories self
  = data_get settings "dependency_graph_enabled_for_new_repositories" VNone ->
  emitted (custom self "validate-org-settings.py") = [] ->
  outcome (OrganizationSettings.validate custom is_set_and_present self)
  = Ok tt ->
  ValidateOperation.validation_errors settings []
  = Z.of_nat
      (ValidateOperation.dependabot_findings
         (emitted (OrganizationSettings.validate custom is_set_and_present
                     self))).
Proof.
  intros Halerts Hupdates Hgraph Hcustom Hout.
  unfold ValidateOperation.validation_errors. cbv zeta. cbn [fold_left].
  rewrite <- Halerts, <- Hupdates, <- Hgraph.
  unfold OrganizationSettings.validate in Hout |- *. cbv zeta in Hout |- *.
  destruct (ok_bind _ _ _ Hout) as ([] & _ & Hout1 & ->). clear Hout.
  destruct (ok_bind _ _ _ Hout1) as ([] & _ & Hout2 & ->). clear Hout1.
  destruct (ok_bind _ _ _ Hout2) as ([] & _ & Hout3 & ->). clear Hout2.
  destruct (ok_bind _ _ _ Hout3) as ([] & _ & Hout4 & ->). clear Hout3.
  destruct (ok_bind _ _ _ Hout4) as ([] & _ & Hout5 & ->). clear Hout4.
  destruct (ok_bind _ _ _ Hout5) as ([] & _ & Hout6 & ->). clear Hout5.
  destruct (ok_bind _ _ _ Hout6) as ([] & _ & Hout7 & ->). clear Hout6.
  rewrite !dependabot_findings_app, Hcustom.
  change (ValidateOperation.dependabot_findings []) with 0%nat.
  repeat match goal with
         | |- context [ValidateOperation.dependabot_findings ?l] =>
             rewrite (dependabot_findings_other _ l)
               by first
                    [ reflexivity
                    | apply lifted_guard_findings
                    | apply guard_findings
                    | apply guarded_lifted_findings ]
         end.
  destruct (is_True
              (OrganizationSettings.dependabot_alerts_enabled_for_new_repositories
                 self)),
    (is_True
       (OrganizationSettings.dependabot_security_updates_enabled_for_new_repositories
          self)),
    (is_False
       (OrganizationSettings.dependency_graph_enabled_for_new_repositories
          self));
    reflexivity.
Qed.

Lemma validate_operation_agrees_on_dependabot_witness :
  let self :=
    OrganizationSettings.mk UNSET UNSET UNSET UNSET UNSET UNSET UNSET UNSET
      UNSET UNSET UNSET UNSET UNSET UNSET UNSET UNSET UNSET
      (VBool false) (VBool true) (VBool false) UNSET UNSET UNSET UNSET UNSET
      UNSET UNSET UNSET UNSET UNSET UNSET UNSET UNSET UNSET in
  let settings : gmap string value :=
    list_to_map
      [("dependabot_alerts_enabled_for_new_repositories", VBool false);
       ("dependabot_security_updates_enabled_for_new_repositories",
        VBool true);
       ("dependency_graph_enabled_for_new_repositories", VBool false)] in
  ValidateOperation.validation_errors settings []
  = Z.of_nat
      (ValidateOperation.dependabot_findings
         (emitted (OrganizationSettings.validate (fun _ _ => emit_ret tt)
                     is_set_and_valid self))).
Proof.
  intros self settings.
  apply (validate_operation_agrees_on_dependabot (fun _ _ => emit_ret tt)
           is_set_and_valid self settings); reflexivity.
Defined.

Lemma count_dummy_secrets (webhook_secrets : list string) (n : Z) :
  fold_left
    (fun validation_errors secret =>
       if ValidateOperation.is_dummy_secret secret
       then validation_errors + 1
       else validation_errors)
    webhook_secrets n
  = n + Z.of_nat
          (length (List.filter ValidateOperation.is_dummy_secret
                     webhook_secrets)).
Proof.
  revert n. induction webhook_secrets as [| secret rest IH]; intros n.
  - cbn. lia.
  - cbn [fold_left List.filter]. rewrite IH.
    destruct (ValidateOperation.is_dummy_secret secret); cbn [length]; lia.
Qed.

(** X29.  [ValidateOperation.execute] returns 0 exactly when the
    configuration file exists and loads, the settings pass the two
    Dependabot rules and no webhook has a secret made of asterisks only.
    A missing file gives 1, and so does a configuration file whose
    loading raises [RuntimeError]; any other exception raised while
    loading passes. *)
Theorem validate_operation_exit_code
    (file_exists : bool)
    (load_from_file : result (gmap string value * list string)) :
  (ValidateOperation.execute file_exists load_from_file = Ok 0
   <-> file_exists = true
       /\ exists settings webhook_secrets,
            load_from_file = Ok (settings, webhook_secrets)
            /\ (is_True (data_get settings
                           "dependabot_alerts_enabled_for_new_repositories"
                           VNone)
                || is_True
                     (data_get settings
                        "dependabot_security_updates_enabled_for_new_repositories"
                        VNone))
               && is_False
                    (data_get settings
                       "dependency_graph_enabled_for_new_repositories" VNone)
               = false
            /\ is_True
                 (data_get settings
                    "dependabot_security_updates_enabled_for_new_repositories"
                    VNone)
               && negb
                    (is_True
                       (data_get settings
                          "dependabot_alerts_enabled_for_new_repositories"
                          VNone))
               = false
            /\ Forall (fun secret =>
                         ValidateOperation.is_dummy_secret secret = false)
                 webhook_secrets)
  /\ (file_exists = false ->
      ValidateOperation.execute file_exists load_from_file = Ok 1)
  /\ (forall ex,
        load_from_file = Raise (RuntimeError ex) ->
        ValidateOperation.execute file_exists load_from_file = Ok 1)
  /\ (forall e,
        file_exists = true ->
        load_from_file = Raise e ->
        (forall ex, e <> RuntimeError ex) ->
        ValidateOperation.execute file_exists load_from_file = Raise e).
Proof.
  split; [| split; [| split]].
  2: { intros ->. reflexivity. }
  2: { intros ex ->. destruct file_exists; reflexivity. }
  2: { intros e -> -> Hother. destruct e; try reflexivity.
       destruct (Hother msg eq_refl). }
  unfold ValidateOperation.execute.
  destruct file_exists; cbn [negb]; [| split; [discriminate | intros [[=] _]]].
  destruct load_from_file as [[settings secrets] | e].
  - unfold ValidateOperation.validation_errors. cbv zeta.
    rewrite count_dummy_secrets.
    set (dummies := List.filter ValidateOperation.is_dummy_secret secrets).
    assert (Hdummies : length dummies = 0%nat
                       <-> Forall (fun secret =>
                                     ValidateOperation.is_dummy_secret secret
                                     = false) secrets).
    { subst dummies. clear.
      induction secrets as [| s rest IH]; cbn [List.filter].
      - split; [constructor | reflexivity].
      - destruct (ValidateOperation.is_dummy_secret s) eqn:E.
        + split; [discriminate |]. intros H. apply Forall_cons in H as [H _].
          congruence.
        + rewrite IH. split; [intros H; constructor; assumption |].
          intros H. apply Forall_cons in H as [_ H]. exact H. }
    split.
    + intros [= H]. split; [reflexivity |]. exists settings, secrets.
      split; [reflexivity |].
      destruct (_ && is_False _), (is_True _ && negb _);
        (split; [| split]); try reflexivity; try apply Hdummies; lia.
    + intros (_ & settings' & secrets' & [= <- <-] & H1 & H2 & H3).
      rewrite H1, H2. apply Hdummies in H3. rewrite H3. reflexivity.
  - split.
    + destruct e; discriminate.
    + intros (_ & settings & secrets & [=] & _).
Qed.

Lemma validate_operation_exit_code_witness :
  ValidateOperation.execute true
    (Raise (RuntimeError "failed to evaluate jsonnet file"))
  = Ok 1.
Proof.
  destruct (validate_operation_exit_code true
              (Raise (RuntimeError "failed to evaluate jsonnet file")))
    as (_ & _ & Hload & _).
  apply (Hload "failed to evaluate jsonnet file"). reflexivity.
Defined.

(** ** The source of GitHub Pages under a build that has none *)

(** X30.  When the expected repository builds GitHub Pages with
    ["disabled"] or ["workflow"], its two source properties are no fields
    of the difference computation, are in no difference, and are not in
    the change set handed to a [CHANGE] patch either: the source path is
    not added on behalf of the source branch. *)
Theorem repository_pages_source_ignored
    (context : LivePatchContext) (expected current : Repository.t)
    (f : string) :
  Repository.gh_pages_build_type expected = VStr "disabled"
  \/ Repository.gh_pages_build_type expected = VStr "workflow" ->
  In f Repository._gh_pages_properties ->
  (forall field, Field.name field = f ->
     include_field_for_diff_computation expected field = false)
  /\ get_difference_from expected current !! f = None
  /\ RepositoryPatch.modified_repo context expected current !! f = None.
Proof.
  intros Hbuild Hf.
  assert (Hexcluded : forall f', In f' Repository._gh_pages_properties ->
            forall field, Field.name field = f' ->
              include_field_for_diff_computation expected field = false).
  { intros f' Hf' field Hname. cbn.
    unfold Repository.include_field_for_diff_computation.
    rewrite Hname.
    assert (Hin : name_in f' Repository._gh_pages_properties = true)
      by (apply name_in_In; exact Hf').
    assert (Hsec : name_in f' Repository._security_properties = false).
    { destruct Hf' as [<- | [<- | []]]; reflexivity. }
    assert (Harch : name_in f' Repository._unavailable_fields_in_archived_repos
                    = false).
    { destruct Hf' as [<- | [<- | []]]; reflexivity. }
    rewrite Hsec, Harch, Hin, !andb_false_r.
    destruct Hbuild as [-> | ->]; reflexivity. }
  assert (Hdiff : forall f', In f' Repository._gh_pages_properties ->
            get_difference_from expected current !! f' = None).
  { intros f' Hf'. apply get_difference_from_excluded.
    exact (Hexcluded f' Hf'). }
  split; [exact (Hexcluded f Hf) |]. split; [exact (Hdiff f Hf) |].
  unfold RepositoryPatch.modified_repo.
  destruct (bool_decide
              (is_Some (get_difference_from expected current
                          !! "gh_pages_source_branch"))) eqn:Hbranch.
  { apply bool_decide_eq_true in Hbranch as [x Hx].
    rewrite (Hdiff "gh_pages_source_branch") in Hx by (left; reflexivity).
    discriminate Hx. }
  destruct (_ && _).
  - rewrite lookup_delete_ne; [exact (Hdiff f Hf) |].
    destruct Hf as [<- | [<- | []]]; discriminate.
  - exact (Hdiff f Hf).
Qed.

Lemma repository_pages_source_ignored_witness :
  let expected :=
    Repository.setattr
      (Repository.setattr (Repository.named "web") "gh_pages_build_type"
         (VStr "workflow"))
      "gh_pages_source_branch" (VStr "main") in
  let current :=
    Repository.setattr
      (Repository.setattr (Repository.named "web") "gh_pages_build_type"
         (VStr "workflow"))
      "gh_pages_source_branch" (VStr "gh-pages") in
  (forall field, Field.name field = "gh_pages_source_branch" ->
     include_field_for_diff_computation expected field = false)
  /\ get_difference_from expected current !! "gh_pages_source_branch" = None
  /\ RepositoryPatch.modified_repo sample_context expected current
       !! "gh_pages_source_branch" = None.
Proof.
  intros expected current.
  apply (repository_pages_source_ignored sample_context expected current
           "gh_pages_source_branch").
  - right. reflexivity.
  - left. reflexivity.
Defined.
